(** * telegram-auto-deletion: a shallow embedding of [imghdr.py] and [delete.py]

    The development follows the two source files.  Python values are modelled
    as follows:
    - [bytes] is [list Byte.byte];
    - [str] is [string], read as a sequence of code points below 256
      (Latin-1), with [str.lower], [str.strip], [str.isdigit] and [int()]
      written out on that range;
    - [int] is [Z];
    - objects that are mutated in place ([TelegramItem]) live in a store,
      and lists of such objects are lists of references into the store;
    - a call that may raise returns a [result]; terminal input, printing,
      logging and remote calls are threaded through a state monad whose
      state records the remaining standard input and the trace of effects;
      a line read from standard input is recorded with the prompt of the
      [input] call that read it. *)

From Stdlib Require Import ZArith List String Ascii Bool Lia.
From Stdlib.Strings Require Import Byte.
From Stdlib Require Import DecimalString Decimal.
From Stdlib Require Import Floats.PrimFloat.
From stdpp Require Import base list.

Local Open Scope string_scope.

(** ** Exceptions and results *)

(** The exceptions the two files can meet.  [SystemExit] and
    [KeyboardInterrupt] derive from [BaseException] only; every other one
    is an [Exception].  The last constructor is not an exception: it is the
    outcome of a call that never returns, such as [asyncio.sleep] with an
    infinite delay.  It goes up like an exception that nothing catches,
    and no [finally] clause runs after it. *)
Inductive exn : Type :=
| SystemExit (code : Z)
| EOFError
| ValueError
| OSError
| AttributeError
| FloodWaitError (seconds : Z)
| IndexError
| KeyboardInterrupt
| PhoneNumberInvalidError
| RemoteError (msg : string)
| NeverReturns.

Inductive result (A : Type) : Type :=
| Normal (a : A)
| Raise (e : exn).
Arguments Normal {A} a.
Arguments Raise {A} e.

(** [isinstance(e, Exception)] *)
Definition is_Exception (e : exn) : bool :=
  match e with
  | SystemExit _ | KeyboardInterrupt | NeverReturns => false
  | _ => true
  end.

(** Whether a result is that of a call that never returns. *)
Definition returns_never {A} (r : result A) : bool :=
  match r with
  | Raise NeverReturns => true
  | _ => false
  end.

(** ** imghdr.py *)

Module Imghdr.

Abbreviation bytes := (list byte) (only parsing).

(** [h.startswith(p)] *)
Fixpoint startswith (h p : bytes) {struct p} : bool :=
  match p with
  | [] => true
  | x :: p' =>
      match h with
      | [] => false
      | y :: h' => Byte.eqb y x && startswith h' p'
      end
  end.

(** [h[i:j]] for constant non-negative bounds: the slice is clipped to the
    length of [h] and never raises. *)
Definition slice (h : bytes) (i j : nat) : bytes := take (j - i) (drop i h).

(** [a == b] on byte strings. *)
Fixpoint bytes_eqb (a b : bytes) : bool :=
  match a, b with
  | [], [] => true
  | x :: a', y :: b' => Byte.eqb x y && bytes_eqb a' b'
  | _, _ => false
  end.

(** [f.read(n)] on a binary stream whose remaining content is [rest]. *)
Definition read (n : nat) (rest : bytes) : bytes := take n rest.

(** The magic numbers, as the byte strings of the source. *)
Definition sig_jpeg  : bytes := [xff; xd8].
Definition sig_png   : bytes := [x89; x50; x4e; x47; x0d; x0a; x1a; x0a].
Definition sig_gif87 : bytes := [x47; x49; x46; x38; x37; x61].
Definition sig_gif89 : bytes := [x47; x49; x46; x38; x39; x61].
Definition sig_riff  : bytes := [x52; x49; x46; x46].
Definition sig_webp  : bytes := [x57; x45; x42; x50].
Definition sig_bmp   : bytes := [x42; x4d].
Definition sig_ico   : bytes := [x00; x00; x01; x00].
Definition sig_cur   : bytes := [x00; x00; x02; x00].
Definition sig_tiff_le : bytes := [x49; x49; x2a; x00].
Definition sig_tiff_be : bytes := [x4d; x4d; x00; x2a].

(** What the first argument of [what] can be. *)
Inductive file_arg : Type :=
| Path (name : string)
    (** a [str]: a file name *)
| Handle (content : bytes) (location : nat) (closed : bool)
    (** a binary file object: its content, its position and whether it has
        been closed ([tell] raises [ValueError] on a closed file) *)
| BytesObject (b : bytes).
    (** a [bytes] object, which has no [tell] method *)

(** The file system: the content of each file that [open(name, 'rb')] can
    open; [None] when [open] raises [OSError] (missing file, no permission,
    a directory). *)
Definition filesystem := string -> option bytes.

(** Lines 17-24: the header when [h is None]. *)
Definition load_header (fs : filesystem) (file : file_arg) : result bytes :=
  match file with
  | Path name =>
      match fs name with
      | Some content => Normal (read 32 content)
      | None => Raise OSError
      end
  | Handle content location closed =>
      if closed then Raise ValueError
      else Normal (read 32 (drop location content))
  | BytesObject _ => Raise AttributeError
  end.

(** Lines 26-42: the chain of tests on the header. *)
Definition sniff (h : bytes) : option string :=
  if startswith h sig_jpeg then Some "jpeg"
  else if startswith h sig_png then Some "png"
  else if startswith h sig_gif87 || startswith h sig_gif89 then Some "gif"
  else if startswith h sig_riff && bytes_eqb (slice h 8 12) sig_webp
       then Some "webp"
  else if startswith h sig_bmp then Some "bmp"
  else if startswith h sig_ico then Some "ico"
  else if startswith h sig_cur then Some "cur"
  else if startswith h sig_tiff_le || startswith h sig_tiff_be then Some "tiff"
  else None.

(** [what(file, h=None)] *)
Definition what (fs : filesystem) (file : file_arg) (h : option bytes)
  : result (option string) :=
  match h with
  | Some h => Normal (sniff h)
  | None =>
      match load_header fs file with
      | Normal h => Normal (sniff h)
      | Raise e => Raise e
      end
  end.

(** The first bytes of a WAVE file: a RIFF container that is not WEBP. *)
Definition riff_wave : bytes :=
  [x52; x49; x46; x46; x24; x00; x00; x00; x57; x41; x56; x45; x66; x6d; x74; x20].

End Imghdr.

(** ** Python [str] and [int] operations used by delete.py *)

Module Py.

Definition code (c : ascii) : N := N_of_ascii c.

Definition in_range (lo hi n : N) : bool := (lo <=? n)%N && (n <=? hi)%N.

(** [c.lower()]: the upper-case letters below 256 are A-Z and the Latin-1
    letters 0xC0-0xDE other than the multiplication sign 0xD7; each one is
    32 below its lower-case form. *)
Definition lower_char (c : ascii) : ascii :=
  let n := code c in
  if in_range 65 90 n || (in_range 192 222 n && negb (n =? 215)%N)
  then ascii_of_N (n + 32)
  else c.

(** [s.lower()] *)
Fixpoint lower (s : string) : string :=
  match s with
  | EmptyString => EmptyString
  | String c s' => String (lower_char c) (lower s')
  end.

(** [c.isspace()], the characters [str.strip()] removes. *)
Definition isspace (c : ascii) : bool :=
  let n := code c in
  in_range 9 13 n || in_range 28 32 n || (n =? 133)%N || (n =? 160)%N.

Fixpoint lstrip_by (sp : ascii -> bool) (s : string) : string :=
  match s with
  | EmptyString => EmptyString
  | String c s' => if sp c then lstrip_by sp s' else s
  end.

Fixpoint rstrip_by (sp : ascii -> bool) (s : string) : string :=
  match s with
  | EmptyString => EmptyString
  | String c s' =>
      match rstrip_by sp s' with
      | EmptyString => if sp c then EmptyString else String c EmptyString
      | r => String c r
      end
  end.

(** [s.strip()] *)
Definition strip (s : string) : string := rstrip_by isspace (lstrip_by isspace s).

(** [sub in s] *)
Fixpoint contains (sub s : string) : bool :=
  String.prefix sub s ||
  match s with
  | EmptyString => false
  | String _ s' => contains sub s'
  end.

(** [s.split(sep)] for a separator of one character. *)
Fixpoint split (sep : ascii) (s : string) : list string :=
  match s with
  | EmptyString => [EmptyString]
  | String c s' =>
      if Ascii.eqb c sep then EmptyString :: split sep s'
      else match split sep s' with
           | [] => [String c EmptyString]
           | p :: ps => String c p :: ps
           end
  end.

(** A decimal digit for [int()]: below 256 these are 0-9 only. *)
Definition isdecimal_char (c : ascii) : bool := in_range 48 57 (code c).

(** [c.isdigit()]: 0-9 and the superscripts two, three and one. *)
Definition isdigit_char (c : ascii) : bool :=
  let n := code c in
  in_range 48 57 n || (n =? 178)%N || (n =? 179)%N || (n =? 185)%N.

Fixpoint all_chars (p : ascii -> bool) (s : string) : bool :=
  match s with
  | EmptyString => true
  | String c s' => p c && all_chars p s'
  end.

(** [s.isdigit()]: false on the empty string. *)
Definition isdigit (s : string) : bool :=
  match s with
  | EmptyString => false
  | _ => all_chars isdigit_char s
  end.

(** White space that [int()] skips around a literal: the ASCII white space
    of the C locale, and the two further white-space characters below 256. *)
Definition int_space (c : ascii) : bool :=
  let n := code c in
  in_range 9 13 n || (n =? 32)%N || (n =? 133)%N || (n =? 160)%N.

(** The digits of the literal: digits separated by single underscores. *)
Fixpoint literal_digits (s : string) (after_digit : bool) : option (list Z) :=
  match s with
  | EmptyString => if after_digit then Some [] else None
  | String c s' =>
      if isdecimal_char c then
        match literal_digits s' true with
        | Some ds => Some ((Z.of_N (code c) - 48)%Z :: ds)
        | None => None
        end
      else if Ascii.eqb c "_" then
        if after_digit then literal_digits s' false else None
      else None
  end.

Definition digits_value (ds : list Z) : Z :=
  fold_left (fun acc d => (10 * acc + d)%Z) ds 0%Z.

(** [sys.get_int_max_str_digits()] *)
Definition int_max_str_digits : nat := 4300.

(** [int(s)] for a [str]: [ValueError] unless [s] is, between optional
    white space, an optional sign and a decimal literal of at most
    [int_max_str_digits] digits. *)
Definition int (s : string) : result Z :=
  let body := rstrip_by int_space (lstrip_by int_space s) in
  let '(negative, unsigned) :=
    match body with
    | String "-" r => (true, r)
    | String "+" r => (false, r)
    | _ => (false, body)
    end in
  match literal_digits unsigned false with
  | Some ds =>
      if (int_max_str_digits <? length ds)%nat then Raise ValueError
      else Normal (if negative then (- digits_value ds)%Z else digits_value ds)
  | None => Raise ValueError
  end.

(** [str(n)] for an [int]. *)
Definition str (n : Z) : string := NilZero.string_of_int (Z.to_int n).

(** [str(n)] for a [len()] or a counter. *)
Definition str_nat (n : nat) : string := str (Z.of_nat n).

(** [x if x else d] inside an f-string, for an attribute that is a string
    or [None]: [None] and the empty string are both false. *)
Definition or_else (x : option string) (d : string) : string :=
  match x with
  | Some (String c r) => String c r
  | _ => d
  end.

(** [f"{x}"] for an attribute that is a string or [None]. *)
Definition format_opt (x : option string) : string :=
  match x with
  | Some s => s
  | None => "None"
  end.

End Py.

(** ** delete.py: data *)

Module Delete.

(** [telethon.tl.types.User], with the attributes the script reads. *)
Record UserT : Type := {
  user_id : Z;
  first_name : option string;
  last_name : option string;
  username : option string
}.

(** What [dialog.entity] can be, by the [isinstance] tests of the script.
    The flags of a [Channel] are read for their truth value. *)
Inductive Entity : Type :=
| User (u : UserT)
| Channel (channel_id : Z) (broadcast megagroup : bool)
| Chat (chat_id : Z)
| OtherEntity (id_attr : option Z).
    (** any other object, with its [id] attribute when it has one *)

(** [telethon.tl.custom.Dialog] *)
Record Dialog : Type := {
  dialog_name : string;
  dialog_entity : Entity
}.

(** [class TelegramItem] *)
Record TelegramItem : Type := {
  id : Z;
  name : string;
  type : string;
  entity : Entity;
  selected : bool
}.

(** [TelegramItem.__init__] *)
Definition TelegramItem_init (id : Z) (name type : string) (entity : Entity)
  : TelegramItem :=
  {| id := id; name := name; type := type; entity := entity;
     selected := false |}.

(** [TelegramItem.__str__] *)
Definition TelegramItem_str (item : TelegramItem) : string :=
  name item ++ " (" ++ type item ++ ")".

(** [item.selected = b] *)
Definition set_selected (b : bool) (item : TelegramItem) : TelegramItem :=
  {| id := id item; name := name item; type := type item;
     entity := entity item; selected := b |}.

(** [item.selected = not item.selected] *)
Definition toggle (item : TelegramItem) : TelegramItem :=
  set_selected (negb (selected item)) item.

(** The objects of class [TelegramItem] created so far; a reference to one
    is its index.  Items are only ever reached through references that
    [get_all_items] handed out. *)
Abbreviation store := (list TelegramItem) (only parsing).
Abbreviation ref := nat (only parsing).

#[global] Instance TelegramItem_inhabited : Inhabited TelegramItem :=
  populate (TelegramItem_init 0 "" "" (OtherEntity None)).

(** The dictionary [items] of [get_all_items]: its four keys are created in
    this order and never change. *)
Record Inventory : Type := {
  private_chats : list ref;
  groups : list ref;
  channels : list ref;
  other : list ref
}.

(** [all_items.items()], in insertion order. *)
Definition dict_items (all_items : Inventory) : list (string * list ref) :=
  [("private_chats", private_chats all_items);
   ("groups", groups all_items);
   ("channels", channels all_items);
   ("other", other all_items)].

(** The requests the script builds. *)
Inductive Request : Type :=
| DeleteHistoryRequest (peer : Entity) (max_id : Z) (just_clear revoke : bool)
| LeaveChannelRequest (channel : Entity)
| DeleteChatUserRequest (chat_id : Z) (user_id : string).

(** The parsed command line. *)
Record Namespace : Type := {
  all : bool;
  chats : bool;
  groups_flag : bool;
  channels_flag : bool;
  delay : float;
  interactive : bool
}.

(** The session object.  Each method is given by what it does when the
    script calls it:
    - [start] may read lines from standard input (the login code) and
      returns what is left of it, or raises;
    - [iter_dialogs] yields a sequence of dialogs and may then raise;
    - [call], the invocation [client(request)], answers from the requests
      made so far and the present one: [None] when the request succeeds,
      the exception otherwise. *)
Record TelegramClient : Type := {
  start : string -> list string -> result (list string);
  is_user_authorized : result bool;
  get_me : result UserT;
  iter_dialogs : list Dialog * option exn;
  call : list Request -> Request -> option exn
}.

(** ** delete.py: effects *)

Inductive event : Type :=
| Stdout (text : string)
    (** text written to standard output *)
| Stdin (prompt line : string)
    (** a line read from standard input, without its newline, by the call
        [input(prompt)] *)
| Log (level msg : string) (exc : option exn)
    (** a record of [logger]: the message is [msg], followed by [str(e)]
        when [exc] is [Some e] *)
| Invoke (r : Request)
    (** [await client(r)] *)
| Sleep (seconds : float)
    (** [await asyncio.sleep(seconds)] *)
| Started (phone : string)
    (** [await client.start(phone=phone, ...)] *)
| Disconnect.
    (** [await client.disconnect()] *)

Record World : Type := {
  stdin : list string;
  trace : list event;
  heap : store
}.

Definition M (A : Type) : Type := World -> result A * World.

Definition ret {A} (a : A) : M A := fun w => (Normal a, w).

Definition raise {A} (e : exn) : M A := fun w => (Raise e, w).

Definition bind {A B} (m : M A) (k : A -> M B) : M B :=
  fun w =>
    match m w with
    | (Normal a, w') => k a w'
    | (Raise e, w') => (Raise e, w')
    end.

Declare Scope py_scope.
Delimit Scope py_scope with py.
Notation "x <- m ;; k" := (bind m (fun x => k))
  (at level 100, m at next level, right associativity) : py_scope.
Notation "m ;; k" := (bind m (fun _ => k))
  (at level 100, right associativity) : py_scope.
Local Open Scope py_scope.

(** [try: m except ...: handler] where [handles e] tells whether an
    [except] clause matches. *)
Definition try_except {A} (m : M A) (handles : exn -> bool)
    (handler : exn -> M A) : M A :=
  fun w =>
    match m w with
    | (Raise e, w') => if handles e then handler e w' else (Raise e, w')
    | r => r
    end.

(** [try: m finally: f]: [f] runs on every way out of [m]; there is no
    way out of an [m] that never returns. *)
Definition try_finally {A} (m : M A) (f : M unit) : M A :=
  fun w =>
    match m w with
    | (r, w') =>
        if returns_never r then (r, w')
        else
          match f w' with
          | (Normal _, w'') => (r, w'')
          | (Raise e, w'') => (Raise e, w'')
          end
    end.

Definition emit (e : event) : M unit :=
  fun w => (Normal tt, {| stdin := stdin w; trace := (trace w ++ [e])%list;
                          heap := heap w |}).

(** [print(s)] and [print(s, end="")] *)
Definition nl : string := String "010" "".
Definition print (s : string) : M unit := emit (Stdout (s ++ nl)).
Definition print_end (s : string) : M unit := emit (Stdout s).

(** [logger.error(msg)] and [logger.warning(msg)] *)
Definition logger_error (msg : string) (exc : option exn) : M unit :=
  emit (Log "ERROR" msg exc).
Definition logger_warning (msg : string) : M unit :=
  emit (Log "WARNING" msg None).

(** [input(prompt)]: the prompt is written, then a line is read;
    [EOFError] at the end of input. *)
Definition input (prompt : string) : M string :=
  emit (Stdout prompt) ;;
  fun w =>
    match stdin w with
    | [] => (Raise EOFError, w)
    | line :: rest =>
        (Normal line,
         {| stdin := rest; trace := (trace w ++ [Stdin prompt line])%list;
            heap := heap w |})
    end.

(** The requests made so far. *)
Definition requests (t : list event) : list Request :=
  omap (fun e => match e with Invoke r => Some r | _ => None end) t.

(** [await client(r)] *)
Definition invoke (client : TelegramClient) (r : Request) : M unit :=
  fun w =>
    let w' := {| stdin := stdin w; trace := (trace w ++ [Invoke r])%list;
                 heap := heap w |} in
    match call client (requests (trace w)) r with
    | None => (Normal tt, w')
    | Some e => (Raise e, w')
    end.

(** The interpreter.  The repository is written for Python 3.13 (it ships
    [imghdr.py] because that version removed the module); [sleep] is the
    one place where the versions differ. *)
Definition python_3_13 : bool := true.

(** [await asyncio.sleep(d)], for the float that [argparse] made of
    [--delay]: a delay that is zero or negative (minus infinity too) gives
    control back at once, and a positive finite delay after that time; with
    plus infinity the call never returns; with a NaN it raises [ValueError]
    from Python 3.13 on and never returns before.  The event records the
    call. *)
Definition sleep (d : float) : M unit :=
  emit (Sleep d) ;;
  if (d <=? 0)%float then ret tt
  else if is_nan d then
    if python_3_13 then raise ValueError else raise NeverReturns
  else if is_infinity d then raise NeverReturns
  else ret tt.

(** Reading an object through a reference. *)
Definition deref (r : ref) : M TelegramItem :=
  fun w => (Normal (heap w !!! r), w).

(** Updating an object in place. *)
Definition update (r : ref) (f : TelegramItem -> TelegramItem) : M unit :=
  fun w => (Normal tt, {| stdin := stdin w; trace := trace w;
                          heap := alter f r (heap w) |}).

(** Creating an object. *)
Definition new (item : TelegramItem) : M ref :=
  fun w => (Normal (length (heap w)),
            {| stdin := stdin w; trace := trace w; heap := (heap w ++ [item])%list |}).

(** [for x in l: body x] *)
Fixpoint for_each {A} (l : list A) (body : A -> M unit) : M unit :=
  match l with
  | [] => ret tt
  | x :: l' => body x ;; for_each l' body
  end.


(** ** delete.py: [get_all_items] *)

(** The four keys of [items]. *)
Inductive key : Type := private_chats_key | groups_key | channels_key | other_key.

(** [items[k].append(r)] *)
Definition append (k : key) (r : ref) (items : Inventory) : Inventory :=
  match k with
  | private_chats_key =>
      {| private_chats := private_chats items ++ [r]; groups := groups items;
         channels := channels items; other := other items |}
  | groups_key =>
      {| private_chats := private_chats items; groups := groups items ++ [r];
         channels := channels items; other := other items |}
  | channels_key =>
      {| private_chats := private_chats items; groups := groups items;
         channels := channels items ++ [r]; other := other items |}
  | other_key =>
      {| private_chats := private_chats items; groups := groups items;
         channels := channels items; other := other items ++ [r] |}
  end%list.

(** The f-string of lines 84 and 352. *)
Definition user_label (u : UserT) : string :=
  Py.format_opt (first_name u) ++ " " ++ Py.or_else (last_name u) ""
  ++ " (@" ++ Py.or_else (username u) "No username" ++ ")".

(** Lines 77-139, the body of the loop: the key under which a dialog is
    filed and the item made for it. *)
Definition classify (dialog : Dialog) : key * TelegramItem :=
  let entity := dialog_entity dialog in
  match entity with
  | User u =>
      (private_chats_key,
       TelegramItem_init (user_id u) (user_label u) "Private Chat" entity)
  | Channel channel_id broadcast megagroup =>
      if broadcast then
        (channels_key,
         TelegramItem_init channel_id (dialog_name dialog) "Broadcast Channel" entity)
      else if megagroup then
        (groups_key,
         TelegramItem_init channel_id (dialog_name dialog) "Supergroup" entity)
      else
        (channels_key,
         TelegramItem_init channel_id (dialog_name dialog) "Channel" entity)
  | Chat chat_id =>
      (groups_key,
       TelegramItem_init chat_id (dialog_name dialog) "Small Group" entity)
  | OtherEntity id_attr =>
      (other_key,
       TelegramItem_init (default 0%Z id_attr) (dialog_name dialog) "Other" entity)
  end.

(** Line 76: the loop over the dialogs that [iter_dialogs] yields. *)
Fixpoint file_dialogs (dialogs : list Dialog) (items : Inventory) : M Inventory :=
  match dialogs with
  | [] => ret items
  | dialog :: dialogs' =>
      let '(k, item) := classify dialog in
      r <- new item ;;
      file_dialogs dialogs' (append k r items)
  end.

Definition get_all_items (client : TelegramClient) : M Inventory :=
  let items := {| private_chats := []; groups := []; channels := [];
                  other := [] |} in
  let '(dialogs, failure) := iter_dialogs client in
  items <- file_dialogs dialogs items ;;
  match failure with
  | Some e => raise e
  | None => ret items
  end.

(** ** delete.py: the deletion functions *)

Definition is_FloodWaitError (e : exn) : bool :=
  match e with FloodWaitError _ => true | _ => false end.

(** The two [except] clauses shared by [delete_private_chat] and
    [leave_group_or_channel]; [context] is the text of the second message
    up to the exception. *)
Definition log_and_fail (context : string) (e : exn) : M bool :=
  match e with
  | FloodWaitError seconds =>
      logger_error ("Rate limited. Please wait " ++ Py.str seconds
                    ++ " seconds before trying again.") None ;;
      ret false
  | _ =>
      logger_error context (Some e) ;;
      ret false
  end.

Definition delete_private_chat (client : TelegramClient) (r : ref) : M bool :=
  item <- deref r ;;
  try_except
    (invoke client (DeleteHistoryRequest (entity item) 0 false true) ;;
     ret true)
    is_Exception
    (log_and_fail ("Error deleting chat with " ++ name item ++ " (ID: "
                   ++ Py.str (id item) ++ "): ")).

(** [isinstance(e, Channel)] *)
Definition is_Channel (e : Entity) : bool :=
  match e with Channel _ _ _ => true | _ => false end.

Definition leave_group_or_channel (client : TelegramClient) (r : ref) : M bool :=
  item <- deref r ;;
  try_except
    ((if is_Channel (entity item)
      then invoke client (LeaveChannelRequest (entity item))
      else invoke client (DeleteChatUserRequest (id item) "me")) ;;
     ret true)
    is_Exception
    (log_and_fail ("Error leaving " ++ type item ++ " " ++ name item
                   ++ " (ID: " ++ Py.str (id item) ++ "): ")).

Definition delete_item (client : TelegramClient) (r : ref) : M bool :=
  item <- deref r ;;
  if String.eqb (type item) "Private Chat" then
    delete_private_chat client r
  else if Py.contains "Group" (type item) || Py.contains "Channel" (type item) then
    leave_group_or_channel client r
  else
    logger_warning ("Unknown item type: " ++ type item ++ ". Skipping "
                    ++ name item ++ ".") ;;
    ret false.


(** ** delete.py: [interactive_selection] *)

(** [enumerate(l, start)] *)
Fixpoint enumerate {A} (start : nat) (l : list A) : list (nat * A) :=
  match l with
  | [] => []
  | x :: l' => (start, x) :: enumerate (S start) l'
  end.

(** [range(a, b)] *)
Definition range (a b : Z) : list Z :=
  map (fun k => (a + Z.of_nat k)%Z) (seq 0 (Z.to_nat (b - a))).

(** [l[i]]: negative indices count from the end, and an index outside the
    list raises [IndexError]. *)
Definition getitem (l : list ref) (i : Z) : M ref :=
  let n := Z.of_nat (length l) in
  let j := if (i <? 0)%Z then (i + n)%Z else i in
  if (0 <=? j)%Z && (j <? n)%Z
  then match l !! Z.to_nat j with
       | Some r => ret r
       | None => raise IndexError
       end
  else raise IndexError.

(** [[item for item in flat_items if item.selected]] *)
Definition selected_of (flat_items : list ref) : M (list ref) :=
  fun w => (Normal (List.filter (fun r => selected (heap w !!! r)) flat_items), w).

(** Lines 228-231: the buckets, one after the other. *)
Definition flatten (all_items : Inventory) : list ref :=
  concat (map snd (dict_items all_items)).

(** Lines 240-249: the menu printed at every turn. *)
Definition print_commands : M unit :=
  print (nl ++ "Commands:") ;;
  print "  number       - Toggle selection of a specific item (e.g., '5')" ;;
  print "  range        - Toggle a range of items (e.g., '5-10')" ;;
  print "  all          - Select all items" ;;
  print "  none         - Deselect all items" ;;
  print "  chats        - Select all private chats" ;;
  print "  groups       - Select all groups" ;;
  print "  channels     - Select all channels" ;;
  print "  done         - Proceed with the selected items" ;;
  print "  quit         - Exit without making changes".

(** [start, end = map(int, parts)]: the parts are converted as the
    unpacking asks for them; it asks for a third one to see that there is
    none. *)
Definition unpack_ints (parts : list string) : result (Z * Z) :=
  match parts with
  | [] => Raise ValueError
  | a :: rest =>
      match Py.int a with
      | Raise e => Raise e
      | Normal start_ =>
          match rest with
          | [] => Raise ValueError
          | b :: rest' =>
              match Py.int b with
              | Raise e => Raise e
              | Normal end_ =>
                  match rest' with
                  | [] => Normal (start_, end_)
                  | c :: _ =>
                      match Py.int c with
                      | Raise e => Raise e
                      | Normal _ => Raise ValueError
                      end
                  end
              end
          end
      end
  end.

Definition lift {A} (r : result A) : M A := fun w => (r, w).

Definition is_ValueError (e : exn) : bool :=
  match e with ValueError => true | _ => false end.

(** [1 <= i <= len(flat_items)] *)
Definition in_bounds (i : Z) (flat_items : list ref) : bool :=
  (1 <=? i)%Z && (i <=? Z.of_nat (length flat_items))%Z.

(** [flat_items[i].selected = not flat_items[i].selected] *)
Definition toggle_at (flat_items : list ref) (i : Z) : M unit :=
  r <- getitem flat_items i ;;
  update r toggle.

(** Lines 292-302 *)
Definition range_command (flat_items : list ref) (cmd : string) : M unit :=
  try_except
    (bounds <- lift (unpack_ints (Py.split "-" cmd)) ;;
     let '(start_, end_) := bounds in
     if in_bounds start_ flat_items && in_bounds end_ flat_items then
       for_each (range (start_ - 1) end_) (toggle_at flat_items) ;;
       print ("Toggled selection for items " ++ Py.str start_ ++ " to "
              ++ Py.str end_ ++ ".")
     else
       print ("Invalid range. Please use numbers between 1 and "
              ++ Py.str_nat (length flat_items) ++ "."))
    is_ValueError
    (fun _ => print "Invalid range format. Use 'start-end' (e.g., '5-10').").

(** Lines 304-311 *)
Definition number_command (flat_items : list ref) (cmd : string) : M unit :=
  idx <- lift (Py.int cmd) ;;
  if in_bounds idx flat_items then
    toggle_at flat_items (idx - 1) ;;
    r <- getitem flat_items (idx - 1) ;;
    item <- deref r ;;
    let selected_ := if selected item then "Selected" else "Deselected" in
    r' <- getitem flat_items (idx - 1) ;;
    item' <- deref r' ;;
    print (selected_ ++ " item: " ++ name item')
  else
    print ("Invalid item number. Please use a number between 1 and "
           ++ Py.str_nat (length flat_items) ++ ".").

(** [for item in flat_items: if test(item): item.selected = True] *)
Definition select_where (flat_items : list ref) (test : TelegramItem -> bool)
  : M unit :=
  for_each flat_items (fun r =>
    item <- deref r ;;
    if test item then update r (set_selected true) else ret tt).

(** Lines 264-314: the commands after which the loop goes on to print the
    count of selected items. *)
Definition run_command (flat_items : list ref) (cmd : string) : M unit :=
  if String.eqb cmd "all" then
    for_each flat_items (fun r => update r (set_selected true)) ;;
    print "All items selected."
  else if String.eqb cmd "none" then
    for_each flat_items (fun r => update r (set_selected false)) ;;
    print "All items deselected."
  else if String.eqb cmd "chats" then
    select_where flat_items (fun item => String.eqb (type item) "Private Chat") ;;
    print "All private chats selected."
  else if String.eqb cmd "groups" then
    select_where flat_items (fun item => Py.contains "Group" (type item)) ;;
    print "All groups selected."
  else if String.eqb cmd "channels" then
    select_where flat_items (fun item => Py.contains "Channel" (type item)) ;;
    print "All channels selected."
  else if Py.contains "-" cmd then
    range_command flat_items cmd
  else if Py.isdigit cmd then
    number_command flat_items cmd
  else
    print "Unknown command. Please try again.".

(** Lines 316-318 *)
Definition print_status (flat_items : list ref) : M unit :=
  selected_items <- selected_of flat_items ;;
  let selected_count := length selected_items in
  print (nl ++ "Currently selected: " ++ Py.str_nat selected_count
         ++ " out of " ++ Py.str_nat (length flat_items) ++ " items").

Definition command_prompt : string := nl ++ "Enter command: ".

(** Taking the next line of standard input, when there is one. *)
Definition read_line (line : string) (rest : list string) : M unit :=
  fun w => (Normal tt,
            {| stdin := rest;
               trace := (trace w ++ [Stdin command_prompt line])%list;
               heap := heap w |}).

(** Lines 239-318, [while True].  Every turn of the loop reads one line, so
    the loop is defined by recursion on [lines], the lines standard input
    still holds; it ends with [EOFError] when they run out. *)
Fixpoint command_loop (flat_items : list ref) (lines : list string)
  : M (list ref) :=
  print_commands ;;
  emit (Stdout command_prompt) ;;
  match lines with
  | [] => raise EOFError
  | line :: rest =>
      read_line line rest ;;
      let cmd := Py.lower (Py.strip line) in
      if String.eqb cmd "done" then
        selected_items <- selected_of flat_items ;;
        match selected_items with
        | [] =>
            print "No items selected. Please select at least one item or type 'quit'." ;;
            command_loop flat_items rest
        | _ => ret selected_items
        end
      else if String.eqb cmd "quit" then
        print "Operation cancelled." ;;
        raise (SystemExit 0)
      else
        run_command flat_items cmd ;;
        print_status flat_items ;;
        command_loop flat_items rest
  end.

Definition interactive_selection (all_items : Inventory) : M (list ref) :=
  let flat_items := flatten all_items in
  print (nl ++ "Select items to delete/leave:") ;;
  for_each (enumerate 1 flat_items) (fun numbered =>
    let '(i, r) := numbered in
    item <- deref r ;;
    let selected_ := if selected item then "[X]" else "[ ]" in
    print (Py.str_nat i ++ ". " ++ selected_ ++ " " ++ TelegramItem_str item)) ;;
  fun w => command_loop flat_items (stdin w) w.


(** ** delete.py: [main] *)

(** [d[k] = d.get(k, 0) + 1] on a dictionary kept in insertion order. *)
Fixpoint count_up (d : list (string * nat)) (k : string) : list (string * nat) :=
  match d with
  | [] => [(k, 1)]
  | (k', v) :: d' =>
      if String.eqb k' k then (k', S v) :: d' else (k', v) :: count_up d' k
  end.

(** Lines 429-431 *)
Fixpoint count_types (items_to_delete : list ref) (type_counts : list (string * nat))
  : M (list (string * nat)) :=
  match items_to_delete with
  | [] => ret type_counts
  | r :: rest =>
      item <- deref r ;;
      count_types rest (count_up type_counts (type item))
  end.

(** Lines 447-459: the loop over [enumerate(items_to_delete, 1)], with
    [n = len(items_to_delete)]; it returns [success_count]. *)
Fixpoint delete_loop (client : TelegramClient) (delay : float) (n : nat)
    (numbered : list (nat * ref)) (success_count : nat) : M nat :=
  match numbered with
  | [] => ret success_count
  | (i, r) :: rest =>
      item <- deref r ;;
      print_end ("Processing " ++ Py.str_nat i ++ "/" ++ Py.str_nat n ++ ": "
                 ++ name item ++ " (" ++ type item ++ ")...") ;;
      success <- delete_item client r ;;
      success_count' <-
        (if success : bool
         then print " Done" ;; ret (S success_count)
         else print " Failed" ;; ret success_count) ;;
      (if (i <? n)%nat then sleep delay else ret tt) ;;
      delete_loop client delay n rest success_count'
  end.

(** The prompts of the three calls of [input] in [main]. *)
Definition phone_prompt : string :=
  "Enter your phone number (with country code, e.g., +1234567890): ".
Definition choice_prompt : string := nl ++ "Enter your choice (1-6): ".
Definition confirm_prompt : string :=
  nl ++ "Are you sure you want to proceed? (yes/no): ".

(** Lines 423-461: from the test on [items_to_delete] to the final tally. *)
Definition confirm_and_delete (client : TelegramClient) (args : Namespace)
    (items_to_delete : list ref) : M unit :=
  match items_to_delete with
  | [] => print "No items selected for deletion. Exiting."
  | _ =>
      type_counts <- count_types items_to_delete [] ;;
      print (nl ++ "You are about to delete/leave "
             ++ Py.str_nat (length items_to_delete) ++ " conversations:") ;;
      for_each type_counts (fun entry =>
        let '(type_name, count) := entry in
        print ("- " ++ type_name ++ ": " ++ Py.str_nat count)) ;;
      answer <- input confirm_prompt ;;
      let confirm := Py.lower answer in
      if negb (String.eqb confirm "yes") then
        print "Operation cancelled."
      else
        print (nl ++ "Processing... This may take some time.") ;;
        success_count <-
          delete_loop client (delay args) (length items_to_delete)
            (enumerate 1 items_to_delete) 0 ;;
        print (nl ++ "Operation completed. Successfully processed "
               ++ Py.str_nat success_count ++ " out of "
               ++ Py.str_nat (length items_to_delete) ++ " items.")
  end.

(** [for category, items in all_items.items(): items_to_delete.extend(items)] *)
Definition extend_all (items_to_delete : list ref) (all_items : Inventory)
  : list ref :=
  fold_left (fun acc entry => acc ++ snd entry)%list (dict_items all_items)
    items_to_delete.

(** Lines 395-421: the menu shown when no category flag was given.  [None]
    stands for the [return] of choice 6 and of an invalid choice. *)
Definition choose (all_items : Inventory) (items_to_delete : list ref)
  : M (option (list ref)) :=
  print (nl ++ "What would you like to delete?") ;;
  print "1. All conversations" ;;
  print "2. Private chats only" ;;
  print "3. Groups only" ;;
  print "4. Channels only" ;;
  print "5. Interactive selection" ;;
  print "6. Cancel" ;;
  answer <- input choice_prompt ;;
  let choice := Py.strip answer in
  if String.eqb choice "1" then
    ret (Some (extend_all items_to_delete all_items))
  else if String.eqb choice "2" then
    ret (Some (items_to_delete ++ private_chats all_items)%list)
  else if String.eqb choice "3" then
    ret (Some (items_to_delete ++ groups all_items)%list)
  else if String.eqb choice "4" then
    ret (Some (items_to_delete ++ channels all_items)%list)
  else if String.eqb choice "5" then
    items <- interactive_selection all_items ;;
    ret (Some items)
  else if String.eqb choice "6" then
    print "Operation cancelled." ;;
    ret None
  else
    print "Invalid choice. Operation cancelled." ;;
    ret None.

(** Lines 372-421: [items_to_delete], or [None] when [main] returns from
    the menu. *)
Definition select_items (args : Namespace) (all_items : Inventory)
  : M (option (list ref)) :=
  let items_to_delete : list ref := [] in
  if interactive args then
    items <- interactive_selection all_items ;;
    ret (Some items)
  else if all args then
    ret (Some (extend_all items_to_delete all_items))
  else
    let items_to_delete :=
      if chats args then (items_to_delete ++ private_chats all_items)%list
      else items_to_delete in
    let items_to_delete :=
      if groups_flag args then (items_to_delete ++ groups all_items)%list
      else items_to_delete in
    let items_to_delete :=
      if channels_flag args then (items_to_delete ++ channels all_items)%list
      else items_to_delete in
    if negb (chats args || groups_flag args || channels_flag args) then
      choose all_items items_to_delete
    else
      ret (Some items_to_delete).

(** [await client.start(phone=phone, password=...)] *)
Definition client_start (client : TelegramClient) (phone : string) : M unit :=
  emit (Started phone) ;;
  fun w =>
    match start client phone (stdin w) with
    | Normal rest =>
        (Normal tt, {| stdin := rest; trace := trace w; heap := heap w |})
    | Raise e => (Raise e, w)
    end.

(** Lines 343-461: the body of the [try] statement. *)
Definition main_body (client : TelegramClient) (args : Namespace)
    (phone : string) : M unit :=
  client_start client phone ;;
  authorized <- lift (is_user_authorized client) ;;
  if negb authorized then
    print "Authentication failed. Please try again."
  else
    me <- lift (get_me client) ;;
    print (nl ++ "Logged in as: " ++ user_label me) ;;
    print (nl ++ "Fetching all conversations... This may take a moment.") ;;
    all_items <- get_all_items client ;;
    let counts :=
      map (fun entry => (fst entry, length (snd entry))) (dict_items all_items) in
    let total_count := list_sum (map snd counts) in
    if (total_count =? 0)%nat then
      print "No conversations found."
    else
      print (nl ++ "Found " ++ Py.str_nat total_count ++ " total conversations:") ;;
      print ("- Private Chats: " ++ Py.str_nat (length (private_chats all_items))) ;;
      print ("- Groups: " ++ Py.str_nat (length (groups all_items))) ;;
      print ("- Channels: " ++ Py.str_nat (length (channels all_items))) ;;
      print ("- Other: " ++ Py.str_nat (length (other all_items))) ;;
      selection <- select_items args all_items ;;
      match selection with
      | None => ret tt
      | Some items_to_delete => confirm_and_delete client args items_to_delete
      end.

(** Lines 463-466: the two [except] clauses of [main]. *)
Definition main_handler (e : exn) : M unit :=
  match e with
  | PhoneNumberInvalidError =>
      print "Invalid phone number. Please make sure to include the country code."
  | _ => logger_error "An error occurred: " (Some e)
  end.

(** Lines 320-468.  [constructor] is what line 340 does, the call
    [TelegramClient("telegram_delete_session", API_ID, API_HASH)] between
    the reading of the phone number and the [try] statement: it returns the
    session object or raises (an [API_ID] that is not a number, a session
    file that cannot be opened).  In the [finally] clause the call
    [client.disconnect()] is recorded and taken to return. *)
Definition main (constructor : result TelegramClient) (args : Namespace)
  : M unit :=
  print "Comprehensive Telegram Deletion Tool" ;;
  print "-----------------------------------" ;;
  phone <- input phone_prompt ;;
  client <- lift constructor ;;
  try_finally
    (try_except (main_body client args phone) is_Exception main_handler)
    (emit Disconnect).

(** A run of the script: [asyncio.run(main())] on the given standard
    input, with no object created yet. *)
Definition asyncio_run (constructor : result TelegramClient) (args : Namespace)
    (lines : list string) : result unit * World :=
  main constructor args {| stdin := lines; trace := []; heap := [] |}.

(** A run in which the constructor of line 340 returns [client]. *)
Definition run (client : TelegramClient) (args : Namespace)
    (lines : list string) : result unit * World :=
  asyncio_run (Normal client) args lines.

(** ** Vocabulary of the statements *)

(** The list stored under a key. *)
Definition bucket (k : key) (items : Inventory) : list ref :=
  match k with
  | private_chats_key => private_chats items
  | groups_key => groups items
  | channels_key => channels items
  | other_key => other items
  end.

(** The six labels [classify] can give. *)
Definition labels : list string :=
  ["Private Chat"; "Broadcast Channel"; "Supergroup"; "Channel";
   "Small Group"; "Other"].

#[global] Instance key_eq_dec : EqDecision key.
Proof. solve_decision. Defined.

(** The references filed under [k] when the dialogs are filed one after
    the other and the first new object gets the reference [base]. *)
Fixpoint filed_under (k : key) (base : nat) (dialogs : list Dialog) : list ref :=
  match dialogs with
  | [] => []
  | dialog :: dialogs' =>
      if decide (fst (classify dialog) = k)
      then base :: filed_under k (S base) dialogs'
      else filed_under k (S base) dialogs'
  end.

(** The world after further effects have been recorded. *)
Definition extend (w : World) (events : list event) : World :=
  {| stdin := stdin w; trace := (trace w ++ events)%list; heap := heap w |}.

(** The world with another store, and with another standard input. *)
Definition set_heap (w : World) (h : store) : World :=
  {| stdin := stdin w; trace := trace w; heap := h |}.
Definition set_stdin (w : World) (lines : list string) : World :=
  {| stdin := lines; trace := trace w; heap := heap w |}.

(** The store after [item.selected = not item.selected] on each of the
    objects [rs], one after the other. *)
Definition toggled (rs : list ref) (h : store) : store :=
  fold_left (fun h r => alter toggle r h) rs h.

(** What a turn of the command loop writes before it reads: the menu and
    the prompt. *)
Definition menu_events : list event :=
  trace (snd ((print_commands ;; emit (Stdout command_prompt))
                {| stdin := []; trace := []; heap := [] |})).

(** The world once a turn of the command loop has read [line], with [rest]
    left on standard input. *)
Definition after_read (w : World) (line : string) (rest : list string) : World :=
  set_stdin (extend w (menu_events ++ [Stdin command_prompt line])) rest.

(** The line printed at the end of a turn, lines 317-318. *)
Definition status_line (flat_items : list ref) (h : store) : string :=
  (nl ++ "Currently selected: "
   ++ Py.str_nat (length (List.filter (fun r => selected (h !!! r)) flat_items))
   ++ " out of " ++ Py.str_nat (length flat_items) ++ " items") ++ nl.

(** An effect that is allowed when remote requests are allowed only if
    [calls] is set and lines may be read only at the prompts [prompts]. *)
Definition allowed (calls : bool) (prompts : list string) (e : event) : bool :=
  match e with
  | Invoke _ => calls
  | Stdin p _ => existsb (String.eqb p) prompts
  | _ => true
  end.

(** [m] keeps the effects recorded so far and adds effects which, with its
    result, satisfy [post]. *)
Definition sat {A} (post : result A -> list event -> Prop) (m : M A) : Prop :=
  forall w, exists events,
    trace (snd (m w)) = (trace w ++ events)%list /\ post (fst (m w)) events.

(** [m] only adds allowed effects. *)
Definition emits {A} (calls : bool) (prompts : list string) (m : M A) : Prop :=
  sat (fun _ events => Forall (fun e => allowed calls prompts e = true) events) m.

(** Whenever [events] holds a line read at [prompt] that satisfies
    [trigger], what follows that line is exactly [then_], the result
    satisfies [outcome], and [events] holds no remote request. *)
Definition guarded {A} (prompt : string) (trigger : string -> Prop)
    (then_ : list event) (outcome : result A -> Prop)
    (r : result A) (events : list event) : Prop :=
  forall pre line post,
    events = (pre ++ Stdin prompt line :: post)%list ->
    trigger line ->
    post = then_ /\ outcome r /\ requests events = [].

(** The two triggers: [quit] at the command prompt, and an answer other
    than [yes], in any case, at the confirmation prompt. *)
Definition is_quit (line : string) : Prop := Py.lower (Py.strip line) = "quit".
Definition is_refusal (answer : string) : Prop := Py.lower answer <> "yes".

Definition cancelled : event := Stdout ("Operation cancelled." ++ nl).

(** The result of a run that ended in [sys.exit(0)]. *)
Definition exits_0 {A} (r : result A) : Prop := r = Raise (SystemExit 0).

(** The result of a run that returned from [main]. *)
Definition returns {A} (a : A) (r : result A) : Prop := r = Normal a.

(** The request that [delete_item] makes for an item: a history erase for
    a private chat, one of the two leave requests for a group or channel,
    none for any other type. *)
Definition request_for (item : TelegramItem) : option Request :=
  if String.eqb (type item) "Private Chat" then
    Some (DeleteHistoryRequest (entity item) 0 false true)
  else if Py.contains "Group" (type item) || Py.contains "Channel" (type item) then
    Some (if is_Channel (entity item)
          then LeaveChannelRequest (entity item)
          else DeleteChatUserRequest (id item) "me")
  else None.

(** Whether an item is processed with success once the requests [history]
    have been made: its own request is made and is answered without an
    exception. *)
Definition succeeds (client : TelegramClient) (history : list Request)
    (item : TelegramItem) : bool :=
  match request_for item with
  | Some q =>
      match call client history q with
      | None => true
      | Some _ => false
      end
  | None => false
  end.

(** The verdicts on the items, each one decided by the answer to its own
    request. *)
Fixpoint verdicts (client : TelegramClient) (history : list Request)
    (items : list TelegramItem) : list bool :=
  match items with
  | [] => []
  | item :: rest =>
      succeeds client history item
      :: verdicts client (history ++ option_list (request_for item))%list rest
  end.

(** The verdicts the script prints, " Done" or " Failed", in order. *)
Definition progress (events : list event) : list bool :=
  omap (fun e =>
          match e with
          | Stdout text =>
              if String.eqb text (" Done" ++ nl) then Some true
              else if String.eqb text (" Failed" ++ nl) then Some false
              else None
          | _ => None
          end) events.

Definition count_true (vs : list bool) : nat := length (List.filter (fun v => v) vs).

(** The last line of a run that went through the deletion loop. *)
Definition tally (success_count n : nat) : event :=
  Stdout ((nl ++ "Operation completed. Successfully processed "
           ++ Py.str_nat success_count ++ " out of " ++ Py.str_nat n
           ++ " items.") ++ nl).

(** The dialogs that [classify] files under [private_chats], in order. *)
Definition private_dialogs (dialogs : list Dialog) : list Dialog :=
  List.filter (fun d => bool_decide (fst (classify d) = private_chats_key)) dialogs.

(** The history erase of lines 156-161 for the entity of a dialog. *)
Definition erase_history (dialog : Dialog) : Request :=
  DeleteHistoryRequest (dialog_entity dialog) 0 false true.

(** The command line [--chats], with a delay. *)
Definition chats_only (d : float) : Namespace :=
  {| all := false; chats := true; groups_flag := false; channels_flag := false;
     delay := d; interactive := false |}.

End Delete.

(** ** Sample accounts, used to instantiate the statements *)

Module Sample.
Import Delete.

Definition ann : UserT :=
  {| user_id := 11; first_name := Some "Ann"; last_name := None;
     username := Some "ann" |}.
Definition bob : UserT :=
  {| user_id := 12; first_name := Some "Bob"; last_name := Some "Ross";
     username := None |}.

Definition dialog_of (nm : string) (e : Entity) : Dialog :=
  {| dialog_name := nm; dialog_entity := e |}.

(** An account with two private chats and one supergroup. *)
Definition three_dialogs : list Dialog :=
  [dialog_of "Ann" (User ann); dialog_of "Rocq users" (Channel 21 false true);
   dialog_of "Bob" (User bob)].

(** An account with twelve conversations of every kind. *)
Definition twelve_dialogs : list Dialog :=
  [dialog_of "Ann" (User ann); dialog_of "News" (Channel 31 true false);
   dialog_of "Rocq users" (Channel 21 false true); dialog_of "Family" (Chat 41);
   dialog_of "Bob" (User bob); dialog_of "Old channel" (Channel 32 false false);
   dialog_of "Forbidden" (OtherEntity (Some 51%Z)); dialog_of "Club" (Chat 42);
   dialog_of "Gone" (OtherEntity None); dialog_of "Announcements" (Channel 33 true true);
   dialog_of "Makers" (Channel 22 false true); dialog_of "Team" (Chat 43)].

(** A session that logs in as Ann, lists [dialogs] and answers the n-th
    request (counting from 0) with [answers n]. *)
Definition session (dialogs : list Dialog) (answers : nat -> option exn)
  : TelegramClient :=
  {| start := fun _ lines => Normal lines;
     is_user_authorized := Normal true;
     get_me := Normal ann;
     iter_dialogs := (dialogs, None);
     call := fun history _ => answers (length history) |}.

Definition flags (all_ chats_ groups_ channels_ interactive_ : bool) : Namespace :=
  {| all := all_; chats := chats_; groups_flag := groups_;
     channels_flag := channels_; delay := 2%float; interactive := interactive_ |}.

(** The world with the twelve items in the store, nothing printed yet and
    [lines] on standard input. *)
Definition twelve_items (lines : list string) : World :=
  {| stdin := lines; trace := [];
     heap := map (fun d => snd (classify d)) twelve_dialogs |}.

(** Ann's account with two private chats and a supergroup, every request
    succeeding: a run with [--interactive], and a run with [--chats]. *)
Definition interactive_run (lines : list string) : result unit * World :=
  run (session three_dialogs (fun _ => None)) (flags false false false false true)
    lines.
Definition chats_run (lines : list string) : result unit * World :=
  run (session three_dialogs (fun _ => None)) (flags false true false false false)
    lines.

(** Five conversations that all have a request, and a session where the
    third request is rate-limited. *)
Definition five_dialogs : list Dialog :=
  [dialog_of "Ann" (User ann); dialog_of "Family" (Chat 41);
   dialog_of "Bob" (User bob); dialog_of "Old channel" (Channel 32 false false);
   dialog_of "News" (Channel 31 true false)].

Definition third_is_rate_limited (n : nat) : option exn :=
  if (n =? 2)%nat then Some (FloodWaitError 30) else None.

Definition five_items (lines : list string) : World :=
  {| stdin := lines; trace := [];
     heap := map (fun d => snd (classify d)) five_dialogs |}.

End Sample.

(** ** Further vocabulary *)

Module More.
Import Delete.

(** The requests that deleting the conversation behind an entity should
    lead to, as [classify] and [delete_item] decide together: a history
    erase for a user, a channel leave for a broadcast channel or a plain
    channel, a chat leave for a small group, and nothing for a supergroup
    or for any other entity. *)
Definition requests_for_entity (e : Entity) : list Request :=
  match e with
  | User _ => [DeleteHistoryRequest e 0 false true]
  | Channel _ broadcast megagroup =>
      if broadcast || negb megagroup then [LeaveChannelRequest e] else []
  | Chat chat_id => [DeleteChatUserRequest chat_id "me"]
  | OtherEntity _ => []
  end.

(** [d.get(k, 0)] on a dictionary kept in insertion order. *)
Fixpoint dict_get (d : list (string * nat)) (k : string) : nat :=
  match d with
  | [] => 0
  | (k', v) :: d' => if String.eqb k' k then v else dict_get d' k
  end.

(** The number of the items whose type is [t]. *)
Definition count_type (h : store) (items : list ref) (t : string) : nat :=
  length (List.filter (fun r => String.eqb (type (h !!! r)) t) items).

(** The store after [item.selected = b] on each of the objects [rs]. *)
Definition set_all (b : bool) (rs : list ref) (h : store) : store :=
  fold_left (fun h r => alter (set_selected b) r h) rs h.

(** The store after the loop of a category command: the objects of [rs]
    that pass [test] get [selected = True]. *)
Definition select_matching (test : TelegramItem -> bool) (rs : list ref)
    (h : store) : store :=
  fold_left (fun h r => if test (h !!! r) then alter (set_selected true) r h else h)
    rs h.

(** The three category commands with their tests. *)
Definition category_commands : list (string * string * (TelegramItem -> bool)) :=
  [("chats", "All private chats selected.",
    fun item => String.eqb (type item) "Private Chat");
   ("groups", "All groups selected.",
    fun item => Py.contains "Group" (type item));
   ("channels", "All channels selected.",
    fun item => Py.contains "Channel" (type item))].

(** The selected items of a list, in the order of the list. *)
Definition selection (flat_items : list ref) (h : store) : list ref :=
  List.filter (fun r => selected (h !!! r)) flat_items.

(** The pauses among some effects. *)
Definition pauses (events : list event) : list float :=
  omap (fun e => match e with Sleep d => Some d | _ => None end) events.

(** An effect of [delete_item]: a request or a record of the logger. *)
Definition request_or_log (e : event) : Prop :=
  match e with
  | Invoke _ | Log _ _ _ => True
  | _ => False
  end.

(** Some effects hold no request, or hold a line read at the final prompt
    that is [yes] in some case and has no request before it. *)
Definition confirmed_first (events : list event) : Prop :=
  requests events = []
  \/ exists pre answer post,
       events = (pre ++ Stdin confirm_prompt answer :: post)%list
       /\ Py.lower answer = "yes"
       /\ requests pre = [].

(** The two error messages of the range command and the one of the number
    command. *)
Definition invalid_range (flat_items : list ref) : string :=
  ("Invalid range. Please use numbers between 1 and "
   ++ Py.str_nat (length flat_items) ++ ".") ++ nl.
Definition invalid_range_format : string :=
  "Invalid range format. Use 'start-end' (e.g., '5-10')." ++ nl.
Definition invalid_number (flat_items : list ref) : string :=
  ("Invalid item number. Please use a number between 1 and "
   ++ Py.str_nat (length flat_items) ++ ".") ++ nl.

(** The world after a turn of the command loop that read [line], printed
    [messages] and left the store as [h]. *)
Definition after_turn (w : World) (flat_items : list ref) (line : string)
    (rest : list string) (messages : list string) (h : store) : World :=
  {| stdin := rest;
     trace := (trace w ++ menu_events
               ++ Stdin command_prompt line
                  :: map Stdout messages ++ [Stdout (status_line flat_items h)])%list;
     heap := h |}.

(** What the two [except] clauses of [main] write for an [Exception]. *)
Definition report (e : exn) : list event :=
  match e with
  | PhoneNumberInvalidError =>
      [Stdout ("Invalid phone number. Please make sure to include the country code."
               ++ nl)]
  | _ => [Log "ERROR" "An error occurred: " (Some e)]
  end.

(** What a run records up to the call of [client.start]. *)
Definition opening (phone : string) : list event :=
  [Stdout ("Comprehensive Telegram Deletion Tool" ++ nl);
   Stdout ("-----------------------------------" ++ nl);
   Stdout phone_prompt; Stdin phone_prompt phone; Started phone].

(** The two lines printed after a successful login. *)
Definition greeting (me : UserT) : list event :=
  [Stdout ((nl ++ "Logged in as: " ++ user_label me) ++ nl);
   Stdout ((nl ++ "Fetching all conversations... This may take a moment.") ++ nl)].

(** The verdict printed for an item. *)
Definition verdict (success : bool) : event :=
  Stdout ((if success then " Done" else " Failed") ++ nl).

(** The line that announces an item in the deletion loop, line 448. *)
Definition announcement (i n : nat) (item : TelegramItem) : event :=
  Stdout ("Processing " ++ Py.str_nat i ++ "/" ++ Py.str_nat n ++ ": "
          ++ name item ++ " (" ++ type item ++ ")...").

(** What the deletion loop records for one item, numbered [i] of [n]:
    the announcement, the effects of [delete_item], which are requests and
    records of the logger, and the verdict. *)
Definition is_turn (h : store) (n : nat) (numbered : nat * ref)
    (turn : list event) : Prop :=
  exists attempt success,
    turn = (announcement (fst numbered) n (h !!! snd numbered)
            :: attempt ++ [verdict success])%list
    /\ Forall request_or_log attempt.

(** The turns, with a pause between two consecutive ones. *)
Fixpoint join (pause : event) (turns : list (list event)) : list event :=
  match turns with
  | [] => []
  | turn :: rest =>
      match rest with
      | [] => turn
      | _ => (turn ++ pause :: join pause rest)%list
      end
  end.

(** The command line without any flag, and the flags that the choices 1
    to 4 of the menu stand for. *)
Definition no_flags (d : float) : Namespace :=
  {| all := false; chats := false; groups_flag := false; channels_flag := false;
     delay := d; interactive := false |}.
Definition menu_flags (choice : string) (d : float) : option Namespace :=
  if String.eqb choice "1" then
    Some {| all := true; chats := false; groups_flag := false;
            channels_flag := false; delay := d; interactive := false |}
  else if String.eqb choice "2" then
    Some {| all := false; chats := true; groups_flag := false;
            channels_flag := false; delay := d; interactive := false |}
  else if String.eqb choice "3" then
    Some {| all := false; chats := false; groups_flag := true;
            channels_flag := false; delay := d; interactive := false |}
  else if String.eqb choice "4" then
    Some {| all := false; chats := false; groups_flag := false;
            channels_flag := true; delay := d; interactive := false |}
  else None.

(** The items that the flags of a command line without [--interactive]
    name. *)
Definition flagged (args : Namespace) (all_items : Inventory) : list ref :=
  if all args then
    private_chats all_items ++ groups all_items ++ channels all_items
    ++ other all_items
  else
    (if chats args then private_chats all_items else [])
    ++ (if groups_flag args then groups all_items else [])
    ++ (if channels_flag args then channels all_items else []).

(** The number of the dialogs that [classify] files under a key. *)
Definition count_key (k : key) (dialogs : list Dialog) : nat :=
  length (List.filter (fun d => bool_decide (fst (classify d) = k)) dialogs).

(** The five lines of lines 366-370 for a listing. *)
Definition found_lines (dialogs : list Dialog) : list event :=
  [Stdout ((nl ++ "Found " ++ Py.str_nat (length dialogs)
            ++ " total conversations:") ++ nl);
   Stdout (("- Private Chats: "
            ++ Py.str_nat (count_key private_chats_key dialogs)) ++ nl);
   Stdout (("- Groups: " ++ Py.str_nat (count_key groups_key dialogs)) ++ nl);
   Stdout (("- Channels: " ++ Py.str_nat (count_key channels_key dialogs)) ++ nl);
   Stdout (("- Other: " ++ Py.str_nat (count_key other_key dialogs)) ++ nl)].

End More.

(** * Theorems *)

(** ** The Python operations on examples *)

Example lower_yes : Py.lower "YeS" = "yes". Proof. reflexivity. Qed.
Example strip_quit : Py.strip (String (ascii_of_N 28) " Quit  ") = "Quit". Proof. reflexivity. Qed.
Example split_range : Py.split "-" "5-10" = ["5"; "10"]. Proof. reflexivity. Qed.
Example split_many : Py.split "-" "a-b-c" = ["a"; "b"; "c"] /\ Py.split "-" "--" = [""; ""; ""]. Proof. split; reflexivity. Qed.
Example int_ok : Py.int " +1_0 " = Normal 10%Z /\ Py.int "007" = Normal 7%Z. Proof. split; reflexivity. Qed.
Example int_bad : Py.int "1__0" = Raise ValueError /\ Py.int "" = Raise ValueError /\ Py.int "5-" = Raise ValueError /\ Py.int (String (ascii_of_N 28) "5") = Raise ValueError. Proof. repeat split; reflexivity. Qed.
Example str_ok : Py.str (-5) = "-5" /\ Py.str_nat 12 = "12" /\ Py.str 0 = "0". Proof. repeat split; reflexivity. Qed.
Example supergroup_label_has_no_capital_group :
  Py.contains "Group" "Supergroup" = false /\ Py.contains "Channel" "Supergroup" = false.
Proof. split; reflexivity. Qed.
Example contains_ok : Py.contains "Group" "Small Group" = true /\ Py.contains "Group" "Broadcast Channel" = false /\ Py.contains "-" "5-10" = true. Proof. repeat split; reflexivity. Qed.

(** ** imghdr.py *)

Section ImghdrFacts.
Import Imghdr.

Lemma bytes_eqb_eq (a b : bytes) : bytes_eqb a b = true <-> a = b.
Proof.
  revert b; induction a as [|x a IH]; intros [|y b]; simpl; split;
    try congruence; try reflexivity.
  - intros H. apply andb_true_iff in H as [Hxy Hab].
    apply Byte.byte_dec_bl in Hxy. apply IH in Hab. congruence.
  - intros H. injection H as -> ->. apply andb_true_iff. split.
    + apply Byte.byte_dec_lb. reflexivity.
    + apply IH. reflexivity.
Qed.

(** A prefix test only reads as many bytes as the prefix has. *)
Lemma startswith_take (n : nat) (h p : bytes) :
  length p <= n -> startswith (take n h) p = startswith h p.
Proof.
  revert n h; induction p as [|x p IH]; intros n h Hn; [reflexivity|].
  simpl in Hn. destruct n as [|n]; [lia|].
  destruct h as [|y h]; [reflexivity|]. simpl.
  rewrite IH by lia. reflexivity.
Qed.

Lemma slice_take (h : bytes) : slice (take 32 h) 8 12 = slice h 8 12.
Proof.
  unfold slice. rewrite skipn_firstn_comm, take_take. reflexivity.
Qed.

Lemma sniff_take (h : bytes) : sniff (take 32 h) = sniff h.
Proof.
  unfold sniff. rewrite !startswith_take by (simpl; lia).
  rewrite slice_take. reflexivity.
Qed.

Lemma load_header_length (fs : filesystem) (file : file_arg) (h : bytes) :
  load_header fs file = Normal h -> length h <= 32.
Proof.
  destruct file as [name|content location closed|b]; unfold load_header.
  - destruct (fs name) as [content|]; [|discriminate]. intros H.
    replace h with (read 32 content) by congruence. apply firstn_le_length.
  - destruct closed; [discriminate|]. intros H.
    replace h with (read 32 (drop location content)) by congruence.
    apply firstn_le_length.
  - discriminate.
Qed.

(** The tag is [webp] exactly when the header starts with [RIFF] and
    carries [WEBP] at offsets 8 to 11. *)
Lemma sniff_webp (h : bytes) :
  sniff h = Some "webp" <->
  startswith h sig_riff = true /\ slice h 8 12 = sig_webp.
Proof.
  rewrite <- bytes_eqb_eq. unfold sniff. split.
  - repeat match goal with
           | |- context [if ?b then _ else _] => destruct b eqn:?
           end; try discriminate.
    intros _. apply andb_true_iff. assumption.
  - intros [Hriff Hwebp]. rewrite Hriff, Hwebp. simpl.
    destruct h as [|b h]; [discriminate|].
    simpl in Hriff. apply andb_true_iff in Hriff as [Hb _].
    apply Byte.byte_dec_bl in Hb. subst b. reflexivity.
Qed.

(** Claim C9.  The tag that [what] returns for a header depends on the
    first 32 bytes of the header only: two calls whose headers agree on
    their first 32 bytes return the same result whatever the file and the
    file system are, a header read from a file has at most 32 bytes and is
    classified like the same header given directly, and a header that
    starts with [RIFF] but does not carry [WEBP] at offsets 8 to 11 is never
    tagged [webp]. *)
Theorem what_depends_on_header_only
    (fs fs' : filesystem) (file file' : file_arg) (h h' : bytes) :
  take 32 h = take 32 h' ->
  what fs file (Some h) = what fs' file' (Some h')
  /\ (forall h0, load_header fs file = Normal h0 ->
        length h0 <= 32 /\ what fs file None = what fs' file' (Some h0))
  /\ (startswith h sig_riff = true -> slice h 8 12 <> sig_webp ->
        what fs file (Some h) <> Normal (Some "webp")).
Proof.
  intros Hh. split; [|split].
  - simpl. rewrite <- (sniff_take h), <- (sniff_take h'), Hh. reflexivity.
  - intros h0 Hload. split; [eapply load_header_length; eassumption|].
    simpl. rewrite Hload. reflexivity.
  - intros Hriff Hwebp. simpl. intros [= Htag].
    apply sniff_webp in Htag as [_ Htag]. contradiction.
Qed.

Lemma what_depends_on_header_only_witness :
  what (fun _ => None) (Path "a.wav") (Some riff_wave)
  = what (fun _ => Some riff_wave) (BytesObject []) (Some riff_wave)
  /\ what (fun _ => None) (Path "a.wav") (Some riff_wave) <> Normal (Some "webp").
Proof.
  destruct (what_depends_on_header_only (fun _ => None) (fun _ => Some riff_wave)
              (Path "a.wav") (BytesObject []) riff_wave riff_wave eq_refl)
    as (Hsame & _ & Hriff).
  split; [exact Hsame|].
  apply Hriff; [reflexivity|discriminate].
Defined.

(** Claim C8, as the code has it.  Once a header is at hand, given by the
    caller or read from the file, [what] returns without raising, and a
    header shorter than every signature (fewer than two bytes) gets
    [None]; when the named file cannot be opened, the [OSError] of [open]
    reaches the caller. *)
Theorem what_total_on_headers (fs : filesystem) (file : file_arg) (h : bytes) :
  what fs file (Some h) = Normal (sniff h)
  /\ (length h < 2 -> what fs file (Some h) = Normal None)
  /\ (load_header fs file = Normal h ->
        what fs file None = Normal (sniff h)
        /\ (length h < 2 -> what fs file None = Normal None))
  /\ (forall name, file = Path name -> fs name = None ->
        what fs file None = Raise OSError).
Proof.
  assert (Hshort : length h < 2 -> sniff h = None).
  { destruct h as [|b0 [|b1 h]]; simpl; try lia; intros _.
    - reflexivity.
    - unfold sniff. simpl. rewrite !andb_false_r. reflexivity. }
  split; [reflexivity|]. split; [|split].
  - intros Hlen. simpl. rewrite Hshort by assumption. reflexivity.
  - intros Hload. simpl. rewrite Hload. split; [reflexivity|].
    intros Hlen. rewrite Hshort by assumption. reflexivity.
  - intros name -> Hfs. simpl. rewrite Hfs. reflexivity.
Qed.

Lemma what_total_on_headers_witness :
  what (fun _ => Some [x42]) (Path "tiny.bmp") None = Normal None
  /\ what (fun _ => None) (Path "tiny.bmp") None = Raise OSError.
Proof.
  split.
  - destruct (what_total_on_headers (fun _ => Some [x42]) (Path "tiny.bmp") [x42])
      as (_ & _ & Hload & _).
    apply Hload; [reflexivity|simpl; lia].
  - destruct (what_total_on_headers (fun _ => None) (Path "tiny.bmp") [])
      as (_ & _ & _ & Hopen).
    apply (Hopen "tiny.bmp"); reflexivity.
Defined.

End ImghdrFacts.

(** The claim as it is written fails: a file name that cannot be opened is
    unreadable input, and [what] raises instead of returning [None]. *)
Lemma what_raises_on_missing_file :
  Imghdr.what (fun _ => None) (Imghdr.Path "missing.png") None = Raise OSError
  /\ Imghdr.what (fun _ => None) (Imghdr.Path "missing.png") None <> Normal None.
Proof. split; [reflexivity|discriminate]. Qed.

(** ** delete.py: classification and inventory *)

Section Classification.
Import Delete.

(** Claim C3.  [classify] is a function, so every entity gets one label and
    one key, and the label is one of the six; for a [Channel] entity the
    [broadcast] flag is looked at first and [megagroup] second: with
    [broadcast] set the item is a "Broadcast Channel" under [channels]
    whatever [megagroup] is, with [broadcast] unset and [megagroup] set it
    is a "Supergroup" under [groups] and not a "Channel", and only with
    both unset it is a "Channel". *)
Theorem classify_channel_order (dialog : Dialog) (nm : string) (cid : Z) (mg : bool) :
  In (type (snd (classify dialog))) labels
  /\ classify {| dialog_name := nm; dialog_entity := Channel cid true mg |}
     = (channels_key,
        TelegramItem_init cid nm "Broadcast Channel" (Channel cid true mg))
  /\ classify {| dialog_name := nm; dialog_entity := Channel cid false true |}
     = (groups_key,
        TelegramItem_init cid nm "Supergroup" (Channel cid false true))
  /\ type (snd (classify {| dialog_name := nm;
                            dialog_entity := Channel cid false true |}))
     <> "Channel"
  /\ classify {| dialog_name := nm; dialog_entity := Channel cid false false |}
     = (channels_key,
        TelegramItem_init cid nm "Channel" (Channel cid false false)).
Proof.
  split; [|repeat split; discriminate].
  destruct dialog as [dname [u|c b m|c|i]]; simpl.
  - tauto.
  - destruct b; [|destruct m]; simpl; tauto.
  - tauto.
  - tauto.
Qed.

Lemma bucket_append (k k' : key) (r : ref) (items : Inventory) :
  bucket k' (append k r items)
  = (bucket k' items ++ if decide (k = k') then [r] else [])%list.
Proof.
  destruct k, k'; simpl; rewrite ?app_nil_r; reflexivity.
Qed.

(** What the loop of [get_all_items] does: it never raises, it creates one
    object per dialog, in order, and files the reference under the key of
    the dialog. *)
Lemma file_dialogs_spec (dialogs : list Dialog) (items : Inventory) (w : World) :
  exists items',
    file_dialogs dialogs items w
    = (Normal items',
       {| stdin := stdin w; trace := trace w;
          heap := (heap w ++ map (fun d => snd (classify d)) dialogs)%list |})
    /\ forall k, bucket k items'
                 = (bucket k items ++ filed_under k (length (heap w)) dialogs)%list.
Proof.
  revert items w; induction dialogs as [|d ds IH]; intros items w.
  - exists items. split.
    + simpl. rewrite app_nil_r. destruct w; reflexivity.
    + intros k. simpl. rewrite app_nil_r. reflexivity.
  - simpl. destruct (classify d) as [k item] eqn:Hd.
    unfold bind, new.
    destruct (IH (append k (length (heap w)) items)
                {| stdin := stdin w; trace := trace w;
                   heap := (heap w ++ [item])%list |})
      as (items' & Hrun & Hbuckets).
    exists items'. split.
    + rewrite Hrun. simpl. rewrite <- app_assoc. reflexivity.
    + intros k'. rewrite Hbuckets, bucket_append. simpl.
      rewrite length_app. simpl. rewrite Nat.add_1_r, <- app_assoc.
      destruct (decide (k = k')); reflexivity.
Qed.

Lemma elem_of_filed_under (k : key) (base : nat) (dialogs : list Dialog) (r : ref) :
  r ∈ filed_under k base dialogs <->
  exists i d, r = base + i /\ dialogs !! i = Some d /\ fst (classify d) = k.
Proof.
  revert base; induction dialogs as [|d ds IH]; intros base; simpl.
  - split; [intros H; inversion H|intros (i & d & _ & H & _); discriminate].
  - assert (Htail : r ∈ filed_under k (S base) ds <->
                    exists i d', r = base + S i /\ ds !! i = Some d'
                                 /\ fst (classify d') = k).
    { rewrite IH. split; intros (i & d' & Hr & Hd & Hk); exists i, d';
        (split; [lia|split; assumption]). }
    destruct (decide (fst (classify d) = k)) as [Hk|Hk].
    + rewrite elem_of_cons, Htail. split.
      * intros [->|(i & d' & Hr & Hd & Hk')].
        -- exists 0, d. split; [lia|split; [reflexivity|assumption]].
        -- exists (S i), d'. split; [assumption|split; assumption].
      * intros ([|i] & d' & Hr & Hd & Hk').
        -- left. lia.
        -- right. exists i, d'. split; [assumption|split; assumption].
    + rewrite Htail. split.
      * intros (i & d' & Hr & Hd & Hk'). exists (S i), d'.
        split; [assumption|split; assumption].
      * intros ([|i] & d' & Hr & Hd & Hk').
        -- simpl in Hd. injection Hd as <-. contradiction.
        -- exists i, d'. split; [assumption|split; assumption].
Qed.

(** Filing splits the new references among the four keys. *)
Lemma filed_under_partition (base : nat) (dialogs : list Dialog) :
  (filed_under private_chats_key base dialogs
   ++ filed_under groups_key base dialogs
   ++ filed_under channels_key base dialogs
   ++ filed_under other_key base dialogs)%list
  ≡ₚ seq base (length dialogs).
Proof.
  revert base; induction dialogs as [|d ds IH]; intros base; [reflexivity|].
  simpl. rewrite <- (IH (S base)).
  destruct (fst (classify d)); simpl.
  - reflexivity.
  - rewrite <- Permutation_middle. reflexivity.
  - rewrite (app_assoc (filed_under private_chats_key _ _)).
    rewrite <- Permutation_middle, <- app_assoc. reflexivity.
  - rewrite (app_assoc (filed_under groups_key _ _)).
    rewrite (app_assoc (filed_under private_chats_key _ _)).
    rewrite <- Permutation_middle, <- !app_assoc. reflexivity.
Qed.

Lemma flatten_buckets (items : Inventory) :
  flatten items
  = (bucket private_chats_key items ++ bucket groups_key items
     ++ bucket channels_key items ++ bucket other_key items)%list.
Proof. unfold flatten. simpl. rewrite app_nil_r. reflexivity. Qed.

(** Claim C4.  When [iter_dialogs] yields [dialogs], [get_all_items]
    returns an inventory that partitions them: one object is created per
    dialog, in order; the sizes of the four buckets add up to the number of
    dialogs; the buckets together hold each new reference once (so no
    reference is repeated within or across buckets); and the reference of
    a dialog is in the bucket of the dialog's key and in no other. *)
Theorem get_all_items_partitions
    (client : TelegramClient) (dialogs : list Dialog) (w : World) :
  iter_dialogs client = (dialogs, None) ->
  exists items w',
    get_all_items client w = (Normal items, w')
    /\ heap w' = (heap w ++ map (fun d => snd (classify d)) dialogs)%list
    /\ length (private_chats items) + length (groups items)
       + length (channels items) + length (other items) = length dialogs
    /\ flatten items ≡ₚ seq (length (heap w)) (length dialogs)
    /\ NoDup (flatten items)
    /\ forall i d k, dialogs !! i = Some d ->
         (length (heap w) + i ∈ bucket k items <-> k = fst (classify d)).
Proof.
  intros Hdialogs.
  destruct (file_dialogs_spec dialogs
              {| private_chats := []; groups := []; channels := []; other := [] |} w)
    as (items & Hrun & Hbuckets).
  assert (Hflat : flatten items ≡ₚ seq (length (heap w)) (length dialogs)).
  { rewrite flatten_buckets, !Hbuckets. simpl. apply filed_under_partition. }
  exists items. eexists. split; [|split; [|split; [|split; [|split]]]].
  - unfold get_all_items. rewrite Hdialogs. unfold bind. rewrite Hrun.
    reflexivity.
  - reflexivity.
  - apply Permutation_length in Hflat.
    rewrite flatten_buckets, !length_app, length_seq in Hflat. simpl in Hflat.
    lia.
  - exact Hflat.
  - rewrite Hflat. apply NoDup_seq.
  - intros i d k Hd. rewrite Hbuckets.
    replace (bucket k {| private_chats := []; groups := []; channels := [];
                         other := [] |}) with (@nil ref) by (destruct k; reflexivity).
    simpl. rewrite elem_of_filed_under. split.
    + intros (j & d' & Hj & Hd' & Hk).
      assert (j = i) by lia. subst j. congruence.
    + intros ->. exists i, d. split; [reflexivity|split; [assumption|reflexivity]].
Qed.

Lemma get_all_items_partitions_witness :
  exists items w',
    get_all_items (Sample.session Sample.twelve_dialogs (fun _ => None))
      {| stdin := []; trace := []; heap := [] |} = (Normal items, w')
    /\ length (private_chats items) + length (groups items)
       + length (channels items) + length (other items) = 12
    /\ NoDup (flatten items).
Proof.
  destruct (get_all_items_partitions
              (Sample.session Sample.twelve_dialogs (fun _ => None))
              Sample.twelve_dialogs {| stdin := []; trace := []; heap := [] |}
              eq_refl)
    as (items & w' & Hrun & _ & Hsum & _ & Hnd & _).
  exists items, w'. split; [exact Hrun|]. split; [exact Hsum|exact Hnd].
Defined.

End Classification.

(** ** The effect monad *)

Section MonadFacts.
Import Delete.
Local Open Scope py_scope.

Lemma extend_nil (w : World) : extend w [] = w.
Proof. destruct w. unfold extend. simpl. rewrite app_nil_r. reflexivity. Qed.

Lemma extend_extend (w : World) (a b : list event) :
  extend (extend w a) b = extend w (a ++ b).
Proof. unfold extend. simpl. rewrite app_assoc. reflexivity. Qed.

Lemma set_heap_same (w : World) : set_heap w (heap w) = w.
Proof. destruct w. reflexivity. Qed.

Lemma bind_normal {A B} (m : M A) (k : A -> M B) (w w' : World) (a : A) :
  m w = (Normal a, w') -> bind m k w = k a w'.
Proof. intros H. unfold bind. rewrite H. reflexivity. Qed.

Lemma bind_raise {A B} (m : M A) (k : A -> M B) (w w' : World) (e : exn) :
  m w = (Raise e, w') -> bind m k w = (Raise e, w').
Proof. intros H. unfold bind. rewrite H. reflexivity. Qed.

Lemma emit_run (e : event) (w : World) : emit e w = (Normal tt, extend w [e]).
Proof. reflexivity. Qed.

Lemma print_run (s : string) (w : World) :
  print s w = (Normal tt, extend w [Stdout (s ++ nl)]).
Proof. reflexivity. Qed.

(** A pause of finite length ends. *)
Lemma sleep_run (d : float) (w : World) :
  is_finite d = true -> sleep d w = (Normal tt, extend w [Sleep d]).
Proof.
  intros Hfinite. unfold sleep. erewrite bind_normal by apply emit_run.
  unfold is_finite in Hfinite.
  destruct (d <=? 0)%float; [reflexivity|].
  destruct (is_nan d); [discriminate|].
  destruct (is_infinity d); [discriminate|reflexivity].
Qed.

Lemma print_commands_run (w : World) :
  (print_commands ;; emit (Stdout command_prompt)) w
  = (Normal tt, extend w menu_events).
Proof.
  unfold print_commands, bind, print, emit, extend. simpl.
  rewrite <- !app_assoc. reflexivity.
Qed.

End MonadFacts.

(** ** delete.py: the range command *)

Section RangeCommand.
Import Delete.
Local Open Scope py_scope.




(** One assignment of the loop of line 297, at an index inside the list. *)
Lemma toggle_at_run (flat_items : list ref) (i : nat) (r : ref) (w : World) :
  flat_items !! i = Some r ->
  toggle_at flat_items (Z.of_nat i) w
  = (Normal tt, set_heap w (alter toggle r (heap w))).
Proof.
  intros Hi. unfold toggle_at, getitem, bind.
  assert (Hlt : i < length flat_items) by (eapply lookup_lt_Some; eassumption).
  replace (Z.of_nat i <? 0)%Z with false by (symmetry; apply Z.ltb_ge; lia).
  replace (0 <=? Z.of_nat i)%Z with true by (symmetry; apply Z.leb_le; lia).
  replace (Z.of_nat i <? Z.of_nat (length flat_items))%Z with true
    by (symmetry; apply Z.ltb_lt; lia).
  simpl. rewrite Nat2Z.id, Hi. reflexivity.
Qed.

(** The loop of lines 296-297 on a range that lies inside the list: the
    objects at the indices [a], ..., [a + n - 1] are toggled in turn. *)
Lemma toggle_range_run (flat_items : list ref) (n a : nat) (w : World) :
  a + n <= length flat_items ->
  for_each (map (fun k => (Z.of_nat a + Z.of_nat k)%Z) (seq 0 n))
    (toggle_at flat_items) w
  = (Normal tt, set_heap w (toggled (take n (drop a flat_items)) (heap w))).
Proof.
  revert a w; induction n as [|n IH]; intros a w Hlen.
  - simpl. rewrite set_heap_same. reflexivity.
  - destruct (lookup_lt_is_Some_2 flat_items a ltac:(lia)) as [r Hr].
    rewrite (drop_S _ _ _ Hr). simpl.
    rewrite Z.add_0_r.
    erewrite bind_normal by (apply toggle_at_run; eassumption).
    rewrite <- seq_shift, map_map.
    erewrite map_ext; [rewrite (IH (S a)) by lia; reflexivity|].
    intros k. simpl. lia.
Qed.

(** The start of a turn: menu, prompt, and the line taken from standard
    input. *)
Lemma read_turn {A} (k : M A) (line : string) (rest : list string) (w : World) :
  (print_commands ;; emit (Stdout command_prompt) ;;
   read_line line rest ;; k) w
  = k (after_read w line rest).
Proof.
  unfold bind, print_commands, print, emit, read_line. simpl. f_equal.
  unfold after_read, set_stdin, extend, menu_events. simpl.
  rewrite <- !app_assoc. reflexivity.
Qed.

Lemma command_loop_eof (flat_items : list ref) (w : World) :
  command_loop flat_items [] w = (Raise EOFError, extend w menu_events).
Proof.
  simpl. unfold bind, print_commands, print, emit, raise. simpl.
  unfold extend, menu_events. simpl. rewrite <- !app_assoc. reflexivity.
Qed.

(** A turn on a command other than [done] and [quit]. *)
Lemma command_loop_turn (flat_items : list ref) (line : string)
    (rest : list string) (w : World) :
  Py.lower (Py.strip line) <> "done" ->
  Py.lower (Py.strip line) <> "quit" ->
  command_loop flat_items (line :: rest) w
  = (run_command flat_items (Py.lower (Py.strip line)) ;;
     print_status flat_items ;;
     command_loop flat_items rest) (after_read w line rest).
Proof.
  intros Hdone Hquit. simpl command_loop. rewrite read_turn.
  apply String.eqb_neq in Hdone, Hquit. rewrite Hdone, Hquit. reflexivity.
Qed.

Lemma command_loop_quit (flat_items : list ref) (line : string)
    (rest : list string) (w : World) :
  Py.lower (Py.strip line) = "quit" ->
  command_loop flat_items (line :: rest) w
  = (Raise (SystemExit 0),
     extend (after_read w line rest) [Stdout ("Operation cancelled." ++ nl)]).
Proof.
  intros Hquit. simpl command_loop. rewrite read_turn, Hquit. reflexivity.
Qed.

Lemma print_status_run (flat_items : list ref) (w : World) :
  print_status flat_items w
  = (Normal tt, extend w [Stdout (status_line flat_items (heap w))]).
Proof.
  reflexivity.
Qed.




(** Lines 292-302 when both numbers parse and lie within the list. *)
Lemma range_command_run (flat_items : list ref) (cmd : string) (s e : Z) (w : World) :
  unpack_ints (Py.split "-" cmd) = Normal (s, e) ->
  in_bounds s flat_items = true ->
  in_bounds e flat_items = true ->
  range_command flat_items cmd w
  = (Normal tt,
     extend
       (set_heap w
          (toggled (take (Z.to_nat (e - (s - 1)))
                      (drop (Z.to_nat (s - 1)) flat_items)) (heap w)))
       [Stdout (("Toggled selection for items " ++ Py.str s ++ " to "
                 ++ Py.str e ++ ".") ++ nl)]).
Proof.
  intros Hparse Hs He.
  unfold range_command, try_except, bind, lift. rewrite Hparse, Hs, He. simpl.
  unfold in_bounds in Hs, He.
  apply andb_true_iff in Hs as [Hs1 Hs2]. apply andb_true_iff in He as [He1 He2].
  apply Z.leb_le in Hs1, Hs2, He1, He2.
  unfold range.
  erewrite map_ext; [rewrite (toggle_range_run flat_items _ (Z.to_nat (s - 1)))|].
  - reflexivity.
  - lia.
  - intros k. simpl. rewrite Z2Nat.id by lia. reflexivity.
Qed.

(** A command that contains a dash is none of the keywords, so it goes to
    the range branch. *)
Lemma run_command_dash (flat_items : list ref) (cmd : string) :
  Py.contains "-" cmd = true ->
  run_command flat_items cmd = range_command flat_items cmd.
Proof.
  intros Hdash. unfold run_command.
  repeat match goal with
         | |- context [String.eqb cmd ?kw] =>
             destruct (String.eqb_spec cmd kw) as [->|_]; [discriminate|]
         end.
  rewrite Hdash. reflexivity.
Qed.

Lemma dash_not_keyword (cmd : string) :
  Py.contains "-" cmd = true -> cmd <> "done" /\ cmd <> "quit".
Proof. intros H. split; intros ->; discriminate. Qed.

(** A whole turn of the loop on a range command whose numbers parse and lie
    within the list. *)
Lemma command_loop_range (flat_items : list ref) (line : string)
    (rest : list string) (s e : Z) (w : World) :
  Py.contains "-" (Py.lower (Py.strip line)) = true ->
  unpack_ints (Py.split "-" (Py.lower (Py.strip line))) = Normal (s, e) ->
  in_bounds s flat_items = true ->
  in_bounds e flat_items = true ->
  let h' := toggled (take (Z.to_nat (e - (s - 1)))
                       (drop (Z.to_nat (s - 1)) flat_items)) (heap w) in
  command_loop flat_items (line :: rest) w
  = command_loop flat_items rest
      {| stdin := rest;
         trace := (trace w ++ menu_events
                   ++ [Stdin command_prompt line;
                       Stdout (("Toggled selection for items " ++ Py.str s
                                ++ " to " ++ Py.str e ++ ".") ++ nl);
                       Stdout (status_line flat_items h')])%list;
         heap := h' |}.
Proof.
  intros Hdash Hparse Hs He h'.
  destruct (dash_not_keyword _ Hdash) as [Hdone Hquit].
  rewrite command_loop_turn by assumption.
  rewrite run_command_dash by assumption.
  erewrite bind_normal by (eapply range_command_run; eassumption).
  erewrite bind_normal by apply print_status_run.
  f_equal. unfold after_read, set_stdin, set_heap, extend. simpl.
  rewrite <- !app_assoc. reflexivity.
Qed.



(** Claim C10.  A range command whose two numbers parse as [s] and [e]
    with [1 <= e < s <= len(flat_items)] is taken as a valid range: the
    turn prints the message of a successful toggle, not an error, leaves
    the store as it was, prints the count of selected items and goes on to
    the next turn. *)
Theorem reversed_range_is_accepted (flat_items : list ref) (line : string)
    (rest : list string) (s e : Z) (w : World) :
  Py.contains "-" (Py.lower (Py.strip line)) = true ->
  unpack_ints (Py.split "-" (Py.lower (Py.strip line))) = Normal (s, e) ->
  (1 <= e)%Z -> (e < s)%Z -> (s <= Z.of_nat (length flat_items))%Z ->
  command_loop flat_items (line :: rest) w
  = command_loop flat_items rest
      {| stdin := rest;
         trace := (trace w ++ menu_events
                   ++ [Stdin command_prompt line;
                       Stdout (("Toggled selection for items " ++ Py.str s
                                ++ " to " ++ Py.str e ++ ".") ++ nl);
                       Stdout (status_line flat_items (heap w))])%list;
         heap := heap w |}.
Proof.
  intros Hdash Hparse He Hes Hs.
  rewrite (command_loop_range flat_items line rest s e w Hdash Hparse).
  - replace (Z.to_nat (e - (s - 1))) with 0 by lia. reflexivity.
  - unfold in_bounds. apply andb_true_iff. split; apply Z.leb_le; lia.
  - unfold in_bounds. apply andb_true_iff. split; apply Z.leb_le; lia.
Qed.

Lemma reversed_range_is_accepted_witness :
  command_loop (seq 0 12) ["10-5"; "quit"] (Sample.twelve_items [])
  = command_loop (seq 0 12) ["quit"]
      {| stdin := ["quit"];
         trace := (menu_events
                   ++ [Stdin command_prompt "10-5";
                       Stdout ("Toggled selection for items 10 to 5." ++ nl);
                       Stdout (status_line (seq 0 12)
                                 (heap (Sample.twelve_items [])))])%list;
         heap := heap (Sample.twelve_items []) |}.
Proof.
  apply (reversed_range_is_accepted (seq 0 12) "10-5" ["quit"] 10 5
           (Sample.twelve_items []));
    [reflexivity|reflexivity|lia|lia|simpl; lia].
Defined.

End RangeCommand.

(** ** Effects of the script, function by function *)

Section Effects.
Import Delete.
Local Open Scope py_scope.
Local Open Scope list_scope.

Lemma sat_mono {A} (post post' : result A -> list event -> Prop) (m : M A) :
  (forall r events, post r events -> post' r events) -> sat post m -> sat post' m.
Proof.
  intros Himp Hm w. destruct (Hm w) as (events & Ht & Hp).
  exists events. split; [exact Ht|apply Himp; exact Hp].
Qed.

Lemma sat_ret {A} (post : result A -> list event -> Prop) (a : A) :
  post (Normal a) [] -> sat post (ret a).
Proof. intros H w. exists []. simpl. rewrite app_nil_r. split; [reflexivity|exact H]. Qed.

Lemma sat_raise {A} (post : result A -> list event -> Prop) (e : exn) :
  post (Raise e) [] -> sat post (raise e).
Proof. intros H w. exists []. simpl. rewrite app_nil_r. split; [reflexivity|exact H]. Qed.

Lemma sat_lift {A} (post : result A -> list event -> Prop) (r : result A) :
  post r [] -> sat post (lift r).
Proof. intros H w. exists []. simpl. rewrite app_nil_r. split; [reflexivity|exact H]. Qed.

Lemma sat_emit (post : result unit -> list event -> Prop) (e : event) :
  post (Normal tt) [e] -> sat post (emit e).
Proof. intros H w. exists [e]. split; [reflexivity|exact H]. Qed.

(** Sequencing: the effects of [m] come first; when [m] raises, its
    effects are all there is. *)
Lemma sat_bind {A B} (post_m : result A -> list event -> Prop)
    (post_k : A -> result B -> list event -> Prop)
    (post : result B -> list event -> Prop) (m : M A) (k : A -> M B) :
  sat post_m m ->
  (forall a, sat (post_k a) (k a)) ->
  (forall e events, post_m (Raise e) events -> post (Raise e) events) ->
  (forall a events1 r events2,
     post_m (Normal a) events1 -> post_k a r events2 ->
     post r (events1 ++ events2)) ->
  sat post (bind m k).
Proof.
  intros Hm Hk Hraise Hseq w. unfold bind.
  destruct (Hm w) as (events1 & Ht1 & Hp1).
  destruct (m w) as [[a|e] w1]; simpl in Ht1, Hp1.
  - destruct (Hk a w1) as (events2 & Ht2 & Hp2).
    exists (events1 ++ events2). split.
    + rewrite Ht2, Ht1, app_assoc. reflexivity.
    + apply Hseq with a; assumption.
  - exists events1. simpl. split; [exact Ht1|apply Hraise; exact Hp1].
Qed.

Lemma sat_try_except {A} (post_m : result A -> list event -> Prop)
    (post_h : exn -> result A -> list event -> Prop)
    (post : result A -> list event -> Prop)
    (m : M A) (handles : exn -> bool) (handler : exn -> M A) :
  sat post_m m ->
  (forall e, sat (post_h e) (handler e)) ->
  (forall a events, post_m (Normal a) events -> post (Normal a) events) ->
  (forall e events, post_m (Raise e) events -> handles e = false ->
     post (Raise e) events) ->
  (forall e events1 r events2,
     post_m (Raise e) events1 -> handles e = true -> post_h e r events2 ->
     post r (events1 ++ events2)) ->
  sat post (try_except m handles handler).
Proof.
  intros Hm Hh Hnormal Hpass Hcaught w. unfold try_except.
  destruct (Hm w) as (events1 & Ht1 & Hp1).
  destruct (m w) as [[a|e] w1]; simpl in Ht1, Hp1.
  - exists events1. split; [exact Ht1|apply Hnormal; exact Hp1].
  - destruct (handles e) eqn:He.
    + destruct (Hh e w1) as (events2 & Ht2 & Hp2).
      exists (events1 ++ events2). split.
      * rewrite Ht2, Ht1, app_assoc. reflexivity.
      * apply Hcaught with e; assumption.
    + exists events1. split; [exact Ht1|apply Hpass; assumption].
Qed.

(** [finally], when the clause only records an effect: the effect comes
    last, unless the body never returns. *)
Lemma sat_try_finally_emit {A} (post_m post : result A -> list event -> Prop)
    (m : M A) (e : event) :
  sat post_m m ->
  (forall r events, post_m r events -> returns_never r = false ->
     post r (events ++ [e])) ->
  (forall r events, post_m r events -> returns_never r = true ->
     post r events) ->
  sat post (try_finally m (emit e)).
Proof.
  intros Hm Hpost Hnever w. unfold try_finally.
  destruct (Hm w) as (events1 & Ht1 & Hp1).
  destruct (m w) as [r w1]; simpl in Ht1, Hp1.
  destruct (returns_never r) eqn:Hr; simpl.
  - exists events1. split; [exact Ht1|apply Hnever; assumption].
  - exists (events1 ++ [e]). split.
    + rewrite Ht1, app_assoc. reflexivity.
    + apply Hpost; assumption.
Qed.

(** A computation that reads the lines standard input holds. *)
Lemma sat_with_stdin {A} (post : result A -> list event -> Prop)
    (f : list string -> M A) :
  (forall lines, sat post (f lines)) -> sat post (fun w => f (stdin w) w).
Proof. intros H w. apply (H (stdin w) w). Qed.

(** *** Allowed effects *)

Lemma allowed_weaken (c c' : bool) (ps ps' : list string) (e : event) :
  (c = true -> c' = true) -> incl ps ps' ->
  allowed c ps e = true -> allowed c' ps' e = true.
Proof.
  intros Hc Hps. destruct e; simpl; auto.
  rewrite !existsb_exists. intros (p & Hin & Hp). exists p. split; auto.
Qed.

Lemma emits_weaken {A} (c c' : bool) (ps ps' : list string) (m : M A) :
  (c = true -> c' = true) -> incl ps ps' -> emits c ps m -> emits c' ps' m.
Proof.
  intros Hc Hps. apply sat_mono. intros _ events HF.
  eapply Forall_impl; [exact HF|].
  intros e. apply allowed_weaken; assumption.
Qed.

Lemma emits_ret {A} c ps (a : A) : emits c ps (ret a).
Proof. apply sat_ret. constructor. Qed.

Lemma emits_raise {A} c ps (e : exn) : emits c ps (@raise A e).
Proof. apply sat_raise. constructor. Qed.

Lemma emits_lift {A} c ps (r : result A) : emits c ps (lift r).
Proof. apply sat_lift. constructor. Qed.

Lemma emits_emit c ps (e : event) : allowed c ps e = true -> emits c ps (emit e).
Proof. intros H. apply sat_emit. repeat constructor. exact H. Qed.

Lemma emits_bind {A B} c ps (m : M A) (k : A -> M B) :
  emits c ps m -> (forall a, emits c ps (k a)) -> emits c ps (bind m k).
Proof.
  intros Hm Hk. unfold emits.
  eapply (sat_bind _ (fun _ _ events =>
                        Forall (fun e => allowed c ps e = true) events));
    [exact Hm|exact Hk|auto|].
  intros a events1 r events2 H1 H2. apply Forall_app. split; assumption.
Qed.

Lemma emits_try_except {A} c ps (m : M A) handles (handler : exn -> M A) :
  emits c ps m -> (forall e, emits c ps (handler e)) ->
  emits c ps (try_except m handles handler).
Proof.
  intros Hm Hh. unfold emits.
  eapply (sat_try_except _ (fun _ _ events =>
                              Forall (fun e => allowed c ps e = true) events));
    [exact Hm|exact Hh|auto|auto|].
  intros e events1 r events2 H1 _ H2. apply Forall_app. split; assumption.
Qed.

Lemma emits_pure {A} c ps (f : World -> A) : emits c ps (fun w => (Normal (f w), w)).
Proof. intros w. exists []. simpl. rewrite app_nil_r. split; [reflexivity|constructor]. Qed.

Lemma emits_deref c ps (r : ref) : emits c ps (deref r).
Proof. apply (emits_pure c ps (fun w => heap w !!! r)). Qed.

Lemma emits_selected_of c ps (flat_items : list ref) :
  emits c ps (selected_of flat_items).
Proof.
  apply (emits_pure c ps
           (fun w => List.filter (fun r => selected (heap w !!! r)) flat_items)).
Qed.

Lemma emits_update c ps (r : ref) f : emits c ps (update r f).
Proof. intros w. exists []. simpl. rewrite app_nil_r. split; [reflexivity|constructor]. Qed.

Lemma emits_new c ps (item : TelegramItem) : emits c ps (new item).
Proof. intros w. exists []. simpl. rewrite app_nil_r. split; [reflexivity|constructor]. Qed.

Lemma emits_print c ps (s : string) : emits c ps (print s).
Proof. apply emits_emit. reflexivity. Qed.

Lemma emits_print_end c ps (s : string) : emits c ps (print_end s).
Proof. apply emits_emit. reflexivity. Qed.

Lemma emits_logger_error c ps msg exc : emits c ps (logger_error msg exc).
Proof. apply emits_emit. reflexivity. Qed.

Lemma emits_logger_warning c ps msg : emits c ps (logger_warning msg).
Proof. apply emits_emit. reflexivity. Qed.

Lemma emits_sleep c ps d : emits c ps (sleep d).
Proof.
  unfold sleep. apply emits_bind; [apply emits_emit; reflexivity|intros _].
  destruct (d <=? 0)%float; [apply emits_ret|].
  destruct (is_nan d); [destruct python_3_13; apply emits_raise|].
  destruct (is_infinity d); [apply emits_raise|apply emits_ret].
Qed.

Lemma emits_input c ps (prompt : string) :
  existsb (String.eqb prompt) ps = true -> emits c ps (input prompt).
Proof.
  intros Hp. unfold input. apply emits_bind; [apply emits_emit; reflexivity|].
  intros _ w. destruct (stdin w) as [|line rest].
  - exists []. simpl. rewrite app_nil_r. split; [reflexivity|constructor].
  - exists [Stdin prompt line]. split; [reflexivity|].
    repeat constructor. exact Hp.
Qed.

Lemma emits_invoke ps client (r : Request) : emits true ps (invoke client r).
Proof.
  intros w. exists [Invoke r]. unfold invoke.
  destruct (call client (requests (trace w)) r); (split; [reflexivity|]);
    repeat constructor.
Qed.

Lemma emits_for_each {A} c ps (l : list A) (body : A -> M unit) :
  (forall x, emits c ps (body x)) -> emits c ps (for_each l body).
Proof.
  intros Hbody. induction l as [|x l IH]; simpl.
  - apply emits_ret.
  - apply emits_bind; [apply Hbody|intros _; exact IH].
Qed.

End Effects.

Ltac emits_step :=
  lazymatch goal with
  | |- Delete.emits _ _ (Delete.bind _ _) => apply emits_bind; [|intros ?]
  | |- Delete.emits _ _ (Delete.ret _) => apply emits_ret
  | |- Delete.emits _ _ (Delete.raise _) => apply emits_raise
  | |- Delete.emits _ _ (Delete.lift _) => apply emits_lift
  | |- Delete.emits _ _ (Delete.print _) => apply emits_print
  | |- Delete.emits _ _ (Delete.print_end _) => apply emits_print_end
  | |- Delete.emits _ _ (Delete.logger_error _ _) => apply emits_logger_error
  | |- Delete.emits _ _ (Delete.logger_warning _) => apply emits_logger_warning
  | |- Delete.emits _ _ (Delete.sleep _) => apply emits_sleep
  | |- Delete.emits _ _ (Delete.emit _) => apply emits_emit; reflexivity
  | |- Delete.emits _ _ (Delete.input _) => apply emits_input; first [reflexivity|assumption]
  | |- Delete.emits _ _ (Delete.invoke _ _) => apply emits_invoke
  | |- Delete.emits _ _ (Delete.deref _) => apply emits_deref
  | |- Delete.emits _ _ (Delete.update _ _) => apply emits_update
  | |- Delete.emits _ _ (Delete.new _) => apply emits_new
  | |- Delete.emits _ _ (Delete.selected_of _) => apply emits_selected_of
  | |- Delete.emits _ _ (Delete.for_each _ _) => apply emits_for_each; intros ?
  | |- Delete.emits _ _ (Delete.try_except _ _ _) => apply emits_try_except; [|intros ?]
  | |- Delete.emits _ _ (if ?b then _ else _) => destruct b
  | |- Delete.emits _ _ (match ?x with _ => _ end) => destruct x
  end.

Ltac emits_auto := repeat emits_step.

Section FunctionEffects.
Import Delete.
Local Open Scope py_scope.
Local Open Scope list_scope.

Lemma emits_getitem c ps (l : list ref) (i : Z) : emits c ps (getitem l i).
Proof. unfold getitem. emits_auto. Qed.

Lemma emits_run_command c ps (flat_items : list ref) (cmd : string) :
  emits c ps (run_command flat_items cmd).
Proof.
  unfold run_command, range_command, number_command, select_where, toggle_at.
  emits_auto; apply emits_getitem.
Qed.

Lemma emits_print_status c ps (flat_items : list ref) :
  emits c ps (print_status flat_items).
Proof. unfold print_status. emits_auto. Qed.

Lemma emits_print_commands c ps : emits c ps print_commands.
Proof. unfold print_commands. emits_auto. Qed.

Lemma emits_read_line c ps (line : string) (rest : list string) :
  existsb (String.eqb command_prompt) ps = true ->
  emits c ps (read_line line rest).
Proof.
  intros Hp w. exists [Stdin command_prompt line]. split; [reflexivity|].
  repeat constructor. exact Hp.
Qed.

(** The command loop makes no request and reads at its own prompt only. *)
Lemma emits_command_loop c ps (flat_items : list ref) (lines : list string) :
  existsb (String.eqb command_prompt) ps = true ->
  emits c ps (command_loop flat_items lines).
Proof.
  intros Hp. induction lines as [|line rest IH]; simpl.
  - apply emits_bind; [apply emits_print_commands|intros _]. emits_auto.
  - apply emits_bind; [apply emits_print_commands|intros _].
    apply emits_bind; [emits_auto|intros _].
    apply emits_bind; [apply emits_read_line; exact Hp|intros _].
    destruct (String.eqb _ "done").
    { apply emits_bind; [apply emits_selected_of|intros [|r rs]].
      - apply emits_bind; [apply emits_print|intros _; exact IH].
      - apply emits_ret. }
    destruct (String.eqb _ "quit"); [emits_auto|].
    apply emits_bind; [apply emits_run_command|intros _].
    apply emits_bind; [apply emits_print_status|intros _; exact IH].
Qed.

Lemma emits_interactive_selection c ps (all_items : Inventory) :
  existsb (String.eqb command_prompt) ps = true ->
  emits c ps (interactive_selection all_items).
Proof.
  intros Hp. unfold interactive_selection.
  apply emits_bind; [apply emits_print|intros _].
  apply emits_bind; [emits_auto|intros _].
  apply (sat_with_stdin _ (command_loop (flatten all_items))).
  intros lines. apply emits_command_loop. exact Hp.
Qed.

Lemma emits_select_items c ps (args : Namespace) (all_items : Inventory) :
  existsb (String.eqb choice_prompt) ps = true ->
  existsb (String.eqb command_prompt) ps = true ->
  emits c ps (select_items args all_items).
Proof.
  intros Hchoice Hcommand. unfold select_items, choose.
  repeat first
    [ apply emits_interactive_selection; assumption
    | emits_step ].
Qed.

Lemma emits_log_and_fail c ps context e : emits c ps (log_and_fail context e).
Proof. unfold log_and_fail. emits_auto. Qed.

Lemma emits_delete_item ps client (r : ref) : emits true ps (delete_item client r).
Proof.
  unfold delete_item, delete_private_chat, leave_group_or_channel.
  repeat first [ apply emits_log_and_fail | emits_step ].
Qed.

Lemma emits_delete_loop ps client d n numbered count :
  emits true ps (delete_loop client d n numbered count).
Proof.
  revert count; induction numbered as [|[i r] rest IH]; intros count; simpl.
  - apply emits_ret.
  - repeat first [ apply emits_delete_item | apply IH | emits_step ].
Qed.

Lemma emits_count_types c ps items counts : emits c ps (count_types items counts).
Proof.
  revert counts; induction items as [|r rest IH]; intros counts; simpl.
  - apply emits_ret.
  - apply emits_bind; [apply emits_deref|intros item; apply IH].
Qed.

Lemma emits_file_dialogs c ps dialogs items : emits c ps (file_dialogs dialogs items).
Proof.
  revert items; induction dialogs as [|d ds IH]; intros items; simpl.
  - apply emits_ret.
  - destruct (classify d) as [k item].
    apply emits_bind; [apply emits_new|intros r; apply IH].
Qed.

Lemma emits_get_all_items c ps client : emits c ps (get_all_items client).
Proof.
  unfold get_all_items. destruct (iter_dialogs client) as [dialogs failure].
  apply emits_bind; [apply emits_file_dialogs|intros items].
  destruct failure; emits_auto.
Qed.

Lemma emits_client_start c ps client phone : emits c ps (client_start client phone).
Proof.
  unfold client_start. apply emits_bind; [emits_auto|intros _].
  intros w. exists []. rewrite app_nil_r.
  destruct (start client phone (stdin w)); (split; [reflexivity|constructor]).
Qed.

Lemma emits_confirm_and_delete ps client args items :
  existsb (String.eqb confirm_prompt) ps = true ->
  emits true ps (confirm_and_delete client args items).
Proof.
  intros Hp. unfold confirm_and_delete. destruct items as [|r0 items0].
  - emits_auto.
  - repeat first
      [ apply emits_count_types | apply emits_delete_loop | emits_step ].
Qed.

End FunctionEffects.

Ltac emits_call :=
  lazymatch goal with
  | |- Delete.emits _ _ (Delete.client_start _ _) => apply emits_client_start
  | |- Delete.emits _ _ (Delete.get_all_items _) => apply emits_get_all_items
  | |- Delete.emits _ _ (Delete.select_items _ _) =>
      apply emits_select_items; reflexivity
  | |- Delete.emits _ _ (Delete.interactive_selection _) =>
      apply emits_interactive_selection; reflexivity
  | |- Delete.emits _ _ (Delete.command_loop _ _) =>
      apply emits_command_loop; reflexivity
  | |- Delete.emits _ _ (Delete.confirm_and_delete _ _ _) =>
      apply emits_confirm_and_delete; reflexivity
  | |- Delete.emits _ _ (Delete.run_command _ _) => apply emits_run_command
  | |- Delete.emits _ _ (Delete.print_status _) => apply emits_print_status
  | |- Delete.emits _ _ Delete.print_commands => apply emits_print_commands
  | |- Delete.emits _ _ (Delete.delete_loop _ _ _ _ _) => apply emits_delete_loop
  | |- Delete.emits _ _ (Delete.count_types _ _) => apply emits_count_types
  | |- _ => emits_step
  end.

Ltac solve_emits := solve [repeat emits_call].

(** ** Lines read at a prompt *)

Section Guarded.
Import Delete.
Local Open Scope py_scope.
Local Open Scope list_scope.

Lemma app_split_cases {A} (l1 l2 pre post : list A) (x : A) :
  l1 ++ l2 = pre ++ x :: post ->
  (exists post1, l1 = pre ++ x :: post1 /\ post = post1 ++ l2)
  \/ (exists pre2, pre = l1 ++ pre2 /\ l2 = pre2 ++ x :: post).
Proof.
  revert pre; induction l1 as [|y l1 IH]; intros pre H.
  - right. exists pre. split; [reflexivity|exact H].
  - destruct pre as [|z pre]; simpl in H.
    + injection H as -> <-. left. exists l1. split; reflexivity.
    + injection H as -> H. destruct (IH pre H) as [(post1 & -> & ->)|(pre2 & -> & ->)].
      * left. exists post1. split; reflexivity.
      * right. exists pre2. split; reflexivity.
Qed.

Lemma allowed_not_read c ps p (e : event) (line : string) :
  existsb (String.eqb p) ps = false -> allowed c ps e = true ->
  e <> Stdin p line.
Proof. intros Hp He ->. simpl in He. congruence. Qed.

Lemma quiet_no_read c ps p (events pre post : list event) (line : string) :
  existsb (String.eqb p) ps = false ->
  Forall (fun e => allowed c ps e = true) events ->
  events <> pre ++ Stdin p line :: post.
Proof.
  intros Hp Hall ->. apply Forall_app in Hall as [_ Hall].
  apply Forall_cons in Hall as [Hall _].
  eapply allowed_not_read; [exact Hp|exact Hall|reflexivity].
Qed.

Lemma requests_app (a b : list event) : requests (a ++ b) = requests a ++ requests b.
Proof. unfold requests. apply omap_app. Qed.

Lemma requests_quiet ps (events : list event) :
  Forall (fun e => allowed false ps e = true) events -> requests events = [].
Proof.
  induction 1 as [|e events He _ IH]; [reflexivity|].
  destruct e; simpl in He |- *; try exact IH. discriminate.
Qed.

(** A line read after allowed effects that do not read at the prompt. *)
Lemma split_after_quiet c ps p (q events pre post : list event) (line : string) :
  existsb (String.eqb p) ps = false ->
  Forall (fun e => allowed c ps e = true) q ->
  q ++ events = pre ++ Stdin p line :: post ->
  exists pre2, pre = q ++ pre2 /\ events = pre2 ++ Stdin p line :: post.
Proof.
  intros Hp Hq H. destruct (app_split_cases _ _ _ _ _ H) as [(post1 & Hq1 & _)|Hright].
  - exfalso. eapply quiet_no_read; eassumption.
  - exact Hright.
Qed.

Section Rules.
Context {A : Type} (p : string) (trigger : string -> Prop) (then_ : list event).

Lemma guarded_quiet c ps (outcome : result A -> Prop) (r : result A) events :
  existsb (String.eqb p) ps = false ->
  Forall (fun e => allowed c ps e = true) events ->
  guarded p trigger then_ outcome r events.
Proof.
  intros Hp Hall pre line post Hsplit _. exfalso.
  eapply quiet_no_read; eassumption.
Qed.

Lemma guarded_after_quiet ps (outcome : result A -> Prop) (r : result A) q events :
  existsb (String.eqb p) ps = false ->
  Forall (fun e => allowed false ps e = true) q ->
  guarded p trigger then_ outcome r events ->
  guarded p trigger then_ outcome r (q ++ events).
Proof.
  intros Hp Hq Hg pre line post Hsplit Htrig.
  destruct (split_after_quiet _ _ _ _ _ _ _ _ Hp Hq Hsplit) as (pre2 & -> & Hev).
  destruct (Hg pre2 line post Hev Htrig) as (Hpost & Hout & Hreq).
  split; [exact Hpost|]. split; [exact Hout|].
  rewrite requests_app, Hreq, (requests_quiet ps q Hq). reflexivity.
Qed.

Lemma sat_guarded_quiet c ps (outcome : result A -> Prop) (m : M A) :
  existsb (String.eqb p) ps = false ->
  emits c ps m -> sat (guarded p trigger then_ outcome) m.
Proof.
  intros Hp. apply sat_mono. intros r events. apply guarded_quiet. exact Hp.
Qed.

(** Allowed effects that make no request and do not read at the prompt
    may come first. *)
Lemma sat_guarded_prefix {B} ps (outcome : result A -> Prop)
    (m : M B) (k : B -> M A) :
  existsb (String.eqb p) ps = false ->
  emits false ps m ->
  (forall b, sat (guarded p trigger then_ outcome) (k b)) ->
  sat (guarded p trigger then_ outcome) (bind m k).
Proof.
  intros Hp Hm Hk.
  eapply (sat_bind _ (fun _ => guarded p trigger then_ outcome));
    [exact Hm|exact Hk| |].
  - intros e events Hall. apply (guarded_quiet false ps); [exact Hp|exact Hall].
  - intros b events1 r events2 Hall Hg.
    apply (guarded_after_quiet ps); [exact Hp|exact Hall|exact Hg].
Qed.

(** Allowed effects that do not read at the prompt may come last, when
    the outcome excludes a normal return of what comes first. *)
Lemma sat_guarded_suffix {B} c ps (outcome : result B -> Prop)
    (outcome' : result A -> Prop) (m : M B) (k : B -> M A) :
  existsb (String.eqb p) ps = false ->
  (forall b, ~ outcome (Normal b)) ->
  (forall e, outcome (Raise e) -> outcome' (Raise e)) ->
  sat (guarded p trigger then_ outcome) m ->
  (forall b, emits c ps (k b)) ->
  sat (guarded p trigger then_ outcome') (bind m k).
Proof.
  intros Hp Hnormal Hraise Hm Hk.
  eapply (sat_bind _ (fun _ _ events =>
                        Forall (fun e => allowed c ps e = true) events));
    [exact Hm|exact Hk| |].
  - intros e events Hg pre line post Hsplit Htrig.
    destruct (Hg pre line post Hsplit Htrig) as (Hpost & Hout & Hreq).
    split; [exact Hpost|]. split; [apply Hraise; exact Hout|exact Hreq].
  - intros b events1 r events2 Hg Hall pre line post Hsplit Htrig. exfalso.
    destruct (app_split_cases _ _ _ _ _ Hsplit)
      as [(post1 & Hev & _)|(pre2 & _ & Hev)].
    + destruct (Hg pre line post1 Hev Htrig) as (_ & Hout & _).
      exact (Hnormal b Hout).
    + eapply quiet_no_read; eassumption.
Qed.

End Rules.

(** The [try] statement of [main] around a guarded body: the handlers add
    effects only when the body raised an [Exception], and [finally] adds
    the release of the session, since the outcome is that of a body that
    returned or raised. *)
Lemma sat_guarded_try (p : string) (trigger : string -> Prop)
    (then_ : list event) (outcome : result unit -> Prop) (body : M unit) :
  (forall e, outcome (Raise e) -> is_Exception e = false) ->
  (forall r, outcome r -> returns_never r = false) ->
  sat (guarded p trigger then_ outcome) body ->
  sat (guarded p trigger (then_ ++ [Disconnect]) outcome)
    (try_finally (try_except body is_Exception main_handler) (emit Disconnect)).
Proof.
  intros Hout Hends Hbody.
  apply (sat_try_finally_emit (guarded p trigger then_ outcome)).
  - eapply (sat_try_except _ (fun _ _ events =>
              Forall (fun e => allowed false [] e = true) events));
      [exact Hbody| | | |].
    + intros e. change (emits false [] (main_handler e)).
      unfold main_handler. destruct e; emits_auto.
    + auto.
    + auto.
    + intros e events1 r events2 Hg He Hall pre line post Hsplit Htrig. exfalso.
      destruct (app_split_cases _ _ _ _ _ Hsplit)
        as [(post1 & Hev & _)|(pre2 & _ & Hev)].
      * destruct (Hg pre line post1 Hev Htrig) as (_ & Ho & _).
        apply Hout in Ho. congruence.
      * eapply (quiet_no_read false []); [reflexivity|exact Hall|exact Hev].
  - intros r events Hg _ pre line post Hsplit Htrig.
    destruct (app_split_cases _ _ _ _ _ Hsplit)
      as [(post1 & Hev & ->)|(pre2 & _ & Hev)].
    + destruct (Hg pre line post1 Hev Htrig) as (-> & Ho & Hreq).
      split; [reflexivity|]. split; [exact Ho|].
      rewrite requests_app, Hreq. reflexivity.
    + destruct pre2 as [|? [|? ?]]; discriminate.
  - intros r events Hg Hnever pre line post Hsplit Htrig. exfalso.
    destruct (Hg pre line post Hsplit Htrig) as (_ & Ho & _).
    apply Hends in Ho. congruence.
Qed.

End Guarded.

(** ** delete.py: [quit] *)

Ltac guarded_prefix ps :=
  apply (sat_guarded_prefix _ _ _ ps); [reflexivity|solve_emits|intros ?].

Ltac guarded_bind ps :=
  apply (sat_guarded_prefix _ _ _ ps); [reflexivity|solve_emits|].

Ltac guarded_quiet c ps :=
  apply (sat_guarded_quiet _ _ _ c ps); [reflexivity|solve_emits].

Section Quit.
Import Delete.
Local Open Scope py_scope.
Local Open Scope list_scope.

(** A turn that reads a line which does not trigger, before a guarded
    rest. *)
Lemma sat_guarded_read_line {A} (trigger : string -> Prop) (then_ : list event)
    (outcome : result A -> Prop) (line : string) (rest : list string) (k : M A) :
  ~ trigger line ->
  sat (guarded command_prompt trigger then_ outcome) k ->
  sat (guarded command_prompt trigger then_ outcome)
    (read_line line rest ;; k).
Proof.
  intros Hline Hk.
  apply (sat_bind
           (fun r events => r = Normal tt /\ events = [Stdin command_prompt line])
           (fun _ => guarded command_prompt trigger then_ outcome)).
  - intros w. exists [Stdin command_prompt line]. split; [reflexivity|].
    split; reflexivity.
  - intros _. exact Hk.
  - intros e events [He _]. discriminate.
  - intros _ events1 r events2 [_ ->] Hg pre l post Hsplit Htrig.
    destruct pre as [|x pre]; simpl in Hsplit.
    + injection Hsplit as <- _. contradiction.
    + injection Hsplit as <- Hev.
      destruct (Hg pre l post Hev Htrig) as (Hpost & Hout & Hreq).
      split; [exact Hpost|]. split; [exact Hout|exact Hreq].
Qed.

(** The turn that reads [quit]. *)
Lemma sat_quit_turn (line : string) (rest : list string) :
  sat (guarded command_prompt is_quit [cancelled] (@exits_0 (list ref)))
    (read_line line rest ;; print "Operation cancelled." ;; raise (SystemExit 0)).
Proof.
  intros w. exists [Stdin command_prompt line; cancelled]. split.
  - unfold bind, read_line, print, emit, raise. simpl.
    rewrite <- app_assoc. reflexivity.
  - intros pre l post Hsplit _.
    destruct pre as [|x [|y [|z pre]]]; simpl in Hsplit; try discriminate.
    injection Hsplit as _ <-. unfold exits_0. repeat split; reflexivity.
Qed.

(** In the command loop, a line that reads [quit] is followed by the
    cancellation message and nothing else, and the loop ends in
    [sys.exit(0)]. *)
Lemma sat_command_loop_quit (flat_items : list ref) (lines : list string) :
  sat (guarded command_prompt is_quit [cancelled] (@exits_0 (list ref)))
    (command_loop flat_items lines).
Proof.
  induction lines as [|line rest IH]; simpl command_loop.
  - guarded_quiet false (@nil string).
  - guarded_prefix (@nil string). guarded_prefix (@nil string).
    destruct (String.eqb_spec (Py.lower (Py.strip line)) "done") as [Hdone|_].
    { apply sat_guarded_read_line.
      - unfold is_quit. rewrite Hdone. discriminate.
      - guarded_bind (@nil string). intros [|r rs].
        + guarded_prefix (@nil string). exact IH.
        + guarded_quiet false (@nil string). }
    destruct (String.eqb_spec (Py.lower (Py.strip line)) "quit") as [Hquit|Hquit].
    { apply sat_quit_turn. }
    apply sat_guarded_read_line; [exact Hquit|].
    guarded_prefix (@nil string). guarded_prefix (@nil string). exact IH.
Qed.

Lemma sat_interactive_selection_quit (all_items : Inventory) :
  sat (guarded command_prompt is_quit [cancelled] (@exits_0 (list ref)))
    (interactive_selection all_items).
Proof.
  unfold interactive_selection.
  guarded_prefix (@nil string). guarded_prefix (@nil string).
  apply (sat_with_stdin _ (command_loop (flatten all_items))).
  apply sat_command_loop_quit.
Qed.

Lemma sat_selection_then_some_quit (all_items : Inventory) :
  sat (guarded command_prompt is_quit [cancelled] (@exits_0 (option (list ref))))
    (items <- interactive_selection all_items ;; ret (Some items)).
Proof.
  apply (sat_guarded_suffix _ _ _ false (@nil string) (@exits_0 (list ref)));
    [reflexivity|intros b; discriminate|intros e [= ->]; reflexivity
    |apply sat_interactive_selection_quit|intros b; solve_emits].
Qed.

Lemma sat_select_items_quit (args : Namespace) (all_items : Inventory) :
  sat (guarded command_prompt is_quit [cancelled] (@exits_0 (option (list ref))))
    (select_items args all_items).
Proof.
  unfold select_items.
  destruct (interactive args); [apply sat_selection_then_some_quit|].
  destruct (all args); [guarded_quiet false (@nil string)|].
  destruct (negb _); [|guarded_quiet false (@nil string)].
  unfold choose.
  do 8 guarded_prefix [choice_prompt].
  repeat match goal with
         | |- sat _ (if ?c then _ else _) => destruct c
         end;
    first [apply sat_selection_then_some_quit|guarded_quiet false (@nil string)].
Qed.

Lemma sat_main_body_quit client args phone :
  sat (guarded command_prompt is_quit [cancelled] (@exits_0 unit))
    (main_body client args phone).
Proof.
  unfold main_body.
  guarded_prefix (@nil string). guarded_bind (@nil string). intros authorized.
  destruct (negb authorized); [guarded_quiet false (@nil string)|].
  do 4 guarded_prefix (@nil string).
  destruct (_ =? 0)%nat; [guarded_quiet false (@nil string)|].
  do 5 guarded_prefix (@nil string).
  apply (sat_guarded_suffix _ _ _ true [confirm_prompt]
           (@exits_0 (option (list ref))));
    [reflexivity|intros x; discriminate|intros e [= ->]; reflexivity
    |apply sat_select_items_quit|].
  intros [items|]; solve_emits.
Qed.

(** Claim C7, as the code has it.  In every run of the script, a line read
    at the command prompt that is [quit], in any case and with white space
    around it, is followed by the message "Operation cancelled." and the
    release of the session and by nothing else: no further line is read,
    the run ends in [sys.exit(0)], and no remote request is made in the
    whole run. *)
Theorem quit_cancels_and_exits (client : TelegramClient) (args : Namespace)
    (lines : list string) (pre post : list event) (line : string) :
  trace (snd (run client args lines)) = pre ++ Stdin command_prompt line :: post ->
  Py.lower (Py.strip line) = "quit"%string ->
  post = [Stdout ("Operation cancelled." ++ nl)%string; Disconnect]
  /\ fst (run client args lines) = Raise (SystemExit 0)
  /\ requests (trace (snd (run client args lines))) = [].
Proof.
  assert (Hmain : sat (guarded command_prompt is_quit ([cancelled] ++ [Disconnect])
                         (@exits_0 unit)) (main (Normal client) args)).
  { unfold main. do 4 guarded_prefix [phone_prompt].
    apply sat_guarded_try;
      [intros e [= ->]; reflexivity|intros r ->; reflexivity|].
    apply sat_main_body_quit. }
  intros Htrace Hquit. unfold run, asyncio_run in *.
  destruct (Hmain {| stdin := lines; trace := []; heap := [] |})
    as (events & Hev & Hg).
  simpl in Hev. rewrite Hev in Htrace |- *.
  exact (Hg pre line post Htrace Hquit).
Qed.

Lemma quit_cancels_and_exits_witness :
  drop 28 (trace (snd (Sample.interactive_run ["+15550100"; " QUIT "; "all"])))
  = [Stdout ("Operation cancelled." ++ nl)%string; Disconnect]
  /\ fst (Sample.interactive_run ["+15550100"; " QUIT "; "all"])
     = Raise (SystemExit 0)
  /\ requests (trace (snd (Sample.interactive_run ["+15550100"; " QUIT "; "all"])))
     = [].
Proof.
  apply (quit_cancels_and_exits _ _ _
           (take 27 (trace (snd (Sample.interactive_run
                                   ["+15550100"; " QUIT "; "all"]))))
           _ " QUIT ");
    [vm_compute; reflexivity|reflexivity].
Defined.

(** The claim as it is written fails: after [quit] has been read, the
    script still writes "Operation cancelled." to standard output. *)
Lemma quit_prints_a_message :
  drop 27 (trace (snd (Sample.interactive_run ["+15550100"; "quit"])))
  = [Stdin command_prompt "quit";
     Stdout "Operation cancelled.
"; Disconnect].
Proof. vm_compute. reflexivity. Qed.

End Quit.

(** ** delete.py: the confirmation *)

Section Confirmation.
Import Delete.
Local Open Scope py_scope.
Local Open Scope list_scope.

(** What [input] does: the prompt, then a line or [EOFError]. *)
Lemma sat_input (prompt : string) :
  sat (fun r events =>
         (exists line, r = Normal line
                       /\ events = [Stdout prompt; Stdin prompt line])
         \/ (r = Raise EOFError /\ events = [Stdout prompt]))
    (input prompt).
Proof.
  intros w. unfold input, bind, emit. simpl.
  destruct (stdin w) as [|line rest]; simpl.
  - exists [Stdout prompt]. split; [reflexivity|]. right. split; reflexivity.
  - exists [Stdout prompt; Stdin prompt line]. split.
    + rewrite <- app_assoc. reflexivity.
    + left. exists line. split; reflexivity.
Qed.

(** From the final prompt on, an answer other than [yes] is followed by the
    cancellation message and nothing else, [main] returns, and no request
    is made. *)
Lemma sat_confirm_and_delete client args (items_to_delete : list ref) :
  sat (guarded confirm_prompt is_refusal [cancelled] (returns tt))
    (confirm_and_delete client args items_to_delete).
Proof.
  unfold confirm_and_delete. destruct items_to_delete as [|r0 items0].
  { guarded_quiet false (@nil string). }
  do 3 guarded_prefix (@nil string).
  apply (sat_bind _
           (fun answer r events =>
              (is_refusal answer /\ r = Normal tt /\ events = [cancelled])
              \/ (~ is_refusal answer
                  /\ Forall (fun e => allowed true [] e = true) events))
           _ _ _ (sat_input confirm_prompt)).
  - intros answer. unfold is_refusal.
    destruct (String.eqb_spec (Py.lower answer) "yes") as [Hyes|Hno]; simpl.
    + assert (Hk : emits true []
                (print (nl ++ "Processing... This may take some time.") ;;
                 success_count <- delete_loop client (delay args)
                                    (length (r0 :: items0))
                                    (enumerate 1 (r0 :: items0)) 0 ;;
                 print (nl ++ "Operation completed. Successfully processed "
                        ++ Py.str_nat success_count ++ " out of "
                        ++ Py.str_nat (length (r0 :: items0)) ++ " items.")%string))
        by solve_emits.
      intros w. destruct (Hk w) as (events & Ht & Hall).
      exists events. split; [exact Ht|]. right. split; [|exact Hall].
      intros H. apply H. exact Hyes.
    + intros w. exists [cancelled]. split; [reflexivity|].
      left. split; [exact Hno|]. split; reflexivity.
  - intros e events [(line & Hr & _)|[_ ->]]; [discriminate|].
    intros pre line post Hsplit _.
    destruct pre as [|x [|y pre]]; discriminate.
  - intros answer events1 r events2 [(line & [= <-] & ->)|[Hr _]];
      [|discriminate].
    intros Hk pre l post Hsplit Htrig.
    destruct pre as [|x [|y pre]]; simpl in Hsplit; [discriminate| |].
    + injection Hsplit as _ <- <-.
      destruct Hk as [(_ & -> & ->)|[Hyes _]]; [|contradiction].
      repeat split; reflexivity.
    + injection Hsplit as _ _ Hev. exfalso.
      destruct Hk as [(_ & _ & ->)|[_ Hall]].
      * unfold cancelled in Hev.
        destruct pre as [|z [|z' pre]]; simpl in Hev; discriminate.
      * eapply (quiet_no_read true []); [reflexivity|exact Hall|exact Hev].
Qed.

Lemma sat_main_body_confirm client args phone :
  sat (guarded confirm_prompt is_refusal [cancelled] (returns tt))
    (main_body client args phone).
Proof.
  unfold main_body.
  guarded_prefix (@nil string). guarded_bind (@nil string). intros authorized.
  destruct (negb authorized); [guarded_quiet false (@nil string)|].
  do 4 guarded_prefix (@nil string).
  destruct (_ =? 0)%nat; [guarded_quiet false (@nil string)|].
  do 5 guarded_prefix (@nil string).
  guarded_bind [choice_prompt; command_prompt]. intros [items|].
  - apply sat_confirm_and_delete.
  - guarded_quiet false (@nil string).
Qed.

(** Claim C1, as the code has it.  In every run of the script, a line read
    at the final prompt whose lower-case form is not "yes" is followed by
    the message "Operation cancelled." and the release of the session and
    by nothing else; [main] returns, and the run holds no remote request at
    all, before or after the prompt. *)
Theorem refusal_makes_no_request (client : TelegramClient) (args : Namespace)
    (lines : list string) (pre post : list event) (answer : string) :
  trace (snd (run client args lines)) = pre ++ Stdin confirm_prompt answer :: post ->
  Py.lower answer <> "yes"%string ->
  post = [Stdout ("Operation cancelled." ++ nl)%string; Disconnect]
  /\ fst (run client args lines) = Normal tt
  /\ requests (trace (snd (run client args lines))) = [].
Proof.
  assert (Hmain : sat (guarded confirm_prompt is_refusal
                         ([cancelled] ++ [Disconnect]) (returns tt))
                    (main (Normal client) args)).
  { unfold main. do 4 guarded_prefix [phone_prompt].
    apply sat_guarded_try;
      [intros e; discriminate|intros r ->; reflexivity|].
    apply sat_main_body_confirm. }
  intros Htrace Hno. unfold run, asyncio_run in *.
  destruct (Hmain {| stdin := lines; trace := []; heap := [] |})
    as (events & Hev & Hg).
  simpl in Hev. rewrite Hev in Htrace |- *.
  exact (Hg pre answer post Htrace Hno).
Qed.

Lemma refusal_makes_no_request_witness :
  drop 16 (trace (snd (Sample.chats_run ["+15550100"; " yes"])))
  = [Stdout ("Operation cancelled." ++ nl)%string; Disconnect]
  /\ fst (Sample.chats_run ["+15550100"; " yes"]) = Normal tt
  /\ requests (trace (snd (Sample.chats_run ["+15550100"; " yes"]))) = [].
Proof.
  apply (refusal_makes_no_request _ _ _
           (take 15 (trace (snd (Sample.chats_run ["+15550100"; " yes"]))))
           _ " yes");
    [vm_compute; reflexivity|discriminate].
Defined.

(** The claim as it is written fails: "YES" is not the lower-case string
    "yes", yet the two private chats are erased. *)
Lemma upper_case_yes_proceeds :
  nth_error (trace (snd (Sample.chats_run ["+15550100"; "YES"]))) 15
  = Some (Stdin confirm_prompt "YES")
  /\ String.eqb "YES" "yes" = false
  /\ requests (trace (snd (Sample.chats_run ["+15550100"; "YES"])))
     = [DeleteHistoryRequest (User Sample.ann) 0 false true;
        DeleteHistoryRequest (User Sample.bob) 0 false true].
Proof. vm_compute. repeat split; reflexivity. Qed.

End Confirmation.

(** ** delete.py: the deletion loop *)

Section DeletionLoop.
Import Delete.
Local Open Scope py_scope.
Local Open Scope list_scope.

Variable client : TelegramClient.

(** Every exception the remote call raises is an [Exception]: a rate
    limit or a generic failure. *)
Hypothesis remote_raises_exceptions :
  forall history q e, call client history q = Some e -> is_Exception e = true.

Lemma invoke_run (q : Request) (w : World) :
  invoke client q w
  = (match call client (requests (trace w)) q with
     | None => Normal tt
     | Some e => Raise e
     end, extend w [Invoke q]).
Proof. unfold invoke. destruct (call client _ q); reflexivity. Qed.

Lemma log_and_fail_run (context : string) (e : exn) (w : World) :
  exists record, log_and_fail context e w = (Normal false, extend w [record])
                 /\ requests [record] = [] /\ progress [record] = [].
Proof.
  destruct e; eexists; (split; [reflexivity|split; reflexivity]).
Qed.

(** A request inside one of the two [try] statements: the verdict is
    whether the request was answered without an exception, and an
    exception adds a record to the log and nothing else. *)
Lemma guarded_request_run (q : Request) (context : string) (w : World) :
  exists events,
    try_except (invoke client q ;; ret true) is_Exception (log_and_fail context) w
    = (Normal (match call client (requests (trace w)) q with
               | None => true
               | Some _ => false
               end), extend w events)
    /\ requests events = [q] /\ progress events = [].
Proof.
  unfold try_except, bind. rewrite invoke_run.
  destruct (call client (requests (trace w)) q) as [e|] eqn:Hcall.
  - rewrite (remote_raises_exceptions _ _ _ Hcall).
    destruct (log_and_fail_run context e (extend w [Invoke q]))
      as (record & -> & Hreq & Hprog).
    exists [Invoke q; record]. rewrite extend_extend.
    split; [reflexivity|]. split.
    + change (q :: requests [record] = [q]). rewrite Hreq. reflexivity.
    + exact Hprog.
  - exists [Invoke q]. split; [reflexivity|split; reflexivity].
Qed.

(** [delete_item] always returns: it makes the request of the item, if it
    has one, and its verdict is the answer to that request. *)
Lemma delete_item_run (r : ref) (w : World) :
  exists events,
    delete_item client r w
    = (Normal (succeeds client (requests (trace w)) (heap w !!! r)),
       extend w events)
    /\ requests events = option_list (request_for (heap w !!! r))
    /\ progress events = [].
Proof.
  unfold delete_item, succeeds, request_for, bind, deref. simpl.
  destruct (String.eqb (type (heap w !!! r)) "Private Chat").
  { unfold delete_private_chat, bind, deref. simpl.
    apply guarded_request_run. }
  destruct (Py.contains "Group" _ || Py.contains "Channel" _).
  { unfold leave_group_or_channel, bind, deref. simpl.
    destruct (is_Channel (entity (heap w !!! r))); apply guarded_request_run. }
  exists [Log "WARNING" ("Unknown item type: " ++ type (heap w !!! r)
                         ++ ". Skipping " ++ name (heap w !!! r) ++ ".")%string
              None].
  split; [reflexivity|split; reflexivity].
Qed.

Lemma progress_app (a b : list event) : progress (a ++ b) = progress a ++ progress b.
Proof. unfold progress. apply omap_app. Qed.

Lemma count_true_cons (v : bool) (vs : list bool) :
  count_true (v :: vs) = (if v then 1 else 0) + count_true vs.
Proof. destruct v; reflexivity. Qed.

(** The loop of lines 447-459, with a finite delay, goes through all the
    items whatever the answers to the requests are: it returns the initial
    count plus the number of successes, makes the request of each item in
    turn, and prints one verdict per item. *)
Lemma delete_loop_run (d : float) (n : nat) (items : list ref) :
  is_finite d = true ->
  forall (i count : nat) (w : World),
  exists events,
    delete_loop client d n (enumerate i items) count w
    = (Normal (count + count_true
                 (verdicts client (requests (trace w))
                    (map (fun r => heap w !!! r) items))),
       extend w events)
    /\ requests events = omap (fun r => request_for (heap w !!! r)) items
    /\ progress events = verdicts client (requests (trace w))
                           (map (fun r => heap w !!! r) items).
Proof.
  intros Hfinite.
  induction items as [|r rest IH]; intros i count w.
  - exists []. simpl. rewrite extend_nil, Nat.add_0_r.
    split; [reflexivity|split; reflexivity].
  - cbn [enumerate delete_loop map verdicts omap].
    erewrite bind_normal by reflexivity.
    erewrite bind_normal by apply emit_run.
    set (item := heap w !!! r).
    set (announce := Stdout _).
    destruct (delete_item_run r (extend w [announce]))
      as (events & Hrun & Hreq & Hprog).
    erewrite bind_normal by exact Hrun. rewrite extend_extend.
    change (heap (extend w [announce]) !!! r) with item in Hreq.
    change (succeeds client (requests (trace (extend w [announce])))
              (heap (extend w [announce]) !!! r))
      with (succeeds client (requests (trace w ++ [announce])) item).
    assert (Hhist : requests (trace w ++ [announce]) = requests (trace w)).
    { rewrite requests_app. apply app_nil_r. }
    rewrite Hhist.
    set (v := succeeds client (requests (trace w)) item).
    set (verdict := Stdout ((if v then " Done" else " Failed") ++ nl)%string).
    set (pause := if (i <? n)%nat then [Sleep d] else []).
    set (turn := ([announce] ++ events) ++ [verdict] ++ pause).
    assert (Hturn :
      (success_count' <-
         (if v then print " Done" ;; ret (S count)
          else print " Failed" ;; ret count) ;;
       (if (i <? n)%nat then sleep d else ret tt) ;;
       delete_loop client d n (enumerate (S i) rest) success_count')
        (extend w ([announce] ++ events))
      = delete_loop client d n (enumerate (S i) rest)
          (count + if v then 1 else 0) (extend w turn)).
    { unfold turn, pause, verdict. rewrite <- !extend_extend.
      destruct v, (i <? n)%nat;
        (erewrite bind_normal by reflexivity);
        (erewrite bind_normal
           by first [apply sleep_run; exact Hfinite|reflexivity]);
        rewrite ?Nat.add_1_r, ?Nat.add_0_r, ?extend_nil; reflexivity. }
    rewrite Hturn.
    destruct (IH (S i) (count + if v then 1 else 0) (extend w turn))
      as (events' & Hloop & Hreq' & Hprog').
    assert (Hreq_turn : requests turn = option_list (request_for item)).
    { unfold turn, pause. rewrite !requests_app, Hreq.
      destruct (i <? n)%nat; simpl; rewrite app_nil_r; reflexivity. }
    assert (Hprog_turn : progress turn = [v]).
    { unfold turn, pause, verdict. rewrite !progress_app, Hprog.
      destruct v, (i <? n)%nat; reflexivity. }
    change (heap (extend w turn)) with (heap w) in Hloop, Hreq', Hprog'.
    change (trace (extend w turn)) with (trace w ++ turn) in Hloop, Hprog'.
    rewrite requests_app, Hreq_turn in Hloop, Hprog'.
    exists (turn ++ events'). rewrite Hloop, extend_extend. split; [|split].
    + rewrite count_true_cons. fold v. f_equal. f_equal. lia.
    + rewrite requests_app, Hreq_turn, Hreq'. simpl. fold item.
      destruct (request_for item); reflexivity.
    + rewrite progress_app, Hprog_turn, Hprog'. reflexivity.
Qed.

Lemma count_types_run (items : list ref) (counts : list (string * nat)) (w : World) :
  exists type_counts, count_types items counts w = (Normal type_counts, w).
Proof.
  revert counts; induction items as [|r rest IH]; intros counts; simpl.
  - exists counts. reflexivity.
  - unfold bind, deref. simpl. apply IH.
Qed.

Lemma for_each_run {A} (l : list A) (body : A -> M unit) (g : A -> event) :
  (forall x w, body x w = (Normal tt, extend w [g x])) ->
  forall w, for_each l body w = (Normal tt, extend w (map g l)).
Proof.
  intros Hbody. induction l as [|x l IH]; intros w; simpl.
  - rewrite extend_nil. reflexivity.
  - erewrite bind_normal by apply Hbody. rewrite IH, extend_extend. reflexivity.
Qed.

Lemma input_run (prompt line : string) (rest : list string) (w : World) :
  stdin w = line :: rest ->
  input prompt w
  = (Normal line, set_stdin (extend w [Stdout prompt; Stdin prompt line]) rest).
Proof.
  intros Hw. unfold input, bind, emit. simpl. rewrite Hw.
  unfold set_stdin, extend. simpl. rewrite <- app_assoc. reflexivity.
Qed.

Lemma verdicts_length (history : list Request) (items : list TelegramItem) :
  length (verdicts client history items) = length items.
Proof.
  revert history; induction items as [|item rest IH]; intros history; simpl;
    [reflexivity|]. rewrite IH. reflexivity.
Qed.

Lemma requests_prints {A} (g : A -> string) (l : list A) :
  requests (map (fun x => Stdout (g x)) l) = [].
Proof. induction l as [|x l IH]; [reflexivity|exact IH]. Qed.

(** The deletion part of [main] after the answer [yes], when the remote
    call raises nothing but [Exception]s and the delay is finite: it
    returns, and what it records is a header without any request, then the
    attempts on all the items, then the tally. *)
Lemma confirm_and_delete_yes (args : Namespace)
    (items_to_delete : list ref) (w : World) (answer : string)
    (rest : list string) :
  is_finite (delay args) = true ->
  items_to_delete <> [] ->
  stdin w = answer :: rest ->
  Py.lower answer = "yes"%string ->
  exists w' header attempts,
    confirm_and_delete client args items_to_delete w = (Normal tt, w')
    /\ trace w'
       = trace w ++ header ++ attempts
         ++ [tally (count_true
                      (verdicts client (requests (trace w))
                         (map (fun r => heap w !!! r) items_to_delete)))
               (length items_to_delete)]
    /\ requests header = []
    /\ requests attempts
       = omap (fun r => request_for (heap w !!! r)) items_to_delete
    /\ progress attempts
       = verdicts client (requests (trace w))
           (map (fun r => heap w !!! r) items_to_delete).
Proof.
  intros Hfinite Hitems Hstdin Hyes.
  destruct items_to_delete as [|r0 items0]; [contradiction|].
  unfold confirm_and_delete. set (items := r0 :: items0) in *.
  destruct (count_types_run items [] w) as (type_counts & Hcounts).
  erewrite bind_normal by exact Hcounts.
  erewrite bind_normal by apply print_run.
  set (summary := Stdout _).
  set (line_of := fun entry : string * nat =>
                    Stdout (("- " ++ fst entry ++ ": " ++ Py.str_nat (snd entry))
                            ++ nl)%string).
  erewrite bind_normal
    by (apply (for_each_run type_counts _ line_of); intros [t c] w0; reflexivity).
  rewrite extend_extend.
  erewrite bind_normal by (apply input_run; exact Hstdin).
  cbv zeta. rewrite Hyes.
  change (negb (String.eqb "yes" "yes")) with false. cbv iota.
  erewrite bind_normal by apply print_run.
  set (processing :=
         Stdout ((nl ++ "Processing... This may take some time.") ++ nl)%string).
  set (header := ([summary] ++ map line_of type_counts)
                 ++ [Stdout confirm_prompt; Stdin confirm_prompt answer]
                 ++ [processing]).
  set (w1 := extend (set_stdin _ rest) [processing]).
  assert (Hheader : requests header = []).
  { unfold header. rewrite !requests_app.
    unfold line_of. rewrite (requests_prints _ type_counts). reflexivity. }
  assert (Htrace1 : trace w1 = trace w ++ header).
  { unfold w1, header. simpl. rewrite <- !app_assoc. reflexivity. }
  destruct (delete_loop_run (delay args) (length items) items Hfinite 1 0 w1)
    as (attempts & Hloop & Hreq & Hprog).
  change (heap w1) with (heap w) in Hloop, Hreq, Hprog.
  assert (Hhistory : requests (trace w1) = requests (trace w)).
  { rewrite Htrace1, requests_app, Hheader. apply app_nil_r. }
  rewrite Hhistory in Hloop, Hprog.
  erewrite bind_normal by exact Hloop.
  eexists. exists header, attempts.
  split; [apply print_run|]. split; [|split; [|split]].
  - change (trace (extend (extend w1 attempts) ?e)) with ((trace w1 ++ attempts) ++ e).
    rewrite Htrace1, <- !app_assoc. reflexivity.
  - exact Hheader.
  - exact Hreq.
  - exact Hprog.
Qed.

(** Claim C2.  Suppose every exception of the remote call is an
    [Exception] (a rate limit or a generic failure), the delay between two
    items is finite (so that every pause ends), some items were selected,
    and the answer at the final prompt is [yes] in any case.
    Then the script goes through the whole list and returns: after the
    summary and the prompt ([header], which holds no request) come the
    attempts, in which the request of every item is made, in the order of
    the list and whatever the answers to the earlier requests were, and one
    verdict is printed per item; the verdict of an item is [true] exactly
    when its own request was made and answered without an exception; and
    the last line reports the number of [true] verdicts out of the number
    of items. *)
Theorem deletion_continues_after_failures (args : Namespace)
    (items_to_delete : list ref) (w : World) (answer : string)
    (rest : list string) :
  is_finite (delay args) = true ->
  items_to_delete <> [] ->
  stdin w = answer :: rest ->
  Py.lower answer = "yes"%string ->
  exists w' header attempts,
    confirm_and_delete client args items_to_delete w = (Normal tt, w')
    /\ trace w'
       = trace w ++ header ++ attempts
         ++ [tally (count_true
                      (verdicts client (requests (trace w))
                         (map (fun r => heap w !!! r) items_to_delete)))
               (length items_to_delete)]
    /\ requests header = []
    /\ requests attempts
       = omap (fun r => request_for (heap w !!! r)) items_to_delete
    /\ progress attempts
       = verdicts client (requests (trace w))
           (map (fun r => heap w !!! r) items_to_delete)
    /\ length (progress attempts) = length items_to_delete.
Proof.
  intros Hfinite Hitems Hstdin Hyes.
  destruct (confirm_and_delete_yes args items_to_delete w answer rest
              Hfinite Hitems Hstdin Hyes)
    as (w' & header & attempts & Hrun & Htrace & Hheader & Hreq & Hprog).
  exists w', header, attempts.
  split; [exact Hrun|]. split; [exact Htrace|]. split; [exact Hheader|].
  split; [exact Hreq|]. split; [exact Hprog|].
  rewrite Hprog, verdicts_length, length_map. reflexivity.
Qed.

End DeletionLoop.

Section DeletionLoopScenario.
Import Delete.
Local Open Scope list_scope.

(** The scenario of the specification: a rate limit on item 3 of 5. *)
Lemma deletion_continues_after_failures_witness :
  exists w' header attempts,
    confirm_and_delete
      (Sample.session Sample.five_dialogs Sample.third_is_rate_limited)
      (Sample.flags true false false false false) [0; 1; 2; 3; 4]
      (Sample.five_items ["yes"%string]) = (Normal tt, w')
    /\ trace w' = header ++ attempts ++ [tally 4 5]
    /\ progress attempts = [true; true; false; true; true]
    /\ length (requests attempts) = 5.
Proof.
  destruct (deletion_continues_after_failures
              (Sample.session Sample.five_dialogs Sample.third_is_rate_limited)
              (fun history q e =>
                 match (length history =? 2)%nat as b
                   return ((if b then Some (FloodWaitError 30) else None) = Some e
                           -> is_Exception e = true)
                 with
                 | true => fun H => f_equal (fun o => match o with
                                                      | Some x => is_Exception x
                                                      | None => true
                                                      end) (eq_sym H)
                 | false => fun H => match H with end
                 end)
              (Sample.flags true false false false false) [0; 1; 2; 3; 4]
              (Sample.five_items ["yes"%string]) "yes"%string []
              eq_refl ltac:(discriminate) eq_refl eq_refl)
    as (w' & header & attempts & Hrun & Htrace & _ & Hreq & Hprog & _).
  exists w', header, attempts.
  split; [exact Hrun|]. split; [exact Htrace|]. split; [exact Hprog|].
  rewrite Hreq. reflexivity.
Defined.

End DeletionLoopScenario.

(** ** delete.py: the [--chats] flag *)

Section ChatsFlag.
Import Delete.
Local Open Scope py_scope.
Local Open Scope list_scope.

Lemma select_items_chats (d : float) (all_items : Inventory) (w : World) :
  select_items (chats_only d) all_items w
  = (Normal (Some (private_chats all_items)), w).
Proof. reflexivity. Qed.

(** The requests of the items filed under [private_chats] are the history
    erasures of the private dialogs. *)
Lemma requests_of_private_chats (dialogs : list Dialog) :
  forall (before : list TelegramItem),
    omap (fun r =>
            request_for ((before ++ map (fun d => snd (classify d)) dialogs) !!! r))
      (filed_under private_chats_key (length before) dialogs)
    = map erase_history (private_dialogs dialogs).
Proof.
  induction dialogs as [|d ds IH]; intros before; [reflexivity|].
  specialize (IH (before ++ [snd (classify d)])).
  rewrite <- app_assoc, length_app, Nat.add_1_r in IH.
  cbn [map filed_under private_dialogs List.filter].
  destruct (decide (fst (classify d) = private_chats_key)) as [Hd|Hd].
  - rewrite (bool_decide_eq_true_2 _ Hd). cbn [omap list_omap map].
    rewrite list_lookup_total_middle by reflexivity.
    fold (private_dialogs ds).
    replace (request_for (snd (classify d))) with (Some (erase_history d)).
    + simpl. f_equal. exact IH.
    + destruct d as [nm [u|c b m|c|i]]; simpl in Hd |- *;
        try discriminate; [reflexivity|].
      destruct b; [discriminate|destruct m; discriminate].
  - rewrite (bool_decide_eq_false_2 _ Hd). exact IH.
Qed.

Lemma client_start_run (client : TelegramClient) (phone : string)
    (lines : list string) (w : World) :
  start client phone (stdin w) = Normal lines ->
  client_start client phone w
  = (Normal tt, set_stdin (extend w [Started phone]) lines).
Proof.
  intros Hstart. unfold client_start, bind, emit. simpl. rewrite Hstart.
  reflexivity.
Qed.

Lemma get_all_items_run (client : TelegramClient) (dialogs : list Dialog) (w : World) :
  iter_dialogs client = (dialogs, None) ->
  exists items,
    get_all_items client w
    = (Normal items,
       set_heap w (heap w ++ map (fun d => snd (classify d)) dialogs))
    /\ forall k, bucket k items = filed_under k (length (heap w)) dialogs.
Proof.
  intros Hdialogs.
  destruct (file_dialogs_spec dialogs
              {| private_chats := []; groups := []; channels := []; other := [] |} w)
    as (items & Hrun & Hbuckets).
  exists items. split.
  - unfold get_all_items. rewrite Hdialogs. unfold bind. rewrite Hrun. reflexivity.
  - intros k. rewrite Hbuckets. destruct k; reflexivity.
Qed.

Lemma lift_run {A} (r : result A) (a : A) (w : World) :
  r = Normal a -> lift r w = (Normal a, w).
Proof. intros ->. reflexivity. Qed.

Lemma filed_under_private_length (base : nat) (dialogs : list Dialog) :
  length (filed_under private_chats_key base dialogs)
  = length (private_dialogs dialogs).
Proof.
  revert base; induction dialogs as [|d ds IH]; intros base; [reflexivity|].
  cbn [filed_under private_dialogs List.filter].
  destruct (decide (fst (classify d) = private_chats_key)) as [Hd|Hd].
  - rewrite (bool_decide_eq_true_2 _ Hd). simpl. f_equal. apply IH.
  - rewrite (bool_decide_eq_false_2 _ Hd). apply IH.
Qed.

(** The body of [main] with [--chats] and a finite delay, after a
    successful login to an account with two private chats. *)
Lemma main_body_chats (client : TelegramClient) (d : float)
    (phone answer : string) (rest : list string) (me : UserT)
    (dialogs : list Dialog) (d1 d2 : Dialog) (w : World) :
  (forall history q e, call client history q = Some e -> is_Exception e = true) ->
  is_finite d = true ->
  start client phone (stdin w) = Normal (answer :: rest) ->
  is_user_authorized client = Normal true ->
  get_me client = Normal me ->
  iter_dialogs client = (dialogs, None) ->
  private_dialogs dialogs = [d1; d2] ->
  Py.lower answer = "yes"%string ->
  heap w = [] ->
  exists w',
    main_body client (chats_only d) phone w = (Normal tt, w')
    /\ requests (trace w')
       = requests (trace w) ++ [erase_history d1; erase_history d2].
Proof.
  intros Hexc Hfinite Hstart Hauth Hme Hdialogs Hprivate Hyes Hheap.
  unfold main_body.
  erewrite bind_normal by (apply client_start_run; exact Hstart).
  erewrite bind_normal by (apply lift_run; exact Hauth).
  change (negb true) with false. cbv iota.
  erewrite bind_normal by (apply lift_run; exact Hme).
  erewrite bind_normal by apply print_run.
  erewrite bind_normal by apply print_run.
  rewrite !extend_extend.
  set (w1 := extend (set_stdin _ _) _).
  destruct (get_all_items_run client dialogs w1 Hdialogs)
    as (all_items & Hrun & Hbuckets).
  change (heap w1) with (heap w) in Hrun, Hbuckets.
  rewrite Hheap in Hrun, Hbuckets. simpl in Hrun, Hbuckets.
  erewrite bind_normal by exact Hrun.
  pose proof (Hbuckets private_chats_key) as Hchats. simpl in Hchats.
  assert (Hlen : length (private_chats all_items) = 2).
  { rewrite Hchats, filed_under_private_length, Hprivate. reflexivity. }
  cbv zeta.
  replace (list_sum _ =? 0)%nat with false.
  2:{ unfold dict_items. simpl. rewrite Hlen. reflexivity. }
  do 5 (erewrite bind_normal by apply print_run).
  rewrite !extend_extend.
  erewrite bind_normal by apply select_items_chats.
  set (w2 := extend (set_heap w1 _) _).
  destruct (confirm_and_delete_yes client Hexc (chats_only d)
              (private_chats all_items) w2 answer rest)
    as (w' & header & attempts & Hdel & Htrace & Hheader & Hreq & _).
  - exact Hfinite.
  - intros Hnil. rewrite Hnil in Hlen. discriminate.
  - reflexivity.
  - exact Hyes.
  - exists w'. split; [exact Hdel|].
    rewrite Htrace, !requests_app, Hheader, Hreq.
    change (heap w2) with ([] ++ map (fun d => snd (classify d)) dialogs).
    pose proof (requests_of_private_chats dialogs []) as Herase.
    change (length (@nil TelegramItem)) with 0 in Herase.
    rewrite Hchats, Herase, Hprivate.
    assert (Hquiet : requests (trace w2) = requests (trace w)).
    { unfold w2, w1. simpl. rewrite !requests_app. simpl.
      rewrite ?app_nil_r. reflexivity. }
    rewrite Hquiet. reflexivity.
Qed.

(** Claim C5.  With [--chats] alone the items to delete are the bucket
    [private_chats], whatever else the inventory holds.  On an account with
    two private chats [d1] and [d2] (and, for instance, one supergroup),
    with a finite delay [d] (so that the pause between the two items
    ends), after a successful login and the answer [yes], the run returns
    and its remote requests are the history erasure for [d1] and the one
    for [d2], in that order: two history erasures and no leave request. *)
Theorem chats_flag_erases_private_chats (client : TelegramClient) (d : float)
    (phone answer : string) (lines rest : list string) (me : UserT)
    (dialogs : list Dialog) (d1 d2 : Dialog) :
  (forall history q e, call client history q = Some e -> is_Exception e = true) ->
  is_finite d = true ->
  start client phone lines = Normal (answer :: rest) ->
  is_user_authorized client = Normal true ->
  get_me client = Normal me ->
  iter_dialogs client = (dialogs, None) ->
  private_dialogs dialogs = [d1; d2] ->
  Py.lower answer = "yes"%string ->
  (forall all_items w,
     select_items (chats_only d) all_items w
     = (Normal (Some (private_chats all_items)), w))
  /\ fst (run client (chats_only d) (phone :: lines)) = Normal tt
  /\ requests (trace (snd (run client (chats_only d) (phone :: lines))))
     = [erase_history d1; erase_history d2].
Proof.
  intros Hexc Hfinite Hstart Hauth Hme Hdialogs Hprivate Hyes.
  split; [intros all_items w; apply select_items_chats|].
  unfold run, asyncio_run, main.
  erewrite bind_normal by apply print_run.
  erewrite bind_normal by apply print_run.
  erewrite bind_normal by (apply input_run; reflexivity).
  erewrite bind_normal by reflexivity.
  set (w0 := set_stdin _ lines).
  destruct (main_body_chats client d phone answer rest me dialogs d1 d2 w0
              Hexc Hfinite Hstart Hauth Hme Hdialogs Hprivate Hyes eq_refl)
    as (w' & Hbody & Hreq).
  unfold try_finally, try_except. rewrite Hbody. simpl.
  split; [reflexivity|].
  rewrite requests_app, Hreq. reflexivity.
Qed.

Lemma chats_flag_erases_private_chats_witness :
  fst (Sample.chats_run ["+15550100"%string; "Yes"%string]) = Normal tt
  /\ requests (trace (snd (Sample.chats_run ["+15550100"%string; "Yes"%string])))
     = [erase_history (Sample.dialog_of "Ann" (User Sample.ann));
        erase_history (Sample.dialog_of "Bob" (User Sample.bob))].
Proof.
  apply (chats_flag_erases_private_chats
           (Sample.session Sample.three_dialogs (fun _ => None)) 2%float
           "+15550100"%string "Yes"%string ["Yes"%string] [] Sample.ann
           Sample.three_dialogs
           (Sample.dialog_of "Ann" (User Sample.ann))
           (Sample.dialog_of "Bob" (User Sample.bob)));
    [intros history q e H; discriminate H
    |reflexivity|reflexivity|reflexivity|reflexivity|reflexivity|reflexivity
    |reflexivity].
Defined.

End ChatsFlag.

(** ** imghdr.py: the order of the tests *)

Section SniffOrder.
Import Imghdr.
Local Open Scope list_scope.

Lemma startswith_inv (h p : bytes) :
  startswith h p = true -> h = p ++ drop (length p) h.
Proof.
  revert h; induction p as [|x p IH]; intros h H; [reflexivity|].
  destruct h as [|y h]; [discriminate|]. simpl in H.
  apply andb_true_iff in H as [Hxy Hp].
  apply Byte.byte_dec_bl in Hxy. subst y. simpl. f_equal. apply IH. exact Hp.
Qed.

Ltac sniff_forward :=
  unfold sniff;
  repeat match goal with
         | |- context [if ?b then _ else _] => destruct b eqn:?
         end;
  try discriminate; intros _;
  rewrite ?orb_true_iff, ?orb_false_iff, ?andb_true_iff in *; auto.

Ltac sniff_backward H :=
  rewrite (startswith_inv _ _ H); reflexivity.

(** Property X1.  The signatures do not overlap, so a header is tagged by
    the signature it starts with whatever the order of the tests: each tag
    is returned exactly for its own signatures, and [None] exactly when no
    signature matches. *)
Theorem sniff_characterised (h : bytes) :
  (sniff h = Some "jpeg" <-> startswith h sig_jpeg = true)
  /\ (sniff h = Some "png" <-> startswith h sig_png = true)
  /\ (sniff h = Some "gif" <->
      startswith h sig_gif87 = true \/ startswith h sig_gif89 = true)
  /\ (sniff h = Some "webp" <->
      startswith h sig_riff = true /\ slice h 8 12 = sig_webp)
  /\ (sniff h = Some "bmp" <-> startswith h sig_bmp = true)
  /\ (sniff h = Some "ico" <-> startswith h sig_ico = true)
  /\ (sniff h = Some "cur" <-> startswith h sig_cur = true)
  /\ (sniff h = Some "tiff" <->
      startswith h sig_tiff_le = true \/ startswith h sig_tiff_be = true)
  /\ (sniff h = None <->
      startswith h sig_jpeg = false /\ startswith h sig_png = false
      /\ startswith h sig_gif87 = false /\ startswith h sig_gif89 = false
      /\ (startswith h sig_riff = false \/ slice h 8 12 <> sig_webp)
      /\ startswith h sig_bmp = false /\ startswith h sig_ico = false
      /\ startswith h sig_cur = false /\ startswith h sig_tiff_le = false
      /\ startswith h sig_tiff_be = false).
Proof.
  repeat apply conj.
  - sniff_forward.
  - intros H. sniff_backward H.
  - sniff_forward.
  - intros H. sniff_backward H.
  - sniff_forward.
  - intros [H|H]; sniff_backward H.
  - apply sniff_webp.
  - apply sniff_webp.
  - sniff_forward.
  - intros H. sniff_backward H.
  - sniff_forward.
  - intros H. sniff_backward H.
  - sniff_forward.
  - intros H. sniff_backward H.
  - sniff_forward.
  - intros [H|H]; sniff_backward H.
  - unfold sniff.
    destruct (startswith h sig_jpeg); [discriminate|].
    destruct (startswith h sig_png); [discriminate|].
    destruct (startswith h sig_gif87); [discriminate|].
    destruct (startswith h sig_gif89); [discriminate|].
    destruct (startswith h sig_bmp);
      [destruct (startswith h sig_riff && _); discriminate|].
    destruct (startswith h sig_ico);
      [destruct (startswith h sig_riff && _); discriminate|].
    destruct (startswith h sig_cur);
      [destruct (startswith h sig_riff && _); discriminate|].
    destruct (startswith h sig_tiff_le);
      [destruct (startswith h sig_riff && _); discriminate|].
    destruct (startswith h sig_tiff_be);
      [destruct (startswith h sig_riff && _); discriminate|].
    destruct (startswith h sig_riff); simpl.
    + destruct (bytes_eqb (slice h 8 12) sig_webp) eqn:Hw; [discriminate|].
      intros _. repeat split; try reflexivity. right.
      intros Heq. apply bytes_eqb_eq in Heq. congruence.
    + intros _. repeat split; try reflexivity. left. reflexivity.
  - intros (H1 & H2 & H3 & H4 & H5 & H6 & H7 & H8 & H9 & H10).
    unfold sniff. rewrite H1, H2, H3, H4, H6, H7, H8, H9, H10. cbn [orb].
    destruct H5 as [->|H5]; [reflexivity|].
    destruct (bytes_eqb (slice h 8 12) sig_webp) eqn:Hw;
      [apply bytes_eqb_eq in Hw; contradiction|].
    rewrite andb_false_r. reflexivity.
Qed.

End SniffOrder.


(** ** delete.py: from the listing to the request *)

Section Dispatch.
Import Delete More.
Local Open Scope py_scope.
Local Open Scope list_scope.

Lemma request_for_classified (dialog : Dialog) :
  option_list (request_for (snd (classify dialog)))
  = requests_for_entity (dialog_entity dialog).
Proof.
  destruct dialog as [nm [u|cid b m|cid|i]]; simpl; try reflexivity.
  destruct b; [reflexivity|]. destruct m; reflexivity.
Qed.

(** Property X2.  [delete_item] on the item that [classify] made for a
    dialog, selected or not, when the remote call raises nothing but
    [Exception]s: it returns, the requests it makes are those of the entity
    of the dialog, and an item without a request counts as a failure.  In
    particular the item of a supergroup gets no request: its label
    "Supergroup" contains neither "Group" nor "Channel". *)
Theorem delete_item_follows_entity (client : TelegramClient) (dialog : Dialog)
    (b : bool) (r : ref) (w : World) :
  (forall history q e, call client history q = Some e -> is_Exception e = true) ->
  heap w !! r = Some (set_selected b (snd (classify dialog))) ->
  exists success events,
    delete_item client r w = (Normal success, extend w events)
    /\ requests events = requests_for_entity (dialog_entity dialog)
    /\ (requests events = [] -> success = false)
    /\ (success = true <->
        exists q, requests_for_entity (dialog_entity dialog) = [q]
                  /\ call client (requests (trace w)) q = None).
Proof.
  intros Hexc Hitem.
  apply list_lookup_total_correct in Hitem.
  destruct (delete_item_run client Hexc r w) as (events & Hrun & Hreq & _).
  rewrite Hitem in Hrun, Hreq.
  change (request_for (set_selected b (snd (classify dialog))))
    with (request_for (snd (classify dialog))) in Hreq.
  change (succeeds client (requests (trace w))
            (set_selected b (snd (classify dialog))))
    with (succeeds client (requests (trace w)) (snd (classify dialog))) in Hrun.
  rewrite request_for_classified in Hreq.
  exists (succeeds client (requests (trace w)) (snd (classify dialog))), events.
  split; [exact Hrun|]. split; [exact Hreq|].
  rewrite Hreq, <- request_for_classified. unfold succeeds.
  destruct (request_for (snd (classify dialog))) as [q|]; simpl.
  - split; [discriminate|]. split.
    + intros Hcall. exists q. split; [reflexivity|].
      destruct (call client (requests (trace w)) q); [discriminate|reflexivity].
    + intros (q' & [= <-] & ->). reflexivity.
  - split; [reflexivity|]. split; [discriminate|].
    intros (q' & Hq & _). discriminate.
Qed.

Lemma delete_item_follows_entity_witness :
  exists success events,
    delete_item (Sample.session Sample.three_dialogs (fun _ => None)) 1
      {| stdin := []; trace := [];
         heap := map (fun d => snd (classify d)) Sample.three_dialogs |}
    = (Normal success,
       extend {| stdin := []; trace := [];
                 heap := map (fun d => snd (classify d)) Sample.three_dialogs |}
         events)
    /\ requests events = []
    /\ success = false.
Proof.
  destruct (delete_item_follows_entity
              (Sample.session Sample.three_dialogs (fun _ => None))
              (Sample.dialog_of "Rocq users" (Channel 21 false true)) false 1
              {| stdin := []; trace := [];
                 heap := map (fun d => snd (classify d)) Sample.three_dialogs |}
              ltac:(intros history q e H; discriminate H) eq_refl)
    as (success & events & Hrun & Hreq & Hnone & _).
  exists success, events. split; [exact Hrun|]. split; [exact Hreq|].
  exact (Hnone Hreq).
Defined.

(** References grow along a bucket. *)
Lemma filed_under_grows (k : key) (dialogs : list Dialog) :
  forall base i j ri rj,
    filed_under k base dialogs !! i = Some ri ->
    filed_under k base dialogs !! j = Some rj ->
    i < j -> base <= ri /\ ri < rj.
Proof.
  induction dialogs as [|d ds IH]; intros base i j ri rj Hi Hj Hij;
    [discriminate|].
  assert (Hlow : forall n r, filed_under k (S base) ds !! n = Some r -> S base <= r).
  { intros n r Hn.
    assert (Hin : r ∈ filed_under k (S base) ds)
      by (apply list_elem_of_lookup; eauto).
    apply elem_of_filed_under in Hin as (m & _ & -> & _). lia. }
  simpl in Hi, Hj. destruct (decide (fst (classify d) = k)).
  - destruct j as [|j]; [lia|]. simpl in Hj. destruct i as [|i]; simpl in Hi.
    + injection Hi as <-. apply Hlow in Hj. lia.
    + destruct (IH (S base) i j ri rj Hi Hj ltac:(lia)). lia.
  - destruct (IH (S base) i j ri rj Hi Hj Hij). lia.
Qed.

(** Property X3.  The listing order is kept inside every bucket: when the
    listing succeeds, references grow along each bucket of the inventory, a
    reference is the position of its dialog in the listing (counted from the
    size of the store before the call), and the object behind it is the item
    made for that dialog. *)
Theorem get_all_items_keeps_order (client : TelegramClient)
    (dialogs : list Dialog) (w : World) :
  iter_dialogs client = (dialogs, None) ->
  exists items w',
    get_all_items client w = (Normal items, w')
    /\ forall k i j ri rj,
         bucket k items !! i = Some ri ->
         bucket k items !! j = Some rj ->
         i < j ->
         ri < rj
         /\ exists di dj,
              dialogs !! (ri - length (heap w)) = Some di
              /\ dialogs !! (rj - length (heap w)) = Some dj
              /\ heap w' !! ri = Some (snd (classify di))
              /\ heap w' !! rj = Some (snd (classify dj)).
Proof.
  intros Hdialogs.
  destruct (get_all_items_run client dialogs w Hdialogs)
    as (items & Hrun & Hbuckets).
  exists items. eexists. split; [exact Hrun|].
  intros k i j ri rj Hi Hj Hij. rewrite Hbuckets in Hi, Hj.
  destruct (filed_under_grows k dialogs _ i j ri rj Hi Hj Hij) as [_ Hlt].
  split; [exact Hlt|].
  assert (Hat : forall n r, filed_under k (length (heap w)) dialogs !! n = Some r ->
                  exists d, dialogs !! (r - length (heap w)) = Some d
                            /\ (heap w ++ map (fun d => snd (classify d)) dialogs)
                               !! r = Some (snd (classify d))).
  { intros n r Hn.
    assert (Hin : r ∈ filed_under k (length (heap w)) dialogs)
      by (apply list_elem_of_lookup; eauto).
    apply elem_of_filed_under in Hin as (m & d & -> & Hd & _).
    exists d. replace (length (heap w) + m - length (heap w)) with m by lia.
    split; [exact Hd|].
    rewrite lookup_app_r by lia.
    replace (length (heap w) + m - length (heap w)) with m by lia.
    change (map (fun d0 => snd (classify d0)) dialogs)
      with ((fun d0 => snd (classify d0)) <$> dialogs).
    rewrite list_lookup_fmap, Hd. reflexivity. }
  destruct (Hat i ri Hi) as (di & Hdi & Hhi).
  destruct (Hat j rj Hj) as (dj & Hdj & Hhj).
  exists di, dj. repeat split; assumption.
Qed.

Lemma get_all_items_keeps_order_witness :
  exists items w',
    get_all_items (Sample.session Sample.twelve_dialogs (fun _ => None))
      {| stdin := []; trace := []; heap := [] |} = (Normal items, w')
    /\ forall k i j ri rj,
         bucket k items !! i = Some ri ->
         bucket k items !! j = Some rj ->
         i < j -> ri < rj.
Proof.
  destruct (get_all_items_keeps_order
              (Sample.session Sample.twelve_dialogs (fun _ => None))
              Sample.twelve_dialogs {| stdin := []; trace := []; heap := [] |}
              eq_refl)
    as (items & w' & Hrun & Horder).
  exists items, w'. split; [exact Hrun|].
  intros k i j ri rj Hi Hj Hij. exact (proj1 (Horder k i j ri rj Hi Hj Hij)).
Defined.

End Dispatch.


(** ** delete.py: the summary before the confirmation *)

Section Summary.
Import Delete More.
Local Open Scope py_scope.
Local Open Scope list_scope.

Lemma dict_get_count_up (d : list (string * nat)) (k t : string) :
  dict_get (count_up d k) t
  = if String.eqb k t then S (dict_get d t) else dict_get d t.
Proof.
  induction d as [|[k' v] d IH]; simpl.
  - destruct (String.eqb k t); reflexivity.
  - destruct (String.eqb_spec k' k) as [->|Hk]; simpl.
    + destruct (String.eqb k t); reflexivity.
    + rewrite IH. destruct (String.eqb_spec k' t) as [->|Ht]; [|reflexivity].
      apply String.eqb_neq in Hk. rewrite String.eqb_sym, Hk. reflexivity.
Qed.

Lemma keys_count_up (d : list (string * nat)) (k x : string) :
  x ∈ map fst (count_up d k) -> x ∈ map fst d \/ x = k.
Proof.
  induction d as [|[k' v] d IH]; simpl.
  - intros H. apply list_elem_of_singleton in H. right. exact H.
  - destruct (String.eqb k' k); simpl; [left; assumption|].
    intros H. apply elem_of_cons in H as [->|H].
    + left. left.
    + destruct (IH H) as [Hin| ->]; [left; right; exact Hin|right; reflexivity].
Qed.

Lemma NoDup_keys_count_up (d : list (string * nat)) (k : string) :
  NoDup (map fst d) -> NoDup (map fst (count_up d k)).
Proof.
  induction d as [|[k' v] d IH]; simpl; intros Hd.
  - apply NoDup_singleton.
  - apply NoDup_cons in Hd as [Hk' Hd].
    destruct (String.eqb_spec k' k) as [->|Hk]; simpl.
    + apply NoDup_cons. split; assumption.
    + apply NoDup_cons. split; [|apply IH; exact Hd].
      intros H. apply keys_count_up in H as [H|H]; [contradiction|congruence].
Qed.

Lemma sum_count_up (d : list (string * nat)) (k : string) :
  list_sum (map snd (count_up d k)) = S (list_sum (map snd d)).
Proof.
  induction d as [|[k' v] d IH]; [reflexivity|]. simpl.
  destruct (String.eqb k' k); simpl; [reflexivity|]. rewrite IH. lia.
Qed.

Lemma positive_count_up (d : list (string * nat)) (k : string) :
  Forall (fun entry => 0 < snd entry) d ->
  Forall (fun entry => 0 < snd entry) (count_up d k).
Proof.
  induction 1 as [|[k' v] d Hv Hd IH]; simpl.
  - repeat constructor.
  - destruct (String.eqb k' k); constructor; simpl in *; auto; lia.
Qed.

(** Property X4.  The summary of lines 429-435 is right: [count_types]
    returns without touching the world, each type appears once, with the
    number of the items of that type, which is positive, and the counts add
    up to the number of items. *)
Theorem count_types_summary (items_to_delete : list ref) (w : World) :
  exists type_counts,
    count_types items_to_delete [] w = (Normal type_counts, w)
    /\ NoDup (map fst type_counts)
    /\ (forall t, dict_get type_counts t = count_type (heap w) items_to_delete t)
    /\ Forall (fun entry => 0 < snd entry) type_counts
    /\ list_sum (map snd type_counts) = length items_to_delete.
Proof.
  assert (Hgen : forall items counts,
    NoDup (map fst counts) ->
    Forall (fun entry => 0 < snd entry) counts ->
    exists type_counts,
      count_types items counts w = (Normal type_counts, w)
      /\ NoDup (map fst type_counts)
      /\ (forall t, dict_get type_counts t
                    = dict_get counts t + count_type (heap w) items t)
      /\ Forall (fun entry => 0 < snd entry) type_counts
      /\ list_sum (map snd type_counts)
         = list_sum (map snd counts) + length items).
  { induction items as [|r rest IH]; intros counts Hnd Hpos.
    - exists counts. split; [reflexivity|]. split; [exact Hnd|].
      split; [intros t; unfold count_type; simpl; lia|].
      split; [exact Hpos|]. simpl. lia.
    - destruct (IH (count_up counts (type (heap w !!! r)))
                  (NoDup_keys_count_up _ _ Hnd) (positive_count_up _ _ Hpos))
        as (tc & Hrun & Hnd' & Hget & Hpos' & Hsum).
      exists tc. split; [exact Hrun|]. split; [exact Hnd'|].
      split; [|split; [exact Hpos'|]].
      + intros t. rewrite Hget, dict_get_count_up. unfold count_type. simpl.
        destruct (String.eqb (type (heap w !!! r)) t); simpl; lia.
      + rewrite Hsum, sum_count_up. simpl. lia. }
  destruct (Hgen items_to_delete [] ltac:(constructor) ltac:(constructor))
    as (tc & Hrun & Hnd & Hget & Hpos & Hsum).
  exists tc. repeat split; try assumption.
Qed.

End Summary.


(** ** delete.py: the other commands of the loop *)

Section Commands.
Import Delete More.
Local Open Scope py_scope.
Local Open Scope list_scope.

(** A turn of the loop on a command that is not [done] or [quit], once
    the effect of the command is known. *)
Lemma command_loop_after_turn (flat_items : list ref) (line : string)
    (rest : list string) (messages : list string) (h : store) (w : World) :
  Py.lower (Py.strip line) <> "done"%string ->
  Py.lower (Py.strip line) <> "quit"%string ->
  run_command flat_items (Py.lower (Py.strip line)) (after_read w line rest)
  = (Normal tt,
     extend (set_heap (after_read w line rest) h) (map Stdout messages)) ->
  command_loop flat_items (line :: rest) w
  = command_loop flat_items rest (after_turn w flat_items line rest messages h).
Proof.
  intros Hdone Hquit Hrun.
  rewrite command_loop_turn by assumption.
  erewrite bind_normal by exact Hrun.
  erewrite bind_normal by apply print_status_run.
  f_equal. unfold after_turn, after_read, set_stdin, set_heap, extend. simpl.
  rewrite <- !app_assoc. reflexivity.
Qed.

Lemma isdigit_no_dash (cmd : string) :
  Py.isdigit cmd = true -> Py.contains "-" cmd = false.
Proof.
  intros H. assert (Hall : Py.all_chars Py.isdigit_char cmd = true)
    by (destruct cmd; [discriminate|exact H]).
  clear H. induction cmd as [|c cmd IH]; [reflexivity|].
  simpl in Hall. apply andb_true_iff in Hall as [Hc Hall].
  cbn [Py.contains String.prefix]. rewrite (IH Hall).
  destruct (ascii_dec "-" c) as [<-|_]; [discriminate|reflexivity].
Qed.

(** A command that [isdigit] accepts goes to the number branch. *)
Lemma run_command_digits (flat_items : list ref) (cmd : string) :
  Py.isdigit cmd = true ->
  run_command flat_items cmd = number_command flat_items cmd.
Proof.
  intros Hdigit. unfold run_command.
  repeat match goal with
         | |- context [String.eqb cmd ?kw] =>
             destruct (String.eqb_spec cmd kw) as [->|_]; [discriminate|]
         end.
  rewrite (isdigit_no_dash cmd Hdigit), Hdigit. reflexivity.
Qed.

Lemma digits_not_keyword (cmd : string) :
  Py.isdigit cmd = true -> cmd <> "done"%string /\ cmd <> "quit"%string.
Proof. intros H. split; intros ->; discriminate. Qed.

Lemma getitem_run (flat_items : list ref) (i : nat) (r : ref) (w : World) :
  flat_items !! i = Some r ->
  getitem flat_items (Z.of_nat i) w = (Normal r, w).
Proof.
  intros Hi. unfold getitem.
  assert (Hlt : i < length flat_items) by (eapply lookup_lt_Some; eassumption).
  replace (Z.of_nat i <? 0)%Z with false by (symmetry; apply Z.ltb_ge; lia).
  replace (0 <=? Z.of_nat i)%Z with true by (symmetry; apply Z.leb_le; lia).
  replace (Z.of_nat i <? Z.of_nat (length flat_items))%Z with true
    by (symmetry; apply Z.ltb_lt; lia).
  simpl. rewrite Nat2Z.id, Hi. reflexivity.
Qed.

(** Lines 304-309 on a number inside the list. *)
Lemma number_command_run (flat_items : list ref) (cmd : string) (i : nat)
    (r : ref) (w : World) :
  Py.int cmd = Normal (Z.of_nat (S i)) ->
  flat_items !! i = Some r ->
  number_command flat_items cmd w
  = (Normal tt,
     extend (set_heap w (alter toggle r (heap w)))
       [Stdout (((if selected (alter toggle r (heap w) !!! r)
                  then "Selected" else "Deselected")
                 ++ " item: " ++ name (alter toggle r (heap w) !!! r)) ++ nl)%string]).
Proof.
  intros Hint Hi. unfold number_command.
  erewrite bind_normal by (unfold lift; rewrite Hint; reflexivity).
  assert (Hlt : i < length flat_items) by (eapply lookup_lt_Some; eassumption).
  replace (in_bounds (Z.of_nat (S i)) flat_items) with true
    by (symmetry; unfold in_bounds; apply andb_true_iff;
        split; apply Z.leb_le; lia).
  replace (Z.of_nat (S i) - 1)%Z with (Z.of_nat i) by lia.
  erewrite bind_normal by (apply toggle_at_run; exact Hi).
  erewrite bind_normal by (apply getitem_run; exact Hi).
  erewrite bind_normal by reflexivity.
  erewrite bind_normal by (apply getitem_run; exact Hi).
  erewrite bind_normal by reflexivity.
  reflexivity.
Qed.

Lemma toggle_toggle (item : TelegramItem) : toggle (toggle item) = item.
Proof. destruct item as [? ? ? ? s]. unfold toggle, set_selected. simpl.
  rewrite negb_involutive. reflexivity. Qed.

(** A turn of the loop on the number of an item. *)
Lemma number_turn (flat_items : list ref) (line : string)
    (rest : list string) (i : nat) (r : ref) (w : World) :
  Py.isdigit (Py.lower (Py.strip line)) = true ->
  Py.int (Py.lower (Py.strip line)) = Normal (Z.of_nat (S i)) ->
  flat_items !! i = Some r ->
  command_loop flat_items (line :: rest) w
  = command_loop flat_items rest
      (after_turn w flat_items line rest
         [((if selected (alter toggle r (heap w) !!! r)
            then "Selected" else "Deselected")
           ++ " item: " ++ name (alter toggle r (heap w) !!! r)) ++ nl]%string
         (alter toggle r (heap w))).
Proof.
  intros Hdigit Hint Hi.
  destruct (digits_not_keyword _ Hdigit) as [Hdone Hquit].
  apply command_loop_after_turn; [exact Hdone|exact Hquit|].
  rewrite run_command_digits by exact Hdigit.
  exact (number_command_run flat_items _ i r (after_read w line rest) Hint Hi).
Qed.



(** Property X6.  Typing the same number twice leaves every object as it
    was. *)
Theorem number_twice_restores (flat_items : list ref) (line1 line2 : string)
    (rest : list string) (i : nat) (r : ref) (w : World) :
  Py.isdigit (Py.lower (Py.strip line1)) = true ->
  Py.int (Py.lower (Py.strip line1)) = Normal (Z.of_nat (S i)) ->
  Py.isdigit (Py.lower (Py.strip line2)) = true ->
  Py.int (Py.lower (Py.strip line2)) = Normal (Z.of_nat (S i)) ->
  flat_items !! i = Some r ->
  exists w',
    command_loop flat_items (line1 :: line2 :: rest) w
    = command_loop flat_items rest w'
    /\ heap w' = heap w /\ stdin w' = rest.
Proof.
  intros Hd1 Hi1 Hd2 Hi2 Hr.
  eexists. split.
  - rewrite (number_turn flat_items line1 (line2 :: rest) i r w Hd1 Hi1 Hr).
    rewrite (number_turn flat_items line2 rest i r _ Hd2 Hi2 Hr).
    reflexivity.
  - split; [|reflexivity]. simpl.
    rewrite list_alter_alter_eq. apply list_alter_id.
    intros item. apply toggle_toggle.
Qed.

Lemma number_twice_restores_witness :
  exists w',
    command_loop (seq 0 12) ["3"%string; "03"%string; "quit"%string]
      (Sample.twelve_items [])
    = command_loop (seq 0 12) ["quit"%string] w'
    /\ heap w' = heap (Sample.twelve_items []) /\ stdin w' = ["quit"%string].
Proof.
  exact (number_twice_restores (seq 0 12) "3" "03" ["quit"%string] 2 2
           (Sample.twelve_items []) eq_refl eq_refl eq_refl eq_refl eq_refl).
Defined.

(** Property X7.  A number outside the list is refused: the turn prints the
    error message, and every object is as it was. *)
Theorem invalid_number_keeps_selection (flat_items : list ref) (line : string)
    (rest : list string) (n : Z) (w : World) :
  Py.isdigit (Py.lower (Py.strip line)) = true ->
  Py.int (Py.lower (Py.strip line)) = Normal n ->
  in_bounds n flat_items = false ->
  command_loop flat_items (line :: rest) w
  = command_loop flat_items rest
      (after_turn w flat_items line rest [invalid_number flat_items] (heap w)).
Proof.
  intros Hdigit Hint Hout.
  destruct (digits_not_keyword _ Hdigit) as [Hdone Hquit].
  apply command_loop_after_turn; [exact Hdone|exact Hquit|].
  rewrite run_command_digits by exact Hdigit.
  unfold number_command, bind, lift. rewrite Hint, Hout. reflexivity.
Qed.

Lemma invalid_number_keeps_selection_witness :
  command_loop (seq 0 12) ["0"%string; "13"%string] (Sample.twelve_items [])
  = command_loop (seq 0 12) ["13"%string]
      (after_turn (Sample.twelve_items []) (seq 0 12) "0" ["13"%string]
         ["Invalid item number. Please use a number between 1 and 12.
"%string]
         (heap (Sample.twelve_items []))).
Proof.
  exact (invalid_number_keeps_selection (seq 0 12) "0" ["13"%string] 0
           (Sample.twelve_items []) eq_refl eq_refl eq_refl).
Defined.

(** Property X8.  [isdigit] accepts more than [int] does: on a command that
    [isdigit] accepts and [int] rejects, such as a superscript two, the
    [ValueError] of line 305 is not caught inside the loop, so the selection
    ends with this exception right after the line was read. *)
Theorem digits_rejected_by_int_end_selection (flat_items : list ref)
    (line : string) (rest : list string) (w : World) :
  Py.isdigit (Py.lower (Py.strip line)) = true ->
  Py.int (Py.lower (Py.strip line)) = Raise ValueError ->
  command_loop flat_items (line :: rest) w
  = (Raise ValueError, after_read w line rest).
Proof.
  intros Hdigit Hint.
  destruct (digits_not_keyword _ Hdigit) as [Hdone Hquit].
  rewrite command_loop_turn by assumption.
  rewrite run_command_digits by exact Hdigit.
  unfold number_command, bind, lift. rewrite Hint. reflexivity.
Qed.

Lemma digits_rejected_by_int_end_selection_witness :
  command_loop (seq 0 12) [String (ascii_of_N 178) EmptyString; "done"%string]
    (Sample.twelve_items [])
  = (Raise ValueError,
     after_read (Sample.twelve_items []) (String (ascii_of_N 178) EmptyString)
       ["done"%string]).
Proof.
  exact (digits_rejected_by_int_end_selection (seq 0 12)
           (String (ascii_of_N 178) EmptyString) ["done"%string]
           (Sample.twelve_items []) eq_refl eq_refl).
Defined.

(** *** Ranges *)



Lemma int_raises_ValueError (s : string) (e : exn) :
  Py.int s = Raise e -> e = ValueError.
Proof.
  unfold Py.int.
  destruct (match Py.rstrip_by Py.int_space (Py.lstrip_by Py.int_space s) with
            | String "-" r => (true, r)
            | String "+" r => (false, r)
            | _ => (false, Py.rstrip_by Py.int_space (Py.lstrip_by Py.int_space s))
            end) as [negative unsigned].
  destruct (Py.literal_digits unsigned false) as [ds|]; [|congruence].
  destruct (Py.int_max_str_digits <? length ds)%nat; congruence.
Qed.

Lemma unpack_ints_raises_ValueError (parts : list string) (e : exn) :
  unpack_ints parts = Raise e -> e = ValueError.
Proof.
  unfold unpack_ints.
  destruct parts as [|a [|b [|c rest]]]; try congruence;
    repeat match goal with
           | |- context [Py.int ?x] =>
               let H := fresh "H" in
               destruct (Py.int x) eqn:H;
               [|apply int_raises_ValueError in H; subst]
           end; congruence.
Qed.

(** Property X10.  A range that does not parse as two numbers, or has a
    number outside the list, is refused as a whole: the turn prints one of
    the two error messages and every object is as it was. *)
Theorem invalid_range_keeps_selection (flat_items : list ref) (line : string)
    (rest : list string) (w : World) :
  Py.contains "-" (Py.lower (Py.strip line)) = true ->
  (forall s e,
     unpack_ints (Py.split "-" (Py.lower (Py.strip line))) = Normal (s, e) ->
     in_bounds s flat_items && in_bounds e flat_items = false) ->
  command_loop flat_items (line :: rest) w
  = command_loop flat_items rest
      (after_turn w flat_items line rest
         [match unpack_ints (Py.split "-" (Py.lower (Py.strip line))) with
          | Normal _ => invalid_range flat_items
          | Raise _ => invalid_range_format
          end]
         (heap w)).
Proof.
  intros Hdash Hbad.
  destruct (dash_not_keyword _ Hdash) as [Hdone Hquit].
  apply command_loop_after_turn; [exact Hdone|exact Hquit|].
  rewrite run_command_dash by exact Hdash.
  unfold range_command, try_except, bind, lift.
  destruct (unpack_ints (Py.split "-" (Py.lower (Py.strip line))))
    as [[s e]|e0] eqn:Hparse.
  - rewrite (Hbad s e eq_refl). reflexivity.
  - apply unpack_ints_raises_ValueError in Hparse as ->. reflexivity.
Qed.

Lemma invalid_range_keeps_selection_witness :
  command_loop (seq 0 12) ["3-13"%string; "-5"%string] (Sample.twelve_items [])
  = command_loop (seq 0 12) ["-5"%string]
      (after_turn (Sample.twelve_items []) (seq 0 12) "3-13" ["-5"%string]
         ["Invalid range. Please use numbers between 1 and 12.
"%string]
         (heap (Sample.twelve_items [])))
  /\ command_loop (seq 0 12) ["-5"%string] (Sample.twelve_items [])
     = command_loop (seq 0 12) []
         (after_turn (Sample.twelve_items []) (seq 0 12) "-5" []
            ["Invalid range format. Use 'start-end' (e.g., '5-10').
"%string]
            (heap (Sample.twelve_items []))).
Proof.
  split.
  - exact (invalid_range_keeps_selection (seq 0 12) "3-13" ["-5"%string]
             (Sample.twelve_items []) eq_refl
             ltac:(intros s e H; injection H as <- <-; reflexivity)).
  - exact (invalid_range_keeps_selection (seq 0 12) "-5" []
             (Sample.twelve_items []) eq_refl
             ltac:(intros s e H; discriminate H)).
Defined.

End Commands.


(** ** delete.py: the commands on the whole list, and [done] *)

Section WholeList.
Import Delete More.
Local Open Scope py_scope.
Local Open Scope list_scope.

(** The loops of [all] and [none], lines 265-266 and 270-271. *)
Lemma set_all_run (b : bool) (rs : list ref) (w : World) :
  for_each rs (fun r => update r (set_selected b)) w
  = (Normal tt, set_heap w (set_all b rs (heap w))).
Proof.
  revert w; induction rs as [|r rs IH]; intros w.
  - simpl. rewrite set_heap_same. reflexivity.
  - simpl. unfold bind at 1. unfold update at 1. rewrite IH. reflexivity.
Qed.

Lemma set_selected_idem (b : bool) (item : TelegramItem) :
  set_selected b (set_selected b item) = set_selected b item.
Proof. reflexivity. Qed.

Lemma set_all_lookup_notin (b : bool) (rs : list ref) (h : store) (r : ref) :
  r ∉ rs -> set_all b rs h !! r = h !! r.
Proof.
  revert h; induction rs as [|r0 rs IH]; intros h Hr; [reflexivity|].
  apply not_elem_of_cons in Hr as [Hne Hr]. simpl.
  change (set_all b rs (alter (set_selected b) r0 h) !! r = h !! r).
  rewrite IH by assumption. apply list_lookup_alter_ne. congruence.
Qed.

Lemma set_all_lookup_in (b : bool) (rs : list ref) (h : store) (r : ref) :
  r ∈ rs -> set_all b rs h !! r = set_selected b <$> h !! r.
Proof.
  revert h; induction rs as [|r0 rs IH]; intros h Hr; [inversion Hr|].
  change (set_all b rs (alter (set_selected b) r0 h) !! r
          = set_selected b <$> h !! r).
  destruct (decide (r ∈ rs)) as [Hin|Hout].
  - rewrite IH by exact Hin.
    destruct (decide (r0 = r)) as [->|Hne].
    + rewrite list_lookup_alter_eq. destruct (h !! r); reflexivity.
    + rewrite list_lookup_alter_ne by exact Hne. reflexivity.
  - rewrite set_all_lookup_notin by exact Hout.
    apply elem_of_cons in Hr as [->|Hr]; [|contradiction].
    apply list_lookup_alter_eq.
Qed.

Lemma filter_all {A} (f : A -> bool) (l : list A) :
  (forall x, x ∈ l -> f x = true) -> List.filter f l = l.
Proof.
  induction l as [|x l IH]; intros H; [reflexivity|]. simpl.
  rewrite (H x) by left. f_equal. apply IH. intros y Hy. apply H. right. exact Hy.
Qed.

Lemma filter_none {A} (f : A -> bool) (l : list A) :
  (forall x, x ∈ l -> f x = false) -> List.filter f l = [].
Proof.
  induction l as [|x l IH]; intros H; [reflexivity|]. simpl.
  rewrite (H x) by left. apply IH. intros y Hy. apply H. right. exact Hy.
Qed.

Lemma filter_sublist {A} (f : A -> bool) (l : list A) :
  sublist (List.filter f l) l.
Proof.
  induction l as [|x l IH]; simpl; [constructor|].
  destruct (f x); [apply sublist_skip|apply sublist_cons]; exact IH.
Qed.

(** The turn of [done], lines 253-258. *)
Lemma command_loop_done (flat_items : list ref) (line : string)
    (rest : list string) (w : World) :
  Py.lower (Py.strip line) = "done"%string ->
  command_loop flat_items (line :: rest) w
  = match selection flat_items (heap w) with
    | [] =>
        command_loop flat_items rest
          (extend (after_read w line rest)
             [Stdout ("No items selected. Please select at least one item or type 'quit'."
                      ++ nl)%string])
    | items => (Normal items, after_read w line rest)
    end.
Proof.
  intros Hdone. simpl command_loop. rewrite read_turn, Hdone.
  change (String.eqb "done" "done") with true. cbv iota.
  unfold bind at 1. unfold selected_of at 1.
  change (heap (after_read w line rest)) with (heap w).
  unfold selection. destruct (List.filter _ flat_items); reflexivity.
Qed.

Lemma command_loop_all (b : bool) (flat_items : list ref) (line : string)
    (rest : list string) (w : World) :
  Py.lower (Py.strip line) = (if b then "all" else "none")%string ->
  command_loop flat_items (line :: rest) w
  = command_loop flat_items rest
      (after_turn w flat_items line rest
         [((if b then "All items selected." else "All items deselected.")
           ++ nl)%string]
         (set_all b flat_items (heap w))).
Proof.
  intros Hcmd.
  apply command_loop_after_turn;
    [rewrite Hcmd; destruct b; discriminate
    |rewrite Hcmd; destruct b; discriminate|].
  rewrite Hcmd.
  assert (Hrun : run_command flat_items (if b then "all" else "none")%string
                 = (for_each flat_items (fun r => update r (set_selected b)) ;;
                    print (if b then "All items selected."
                           else "All items deselected.")))
    by (destruct b; reflexivity).
  rewrite Hrun. erewrite bind_normal by apply set_all_run.
  reflexivity.
Qed.

(** Property X11.  [all] and then [done]: with every listed item in the
    store, the selection that comes back is the whole list, in the order of
    the list, whatever was selected before. *)
Theorem all_then_done_returns_everything (flat_items : list ref)
    (line1 line2 : string) (rest : list string) (w : World) :
  Py.lower (Py.strip line1) = "all"%string ->
  Py.lower (Py.strip line2) = "done"%string ->
  flat_items <> [] ->
  Forall (fun r => r < length (heap w)) flat_items ->
  exists w',
    command_loop flat_items (line1 :: line2 :: rest) w = (Normal flat_items, w')
    /\ stdin w' = rest
    /\ heap w' = set_all true flat_items (heap w)
    /\ (forall r, r ∈ flat_items -> heap w' !! r = set_selected true <$> heap w !! r)
    /\ (forall r, r ∉ flat_items -> heap w' !! r = heap w !! r).
Proof.
  intros Hall Hdone Hne Hvalid.
  rewrite (command_loop_all true flat_items line1 (line2 :: rest) w Hall).
  rewrite command_loop_done by exact Hdone.
  change (heap (after_turn _ _ _ _ _ ?h)) with h.
  replace (selection flat_items (set_all true flat_items (heap w)))
    with flat_items.
  - destruct flat_items as [|r0 rs]; [contradiction|].
    eexists. split; [reflexivity|]. split; [reflexivity|].
    split; [reflexivity|]. split.
    + intros r Hr. apply set_all_lookup_in. exact Hr.
    + intros r Hr. apply set_all_lookup_notin. exact Hr.
  - symmetry. apply filter_all. intros r Hr.
    rewrite Forall_forall in Hvalid.
    destruct (lookup_lt_is_Some_2 (heap w) r (Hvalid r Hr)) as [item Hitem].
    erewrite list_lookup_total_correct;
      [|rewrite set_all_lookup_in by exact Hr; rewrite Hitem; reflexivity].
    reflexivity.
Qed.

Lemma all_then_done_returns_everything_witness :
  exists w',
    command_loop (seq 0 12) [" ALL"%string; "done "%string; "yes"%string]
      (Sample.twelve_items [])
    = (Normal (seq 0 12), w')
    /\ stdin w' = ["yes"%string].
Proof.
  destruct (all_then_done_returns_everything (seq 0 12) " ALL" "done "
              ["yes"%string] (Sample.twelve_items []) eq_refl eq_refl
              ltac:(discriminate)
              ltac:(apply Forall_forall; intros r Hr;
                    apply elem_of_seq in Hr; simpl; lia))
    as (w' & Hrun & Hin & _).
  exists w'. split; [exact Hrun|exact Hin].
Defined.

(** Property X12.  [none] and then [done]: nothing is selected any more, so
    [done] is refused with a message and the loop asks for the next command. *)
Theorem none_then_done_asks_again (flat_items : list ref)
    (line1 line2 : string) (rest : list string) (w : World) :
  Py.lower (Py.strip line1) = "none"%string ->
  Py.lower (Py.strip line2) = "done"%string ->
  command_loop flat_items (line1 :: line2 :: rest) w
  = command_loop flat_items rest
      (extend
         (after_read
            (after_turn w flat_items line1 (line2 :: rest)
               [("All items deselected." ++ nl)%string]
               (set_all false flat_items (heap w)))
            line2 rest)
         [Stdout ("No items selected. Please select at least one item or type 'quit'."
                  ++ nl)%string])
  /\ selection flat_items (set_all false flat_items (heap w)) = []
  /\ (forall r, r ∉ flat_items ->
        set_all false flat_items (heap w) !! r = heap w !! r).
Proof.
  intros Hnone Hdone.
  assert (Hempty : selection flat_items (set_all false flat_items (heap w)) = []).
  { apply filter_none. intros r Hr.
    rewrite list_lookup_total_alt, set_all_lookup_in by exact Hr.
    destruct (heap w !! r); reflexivity. }
  split; [|split; [exact Hempty|]].
  - rewrite (command_loop_all false flat_items line1 (line2 :: rest) w Hnone).
    rewrite command_loop_done by exact Hdone.
    change (heap (after_turn _ _ _ _ _ ?h)) with h.
    rewrite Hempty. reflexivity.
  - intros r Hr. apply set_all_lookup_notin. exact Hr.
Qed.

Lemma none_then_done_asks_again_witness :
  selection (seq 0 12)
    (set_all false (seq 0 12) (heap (Sample.twelve_items []))) = [].
Proof.
  exact (proj1 (proj2 (none_then_done_asks_again (seq 0 12) "none" "done" []
                         (Sample.twelve_items []) eq_refl eq_refl))).
Defined.

(** *** The category commands *)

Lemma select_where_run (test : TelegramItem -> bool) (rs : list ref) (w : World) :
  select_where rs test w
  = (Normal tt, set_heap w (select_matching test rs (heap w))).
Proof.
  unfold select_where.
  revert w; induction rs as [|r rs IH]; intros w.
  - simpl. rewrite set_heap_same. reflexivity.
  - simpl. unfold bind at 1. unfold bind at 1. unfold deref at 1.
    unfold select_matching. simpl.
    destruct (test (heap w !!! r)).
    + unfold update at 1. rewrite IH. reflexivity.
    + unfold ret at 1. rewrite IH. reflexivity.
Qed.

(** What a category loop leaves in the store, for a test that does not
    look at [selected]. *)
Lemma select_matching_lookup (test : TelegramItem -> bool) (rs : list ref) :
  (forall b item, test (set_selected b item) = test item) ->
  forall (h : store) (r : ref) (item : TelegramItem),
    h !! r = Some item ->
    select_matching test rs h !! r
    = Some (if bool_decide (r ∈ rs) && test item
            then set_selected true item else item).
Proof.
  intros Hstable. induction rs as [|r0 rs IH]; intros h r item Hitem.
  - simpl. exact Hitem.
  - change (select_matching test (r0 :: rs) h)
      with (select_matching test rs
              (if test (h !!! r0) then alter (set_selected true) r0 h else h)).
    destruct (decide (r = r0)) as [->|Hne].
    + rewrite (list_lookup_total_correct _ _ _ Hitem).
      rewrite (bool_decide_eq_true_2 (r0 ∈ r0 :: rs)) by left. simpl.
      destruct (test item) eqn:Htest.
      * erewrite IH
          by (rewrite list_lookup_alter_eq, Hitem; reflexivity).
        rewrite Hstable, Htest. destruct (bool_decide (r0 ∈ rs)); reflexivity.
      * rewrite (IH h r0 item Hitem), Htest, andb_false_r. reflexivity.
    + assert (Hsame : (if test (h !!! r0)
                       then alter (set_selected true) r0 h else h) !! r
                      = Some item).
      { destruct (test (h !!! r0)); [|exact Hitem].
        rewrite list_lookup_alter_ne by congruence. exact Hitem. }
      rewrite (IH _ r item Hsame).
      replace (bool_decide (r ∈ r0 :: rs)) with (bool_decide (r ∈ rs));
        [reflexivity|].
      apply bool_decide_ext. rewrite elem_of_cons. tauto.
Qed.

(** Property X13.  [chats], [groups] and [channels] only add to the
    selection: an item of the list that passes the test of the command gets
    selected, and every other object, selected or not, stays as it was. *)
Theorem category_command_adds_matching_items (flat_items : list ref)
    (line : string) (rest : list string) (keyword message : string)
    (test : TelegramItem -> bool) (w : World) :
  (keyword, message, test) ∈ category_commands ->
  Py.lower (Py.strip line) = keyword ->
  command_loop flat_items (line :: rest) w
  = command_loop flat_items rest
      (after_turn w flat_items line rest [(message ++ nl)%string]
         (select_matching test flat_items (heap w)))
  /\ forall r item,
       heap w !! r = Some item ->
       select_matching test flat_items (heap w) !! r
       = Some (if bool_decide (r ∈ flat_items) && test item
               then set_selected true item else item).
Proof.
  intros Hentry Hcmd.
  assert (Hcases :
    (forall b item, test (set_selected b item) = test item)
    /\ keyword <> "done"%string /\ keyword <> "quit"%string
    /\ run_command flat_items keyword
       = (select_where flat_items test ;; print message)).
  { unfold category_commands in Hentry.
    repeat (apply elem_of_cons in Hentry as [[= -> -> ->]|Hentry];
            [repeat split; discriminate|]).
    inversion Hentry. }
  destruct Hcases as (Hstable & Hdone & Hquit & Hrun).
  split.
  - apply command_loop_after_turn; [congruence|congruence|].
    rewrite Hcmd, Hrun. erewrite bind_normal by apply select_where_run.
    reflexivity.
  - intros r item Hitem. apply select_matching_lookup; assumption.
Qed.

Lemma category_command_adds_matching_items_witness :
  command_loop (seq 0 12) ["Groups"%string; "done"%string] (Sample.twelve_items [])
  = command_loop (seq 0 12) ["done"%string]
      (after_turn (Sample.twelve_items []) (seq 0 12) "Groups" ["done"%string]
         ["All groups selected.
"%string]
         (select_matching (fun item => Py.contains "Group" (type item))
            (seq 0 12) (heap (Sample.twelve_items [])))).
Proof.
  exact (proj1 (category_command_adds_matching_items (seq 0 12) "Groups"
                  ["done"%string] "groups" "All groups selected."
                  (fun item => Py.contains "Group" (type item))
                  (Sample.twelve_items [])
                  ltac:(right; left) eq_refl)).
Defined.

(** Property X14.  The tests of the category commands on the items that
    [get_all_items] makes: [chats] takes the items filed under
    [private_chats] and [channels] those filed under [channels], but
    [groups] takes the small groups only.  A supergroup is filed under
    [groups], yet its label "Supergroup" does not contain "Group". *)
Theorem category_tests_follow_entity (dialog : Dialog) :
  (String.eqb (type (snd (classify dialog))) "Private Chat" = true
   <-> fst (classify dialog) = private_chats_key)
  /\ (Py.contains "Channel" (type (snd (classify dialog))) = true
      <-> fst (classify dialog) = channels_key)
  /\ (Py.contains "Group" (type (snd (classify dialog))) = true
      <-> exists chat_id, dialog_entity dialog = Chat chat_id)
  /\ (forall channel_id,
        dialog_entity dialog = Channel channel_id false true ->
        fst (classify dialog) = groups_key
        /\ Py.contains "Group" (type (snd (classify dialog))) = false).
Proof.
  destruct dialog as [nm [u|cid b m|cid|i]]; simpl.
  - repeat split; try discriminate; try reflexivity.
    intros [c H]; discriminate.
  - destruct b, m; simpl; repeat split; try discriminate; try reflexivity;
      try (intros [c H]; discriminate); intros c [= _]; reflexivity.
  - repeat split; try discriminate; try reflexivity. intros _. eauto.
  - repeat split; try discriminate; try reflexivity.
    intros [c H]; discriminate.
Qed.

(** *** What the selection returns *)

(** Property X15.  Whatever the commands were, a selection that comes back
    from the loop is not empty, holds the items that are selected at that
    moment and no other, in the order of the list, and the lines after
    [done] are still on standard input. *)
Theorem command_loop_returns_selection (flat_items : list ref)
    (lines : list string) (w w' : World) (items : list ref) :
  command_loop flat_items lines w = (Normal items, w') ->
  items <> []
  /\ items = selection flat_items (heap w')
  /\ sublist items flat_items
  /\ exists read, lines = read ++ stdin w'.
Proof.
  revert w; induction lines as [|line rest IH]; intros w Hrun.
  - rewrite command_loop_eof in Hrun. discriminate.
  - destruct (String.eqb_spec (Py.lower (Py.strip line)) "done") as [Hdone|Hdone].
    { rewrite command_loop_done in Hrun by exact Hdone.
      destruct (selection flat_items (heap w)) as [|r0 rs] eqn:Hsel.
      - destruct (IH _ Hrun) as (Hne & Heq & Hsub & read & Hread).
        split; [exact Hne|]. split; [exact Heq|]. split; [exact Hsub|].
        exists (line :: read). simpl. rewrite <- Hread. reflexivity.
      - injection Hrun as <- <-. split; [discriminate|].
        split; [symmetry; exact Hsel|]. split.
        + rewrite <- Hsel. apply filter_sublist.
        + exists [line]. reflexivity. }
    destruct (String.eqb_spec (Py.lower (Py.strip line)) "quit") as [Hquit|Hquit].
    { rewrite command_loop_quit in Hrun by exact Hquit. discriminate. }
    rewrite command_loop_turn in Hrun by assumption.
    unfold bind at 1 in Hrun.
    destruct (run_command flat_items _ (after_read w line rest))
      as [[[]|e] w1] eqn:Hcmd; [|discriminate].
    erewrite bind_normal in Hrun by apply print_status_run.
    destruct (IH _ Hrun) as (Hne & Heq & Hsub & read & Hread).
    split; [exact Hne|]. split; [exact Heq|]. split; [exact Hsub|].
    exists (line :: read). simpl. rewrite <- Hread. reflexivity.
Qed.

Lemma command_loop_returns_selection_witness :
  [1; 2; 3] <> []
  /\ [1; 2; 3]
     = selection (seq 0 12)
         (heap (snd (command_loop (seq 0 12)
                       ["done"%string; "2-4"%string; "done"%string; "yes"%string]
                       (Sample.twelve_items []))))
  /\ sublist [1; 2; 3] (seq 0 12)
  /\ exists read,
       ["done"%string; "2-4"%string; "done"%string; "yes"%string]
       = read ++ stdin (snd (command_loop (seq 0 12)
                               ["done"%string; "2-4"%string; "done"%string;
                                "yes"%string]
                               (Sample.twelve_items []))).
Proof.
  apply (command_loop_returns_selection (seq 0 12)
           ["done"%string; "2-4"%string; "done"%string; "yes"%string]
           (Sample.twelve_items [])).
  vm_compute. reflexivity.
Defined.

End WholeList.


(** ** delete.py: the listing of the interactive selection *)

Section Listing.
Import Delete More.
Local Open Scope py_scope.
Local Open Scope list_scope.

Lemma map_enumerate {A B} (f : nat * A -> B) (l : list A) (start : nat) :
  map f (enumerate start l) = imap (fun i x => f (start + i, x)) l.
Proof.
  revert start; induction l as [|x l IH]; intros start; [reflexivity|].
  simpl. rewrite Nat.add_0_r, IH. f_equal.
  apply imap_ext. intros i y _. simpl. f_equal. f_equal. lia.
Qed.

Lemma unselected_lookup (h : store) (r : ref) :
  Forall (fun item => selected item = false) h -> selected (h !!! r) = false.
Proof.
  intros Hall. rewrite list_lookup_total_alt.
  destruct (h !! r) as [item|] eqn:Hr; [|reflexivity].
  rewrite Forall_forall in Hall. apply Hall.
  apply list_elem_of_lookup. eauto.
Qed.

Lemma for_each_prints {A} (h : store) (l : list A) (body : A -> M unit)
    (g : A -> event) :
  (forall x w, heap w = h -> body x w = (Normal tt, extend w [g x])) ->
  forall w, heap w = h -> for_each l body w = (Normal tt, extend w (map g l)).
Proof.
  intros Hbody. induction l as [|x l IH]; intros w Hw; simpl.
  - rewrite extend_nil. reflexivity.
  - erewrite bind_normal by (apply Hbody; exact Hw).
    rewrite IH by exact Hw. rewrite extend_extend. reflexivity.
Qed.

(** Property X16.  Lines 228-237, with no item selected yet (as it is when
    the items have just been made): before the first menu the items are
    listed once, the private chats first, then the groups, the channels and
    the others, numbered from 1, each with an empty box; the box is never
    ticked in this listing. *)
Theorem listing_shows_every_item_unselected (all_items : Inventory) (w : World) :
  Forall (fun item => selected item = false) (heap w) ->
  interactive_selection all_items w
  = command_loop (flatten all_items) (stdin w)
      (extend w
         (Stdout ((nl ++ "Select items to delete/leave:") ++ nl)%string
          :: imap (fun i r =>
                     Stdout ((Py.str_nat (S i) ++ ". [ ] " ++ name (heap w !!! r)
                              ++ " (" ++ type (heap w !!! r) ++ ")") ++ nl)%string)
               (private_chats all_items ++ groups all_items
                ++ channels all_items ++ other all_items)))
  /\ flatten all_items
     = private_chats all_items ++ groups all_items ++ channels all_items
       ++ other all_items.
Proof.
  intros Hall.
  assert (Hflat : flatten all_items
                  = private_chats all_items ++ groups all_items
                    ++ channels all_items ++ other all_items)
    by apply flatten_buckets.
  split; [|exact Hflat].
  unfold interactive_selection.
  erewrite bind_normal by apply print_run.
  set (line := fun numbered : nat * ref =>
                 Stdout ((Py.str_nat (fst numbered) ++ ". [ ] "
                          ++ name (heap w !!! snd numbered)
                          ++ " (" ++ type (heap w !!! snd numbered) ++ ")")
                         ++ nl)%string).
  erewrite bind_normal.
  2:{ apply (for_each_prints (heap w) (enumerate 1 (flatten all_items)) _ line);
        [|reflexivity].
      intros [i r] w0 Hw0. unfold bind, deref, print, emit, line, extend. simpl.
      rewrite Hw0, (unselected_lookup (heap w) r Hall). reflexivity. }
  rewrite extend_extend. simpl stdin.
  rewrite map_enumerate, Hflat. reflexivity.
Qed.

Lemma listing_shows_every_item_unselected_witness :
  interactive_selection
    {| private_chats := [0; 2]; groups := [1]; channels := []; other := [] |}
    {| stdin := ["quit"%string]; trace := [];
       heap := map (fun d => snd (classify d)) Sample.three_dialogs |}
  = command_loop [0; 2; 1] ["quit"%string]
      {| stdin := ["quit"%string];
         trace := [Stdout "
Select items to delete/leave:
"%string;
                   Stdout "1. [ ] Ann  (@ann) (Private Chat)
"%string;
                   Stdout "2. [ ] Bob Ross (@No username) (Private Chat)
"%string;
                   Stdout "3. [ ] Rocq users (Supergroup)
"%string];
         heap := map (fun d => snd (classify d)) Sample.three_dialogs |}.
Proof.
  exact (proj1 (listing_shows_every_item_unselected
                  {| private_chats := [0; 2]; groups := [1]; channels := [];
                     other := [] |}
                  {| stdin := ["quit"%string]; trace := [];
                     heap := map (fun d => snd (classify d)) Sample.three_dialogs |}
                  ltac:(repeat constructor))).
Defined.

End Listing.


(** ** delete.py: what every run of [main] keeps to *)

Section Safety.
Import Delete More.
Local Open Scope py_scope.
Local Open Scope list_scope.

Lemma confirmed_first_quiet (events : list event) :
  requests events = [] -> confirmed_first events.
Proof. intros H. left. exact H. Qed.

Lemma confirmed_first_after_quiet (q events : list event) :
  requests q = [] -> confirmed_first events -> confirmed_first (q ++ events).
Proof.
  intros Hq [Hnone|(pre & answer & post & -> & Hyes & Hpre)].
  - left. rewrite requests_app, Hq, Hnone. reflexivity.
  - right. exists (q ++ pre), answer, post.
    split; [rewrite app_assoc; reflexivity|]. split; [exact Hyes|].
    rewrite requests_app, Hq, Hpre. reflexivity.
Qed.

Lemma confirmed_first_before_quiet (events q : list event) :
  requests q = [] -> confirmed_first events -> confirmed_first (events ++ q).
Proof.
  intros Hq [Hnone|(pre & answer & post & -> & Hyes & Hpre)].
  - left. rewrite requests_app, Hq, Hnone. reflexivity.
  - right. exists pre, answer, (post ++ q).
    split; [rewrite <- app_assoc; reflexivity|]. split; assumption.
Qed.

Lemma sat_confirmed_quiet {A} ps (m : M A) :
  emits false ps m -> sat (fun _ events => confirmed_first events) m.
Proof.
  apply sat_mono. intros _ events Hall.
  apply confirmed_first_quiet. apply (requests_quiet ps). exact Hall.
Qed.

Lemma sat_confirmed_prefix {A B} ps (m : M A) (k : A -> M B) :
  emits false ps m ->
  (forall a, sat (fun _ events => confirmed_first events) (k a)) ->
  sat (fun _ events => confirmed_first events) (bind m k).
Proof.
  intros Hm Hk.
  eapply (sat_bind _ (fun _ _ events => confirmed_first events));
    [exact Hm|exact Hk| |].
  - intros e events Hall. apply confirmed_first_quiet.
    apply (requests_quiet ps). exact Hall.
  - intros a events1 r events2 Hall Hc.
    apply confirmed_first_after_quiet; [|exact Hc].
    apply (requests_quiet ps). exact Hall.
Qed.

Lemma sat_confirm_and_delete_confirmed client args (items_to_delete : list ref) :
  sat (fun _ events => confirmed_first events)
    (confirm_and_delete client args items_to_delete).
Proof.
  unfold confirm_and_delete. destruct items_to_delete as [|r0 items0].
  { apply (sat_confirmed_quiet []). solve_emits. }
  do 3 (apply (sat_confirmed_prefix []); [solve_emits|intros ?]).
  apply (sat_bind _
           (fun answer _ events =>
              Py.lower answer = "yes"%string \/ requests events = [])
           _ _ _ (sat_input confirm_prompt)).
  - intros answer.
    destruct (String.eqb_spec (Py.lower answer) "yes") as [Hyes|Hno]; simpl.
    + assert (Hk : emits true []
                (print (nl ++ "Processing... This may take some time.") ;;
                 success_count <- delete_loop client (delay args)
                                    (length (r0 :: items0))
                                    (enumerate 1 (r0 :: items0)) 0 ;;
                 print (nl ++ "Operation completed. Successfully processed "
                        ++ Py.str_nat success_count ++ " out of "
                        ++ Py.str_nat (length (r0 :: items0)) ++ " items.")%string))
        by solve_emits.
      revert Hk. apply sat_mono. intros _ events _. left. exact Hyes.
    + intros w. exists [cancelled]. split; [reflexivity|]. right. reflexivity.
  - intros e events [(line & Hr & _)|[_ ->]]; [discriminate|].
    left. reflexivity.
  - intros answer events1 r events2 [(line & [= <-] & ->)|[Hr _]];
      [|discriminate].
    intros [Hyes|Hnone].
    + right. exists [Stdout confirm_prompt], answer, events2.
      split; [reflexivity|]. split; [exact Hyes|reflexivity].
    + left. rewrite requests_app, Hnone. reflexivity.
Qed.

Lemma sat_main_body_confirmed client args phone :
  sat (fun _ events => confirmed_first events) (main_body client args phone).
Proof.
  unfold main_body.
  apply (sat_confirmed_prefix []); [solve_emits|intros _].
  apply (sat_confirmed_prefix []); [solve_emits|intros authorized].
  destruct (negb authorized); [apply (sat_confirmed_quiet []); solve_emits|].
  do 4 (apply (sat_confirmed_prefix []); [solve_emits|intros ?]).
  destruct (_ =? 0)%nat; [apply (sat_confirmed_quiet []); solve_emits|].
  do 5 (apply (sat_confirmed_prefix []); [solve_emits|intros ?]).
  apply (sat_confirmed_prefix [choice_prompt; command_prompt]);
    [solve_emits|intros [items|]].
  - apply sat_confirm_and_delete_confirmed.
  - apply (sat_confirmed_quiet []). solve_emits.
Qed.

Lemma emits_main_handler (e : exn) : emits false [] (main_handler e).
Proof. unfold main_handler. destruct e; emits_auto. Qed.

(** Property X17.  No remote request without a "yes": in every run of the
    script, whatever the flags (also with [--all]), the session and the
    input, either no request is made at all, or a line was read at the final
    prompt whose lower-case form is "yes", and no request was made before
    that line. *)
Theorem no_request_without_yes (client : TelegramClient) (args : Namespace)
    (lines : list string) :
  confirmed_first (trace (snd (run client args lines))).
Proof.
  assert (Hmain : sat (fun _ events => confirmed_first events)
                    (main (Normal client) args)).
  { unfold main.
    do 4 (apply (sat_confirmed_prefix [phone_prompt]); [solve_emits|intros ?]).
    apply (sat_try_finally_emit (fun _ events => confirmed_first events)).
    - eapply (sat_try_except _ (fun _ _ events =>
                Forall (fun e => allowed false [] e = true) events));
        [apply sat_main_body_confirmed|apply emits_main_handler|auto|auto|].
      intros e events1 r events2 Hc _ Hall.
      apply confirmed_first_before_quiet; [|exact Hc].
      apply (requests_quiet []). exact Hall.
    - intros r events Hc _. apply confirmed_first_before_quiet;
        [reflexivity|exact Hc].
    - intros r events Hc _. exact Hc. }
  unfold run, asyncio_run.
  destruct (Hmain {| stdin := lines; trace := []; heap := [] |})
    as (events & Hev & Hc).
  rewrite Hev. exact Hc.
Qed.

(** Property X18.  Every run that gets past the constructor of line 340
    and ends, by returning or by raising, has called [client.disconnect()]
    as the last thing it records, also when the body of the [try] raised
    or called [sys.exit].  A run does not end when one of its calls never
    returns, as a pause of infinite length does not. *)
Theorem main_releases_the_session (client : TelegramClient) (args : Namespace)
    (phone : string) (lines : list string) :
  returns_never (fst (run client args (phone :: lines))) = false ->
  last (trace (snd (run client args (phone :: lines)))) = Some Disconnect.
Proof.
  unfold run, asyncio_run, main.
  erewrite bind_normal by apply print_run.
  erewrite bind_normal by apply print_run.
  erewrite bind_normal by (apply input_run; reflexivity).
  erewrite bind_normal by reflexivity.
  unfold try_finally, try_except.
  destruct (main_body client args phone _) as [[[]|e] w1].
  - simpl. intros _. apply last_snoc.
  - destruct (is_Exception e) eqn:He.
    + assert (Hh : exists record, main_handler e w1 = (Normal tt, extend w1 [record]))
        by (destruct e; eexists; reflexivity).
      destruct Hh as (record & ->). simpl. intros _. apply last_snoc.
    + destruct e; try discriminate He; simpl;
        first [intros Hends; discriminate Hends|intros _; apply last_snoc].
Qed.

Lemma main_releases_the_session_witness :
  fst (Sample.interactive_run ["+15550100"%string; "quit"%string])
  = Raise (SystemExit 0)
  /\ last (trace (snd (Sample.interactive_run
                         ["+15550100"%string; "quit"%string])))
     = Some Disconnect.
Proof.
  split; [reflexivity|].
  apply (main_releases_the_session
           (Sample.session Sample.three_dialogs (fun _ => None))
           (Sample.flags false false false false true)
           "+15550100" ["quit"%string]).
  reflexivity.
Defined.

(** Property X29.  The constructor of line 340 is called after the phone
    number has been read and outside the [try] statement: when it raises,
    the exception leaves [main], whether it is an [Exception] or not; no
    handler reports it, and the session is neither started nor released. *)
Theorem constructor_failure_leaves_main (args : Namespace) (phone : string)
    (lines : list string) (e : exn) :
  asyncio_run (Raise e) args (phone :: lines)
  = (Raise e,
     {| stdin := lines;
        trace := [Stdout ("Comprehensive Telegram Deletion Tool" ++ nl)%string;
                  Stdout ("-----------------------------------" ++ nl)%string;
                  Stdout phone_prompt; Stdin phone_prompt phone];
        heap := [] |}).
Proof. reflexivity. Qed.

(** *** Failures before the selection *)

Lemma login_failure_run (client : TelegramClient) (args : Namespace)
    (phone : string) (lines : list string) (e : exn) :
  start client phone lines = Raise e ->
  is_Exception e = true ->
  run client args (phone :: lines)
  = (Normal tt,
     {| stdin := lines;
        trace := opening phone ++ report e ++ [Disconnect];
        heap := [] |}).
Proof.
  intros Hstart He. unfold run, asyncio_run, main.
  erewrite bind_normal by apply print_run.
  erewrite bind_normal by apply print_run.
  erewrite bind_normal by (apply input_run; reflexivity).
  erewrite bind_normal by reflexivity.
  unfold try_finally, try_except, main_body.
  erewrite bind_raise
    by (unfold client_start, bind, emit; simpl; rewrite Hstart; reflexivity).
  rewrite He. destruct e; try discriminate He; reflexivity.
Qed.

(** Property X19.  A login that fails with an [Exception]: the run reports
    it (an invalid phone number on standard output, anything else in the
    log), releases the session and returns; the script lists nothing, asks
    nothing and makes no request. *)
Theorem login_failure_is_reported (client : TelegramClient) (args : Namespace)
    (phone : string) (lines : list string) (e : exn) :
  start client phone lines = Raise e ->
  is_Exception e = true ->
  fst (run client args (phone :: lines)) = Normal tt
  /\ trace (snd (run client args (phone :: lines)))
     = opening phone ++ report e ++ [Disconnect].
Proof.
  intros Hstart He.
  rewrite (login_failure_run client args phone lines e Hstart He).
  split; reflexivity.
Qed.

Lemma login_failure_is_reported_witness :
  fst (run {| start := fun _ _ => Raise PhoneNumberInvalidError;
              is_user_authorized := Normal true;
              get_me := Normal Sample.ann;
              iter_dialogs := (Sample.three_dialogs, None);
              call := fun _ _ => None |}
         (Sample.flags true false false false false)
         ["12345"%string; "yes"%string])
  = Normal tt
  /\ trace (snd (run {| start := fun _ _ => Raise PhoneNumberInvalidError;
                        is_user_authorized := Normal true;
                        get_me := Normal Sample.ann;
                        iter_dialogs := (Sample.three_dialogs, None);
                        call := fun _ _ => None |}
                   (Sample.flags true false false false false)
                   ["12345"%string; "yes"%string]))
     = opening "12345"
       ++ [Stdout "Invalid phone number. Please make sure to include the country code.
"%string; Disconnect].
Proof.
  apply (login_failure_is_reported _ _ _ _ PhoneNumberInvalidError); reflexivity.
Defined.

Lemma get_all_items_failure (client : TelegramClient)
    (dialogs : list Dialog) (e : exn) (w : World) :
  iter_dialogs client = (dialogs, Some e) ->
  get_all_items client w
  = (Raise e, set_heap w (heap w ++ map (fun d => snd (classify d)) dialogs)).
Proof.
  intros Hdialogs.
  destruct (file_dialogs_spec dialogs
              {| private_chats := []; groups := []; channels := []; other := [] |} w)
    as (items & Hrun & _).
  unfold get_all_items. rewrite Hdialogs. unfold bind. rewrite Hrun. reflexivity.
Qed.

Lemma listing_failure_run (client : TelegramClient) (args : Namespace)
    (phone : string) (lines rest : list string) (me : UserT)
    (dialogs : list Dialog) (e : exn) :
  start client phone lines = Normal rest ->
  is_user_authorized client = Normal true ->
  get_me client = Normal me ->
  iter_dialogs client = (dialogs, Some e) ->
  is_Exception e = true ->
  run client args (phone :: lines)
  = (Normal tt,
     {| stdin := rest;
        trace := opening phone ++ greeting me ++ report e ++ [Disconnect];
        heap := map (fun d => snd (classify d)) dialogs |}).
Proof.
  intros Hstart Hauth Hme Hdialogs He. unfold run, asyncio_run, main.
  erewrite bind_normal by apply print_run.
  erewrite bind_normal by apply print_run.
  erewrite bind_normal by (apply input_run; reflexivity).
  erewrite bind_normal by reflexivity.
  unfold try_finally, try_except, main_body.
  erewrite bind_normal by (apply client_start_run; exact Hstart).
  erewrite bind_normal by (apply lift_run; exact Hauth).
  change (negb true) with false. cbv iota.
  erewrite bind_normal by (apply lift_run; exact Hme).
  erewrite bind_normal by apply print_run.
  erewrite bind_normal by apply print_run.
  erewrite bind_raise by (apply get_all_items_failure; exact Hdialogs).
  rewrite He. destruct e; try discriminate He; reflexivity.
Qed.

(** Property X20.  A listing that breaks off with an [Exception], after a
    successful login: the dialogs listed so far are of no use, the error is
    reported, the session is released and the run returns; the script asks
    nothing and makes no request, whatever the flags. *)
Theorem listing_failure_is_reported (client : TelegramClient) (args : Namespace)
    (phone : string) (lines rest : list string) (me : UserT)
    (dialogs : list Dialog) (e : exn) :
  start client phone lines = Normal rest ->
  is_user_authorized client = Normal true ->
  get_me client = Normal me ->
  iter_dialogs client = (dialogs, Some e) ->
  is_Exception e = true ->
  fst (run client args (phone :: lines)) = Normal tt
  /\ trace (snd (run client args (phone :: lines)))
     = opening phone ++ greeting me ++ report e ++ [Disconnect].
Proof.
  intros Hstart Hauth Hme Hdialogs He.
  rewrite (listing_failure_run client args phone lines rest me dialogs e
             Hstart Hauth Hme Hdialogs He).
  split; reflexivity.
Qed.

Lemma listing_failure_is_reported_witness :
  fst (run {| start := fun _ lines => Normal lines;
              is_user_authorized := Normal true;
              get_me := Normal Sample.ann;
              iter_dialogs := (Sample.three_dialogs, Some (RemoteError "timeout"));
              call := fun _ _ => None |}
         (Sample.flags true false false false false)
         ["+15550100"%string; "yes"%string])
  = Normal tt
  /\ trace (snd (run {| start := fun _ lines => Normal lines;
                        is_user_authorized := Normal true;
                        get_me := Normal Sample.ann;
                        iter_dialogs := (Sample.three_dialogs,
                                         Some (RemoteError "timeout"));
                        call := fun _ _ => None |}
                   (Sample.flags true false false false false)
                   ["+15550100"%string; "yes"%string]))
     = opening "+15550100" ++ greeting Sample.ann
       ++ [Log "ERROR" "An error occurred: " (Some (RemoteError "timeout"));
           Disconnect].
Proof.
  apply (listing_failure_is_reported _ _ _ _ ["yes"%string] Sample.ann
           Sample.three_dialogs (RemoteError "timeout"));
    reflexivity.
Defined.

Lemma empty_account_run (client : TelegramClient) (args : Namespace)
    (phone : string) (lines rest : list string) (me : UserT) :
  start client phone lines = Normal rest ->
  is_user_authorized client = Normal true ->
  get_me client = Normal me ->
  iter_dialogs client = ([], None) ->
  run client args (phone :: lines)
  = (Normal tt,
     {| stdin := rest;
        trace := opening phone ++ greeting me
                 ++ [Stdout ("No conversations found." ++ nl)%string; Disconnect];
        heap := [] |}).
Proof.
  intros Hstart Hauth Hme Hdialogs. unfold run, asyncio_run, main.
  erewrite bind_normal by apply print_run.
  erewrite bind_normal by apply print_run.
  erewrite bind_normal by (apply input_run; reflexivity).
  erewrite bind_normal by reflexivity.
  unfold try_finally, try_except, main_body.
  erewrite bind_normal by (apply client_start_run; exact Hstart).
  erewrite bind_normal by (apply lift_run; exact Hauth).
  change (negb true) with false. cbv iota.
  erewrite bind_normal by (apply lift_run; exact Hme).
  erewrite bind_normal by apply print_run.
  erewrite bind_normal by apply print_run.
  erewrite bind_normal
    by (unfold get_all_items; rewrite Hdialogs; reflexivity).
  reflexivity.
Qed.

(** Property X21.  An account without conversations: after the listing the
    run says so, releases the session and returns; the script reads no
    further line, whatever the flags, and what the login left on standard
    input is still there. *)
Theorem empty_account_ends_the_run (client : TelegramClient) (args : Namespace)
    (phone : string) (lines rest : list string) (me : UserT) :
  start client phone lines = Normal rest ->
  is_user_authorized client = Normal true ->
  get_me client = Normal me ->
  iter_dialogs client = ([], None) ->
  fst (run client args (phone :: lines)) = Normal tt
  /\ trace (snd (run client args (phone :: lines)))
     = opening phone ++ greeting me
       ++ [Stdout ("No conversations found." ++ nl)%string; Disconnect]
  /\ stdin (snd (run client args (phone :: lines))) = rest.
Proof.
  intros Hstart Hauth Hme Hdialogs.
  rewrite (empty_account_run client args phone lines rest me
             Hstart Hauth Hme Hdialogs).
  repeat split; reflexivity.
Qed.

Lemma empty_account_ends_the_run_witness :
  fst (run (Sample.session [] (fun _ => None))
         (Sample.flags false false false false true)
         ["+15550100"%string; "all"%string])
  = Normal tt
  /\ trace (snd (run (Sample.session [] (fun _ => None))
                   (Sample.flags false false false false true)
                   ["+15550100"%string; "all"%string]))
     = opening "+15550100" ++ greeting Sample.ann
       ++ [Stdout ("No conversations found." ++ nl)%string; Disconnect]
  /\ stdin (snd (run (Sample.session [] (fun _ => None))
                   (Sample.flags false false false false true)
                   ["+15550100"%string; "all"%string]))
     = ["all"%string].
Proof.
  apply (empty_account_ends_the_run (Sample.session [] (fun _ => None))
           (Sample.flags false false false false true)
           "+15550100" ["all"%string] ["all"%string] Sample.ann);
    reflexivity.
Defined.

(** *** The flags and the menu *)

Lemma select_items_flagged (args : Namespace) (all_items : Inventory)
    (w : World) :
  interactive args = false ->
  all args || chats args || groups_flag args || channels_flag args = true ->
  select_items args all_items w = (Normal (Some (flagged args all_items)), w).
Proof.
  intros Hint Hflag. unfold select_items, flagged. rewrite Hint.
  destruct (all args).
  { unfold extend_all, dict_items. simpl. rewrite <- !app_assoc. reflexivity. }
  simpl in Hflag. rewrite Hflag. simpl.
  destruct (chats args), (groups_flag args), (channels_flag args);
    simpl; unfold ret; rewrite ?app_nil_r, <- ?app_assoc; reflexivity.
Qed.

(** Property X22.  Without [--interactive], flags choose the items without
    reading or writing anything: [--all] takes the four buckets in the order
    of the dictionary, whatever the other flags are, and the category flags
    take their buckets in the order chats, groups, channels. *)
Theorem flags_select_buckets (args : Namespace) (all_items : Inventory)
    (w : World) :
  interactive args = false ->
  all args || chats args || groups_flag args || channels_flag args = true ->
  select_items args all_items w = (Normal (Some (flagged args all_items)), w)
  /\ flagged args all_items
     = if all args then flatten all_items
       else (if chats args then private_chats all_items else [])
            ++ (if groups_flag args then groups all_items else [])
            ++ (if channels_flag args then channels all_items else []).
Proof.
  intros Hint Hflag. split; [apply select_items_flagged; assumption|].
  unfold flagged, flatten, dict_items. simpl. rewrite app_nil_r. reflexivity.
Qed.

Lemma flags_select_buckets_witness :
  select_items (Sample.flags false false true true false)
    {| private_chats := [0; 4]; groups := [2; 3]; channels := [1; 5];
       other := [6] |}
    (Sample.twelve_items [])
  = (Normal (Some [2; 3; 1; 5]), Sample.twelve_items []).
Proof.
  exact (proj1 (flags_select_buckets (Sample.flags false false true true false)
                  {| private_chats := [0; 4]; groups := [2; 3]; channels := [1; 5];
                     other := [6] |}
                  (Sample.twelve_items []) eq_refl eq_refl)).
Defined.

(** Property X23.  The choices 1 to 4 of the menu give the items of the
    flags they stand for, and read one line only. *)
Theorem menu_choice_matches_flag (d : float) (args : Namespace)
    (all_items : Inventory) (answer : string) (rest : list string) (w : World) :
  stdin w = answer :: rest ->
  menu_flags (Py.strip answer) d = Some args ->
  exists w',
    select_items (no_flags d) all_items w
    = (Normal (Some (flagged args all_items)), w')
    /\ select_items args all_items w = (Normal (Some (flagged args all_items)), w)
    /\ stdin w' = rest /\ heap w' = heap w.
Proof.
  intros Hstdin Hchoice.
  assert (Hflags : interactive args = false
                   /\ all args || chats args || groups_flag args
                      || channels_flag args = true
                   /\ flagged args all_items
                      = if String.eqb (Py.strip answer) "1"
                        then extend_all [] all_items
                        else if String.eqb (Py.strip answer) "2"
                        then [] ++ private_chats all_items
                        else if String.eqb (Py.strip answer) "3"
                        then [] ++ groups all_items
                        else [] ++ channels all_items).
  { unfold menu_flags in Hchoice.
    repeat match type of Hchoice with
           | (if ?c then _ else _) = _ =>
               destruct c;
               [injection Hchoice as <-; repeat split;
                unfold flagged, extend_all, dict_items; simpl;
                rewrite ?app_nil_r, <- ?app_assoc; reflexivity|]
           end.
    discriminate. }
  destruct Hflags as (Hint & Hflag & Hitems).
  eexists. split; [|split; [apply select_items_flagged; assumption|]].
  - unfold select_items, no_flags. simpl. unfold choose.
    do 7 (erewrite bind_normal by apply print_run).
    erewrite bind_normal by (apply input_run; exact Hstdin).
    cbv zeta. rewrite Hitems. unfold menu_flags in Hchoice.
    repeat match type of Hchoice with
           | (if ?c then _ else _) = _ => destruct c; [reflexivity|]
           end.
    discriminate.
  - split; reflexivity.
Qed.

Lemma menu_choice_matches_flag_witness :
  exists w',
    select_items (no_flags 2%float)
      {| private_chats := [0; 4]; groups := [2; 3]; channels := [1; 5];
         other := [6] |}
      (Sample.twelve_items [" 3 "%string; "yes"%string])
    = (Normal (Some [2; 3]), w')
    /\ stdin w' = ["yes"%string].
Proof.
  destruct (menu_choice_matches_flag 2%float _
              {| private_chats := [0; 4]; groups := [2; 3]; channels := [1; 5];
                 other := [6] |}
              " 3 " ["yes"%string]
              (Sample.twelve_items [" 3 "%string; "yes"%string])
              eq_refl eq_refl)
    as (w' & Hrun & _ & Hin & _).
  exists w'. split; [exact Hrun|exact Hin].
Defined.

End Safety.


(** ** delete.py: the pauses of the deletion loop *)

Section Pauses.
Import Delete More.
Local Open Scope py_scope.
Local Open Scope list_scope.

Variable client : TelegramClient.

Hypothesis remote_raises_exceptions :
  forall history q e, call client history q = Some e -> is_Exception e = true.

Lemma pauses_app (a b : list event) : pauses (a ++ b) = pauses a ++ pauses b.
Proof. unfold pauses. apply omap_app. Qed.

Lemma pauses_request_or_log (events : list event) :
  Forall request_or_log events -> pauses events = [].
Proof.
  induction 1 as [|e events He _ IH]; [reflexivity|].
  destruct e; simpl in He |- *; try contradiction; exact IH.
Qed.

Lemma pauses_turn (h : store) (n : nat) (numbered : nat * ref)
    (turn : list event) :
  is_turn h n numbered turn -> pauses turn = [].
Proof.
  intros (attempt & success & -> & Hattempt).
  change (pauses (attempt ++ [verdict success]) = []).
  rewrite pauses_app, (pauses_request_or_log _ Hattempt). reflexivity.
Qed.

(** Between [k] turns there are [k - 1] pauses. *)
Lemma pauses_join (d : float) (turns : list (list event)) :
  Forall (fun turn => pauses turn = []) turns ->
  pauses (join (Sleep d) turns) = repeat d (length turns - 1).
Proof.
  induction 1 as [|turn rest Hturn Hrest IH]; [reflexivity|].
  destruct rest as [|turn' rest'].
  - simpl. exact Hturn.
  - change (join (Sleep d) (turn :: turn' :: rest'))
      with (turn ++ Sleep d :: join (Sleep d) (turn' :: rest')).
    rewrite pauses_app, Hturn.
    change (pauses (Sleep d :: join (Sleep d) (turn' :: rest')))
      with (d :: pauses (join (Sleep d) (turn' :: rest'))).
    rewrite IH. simpl. rewrite Nat.sub_0_r. reflexivity.
Qed.

Lemma log_and_fail_log (context : string) (e : exn) (w : World) :
  exists msg exc,
    log_and_fail context e w = (Normal false, extend w [Log "ERROR" msg exc]).
Proof. destruct e; eexists; eexists; reflexivity. Qed.

Lemma guarded_request_events (q : Request) (context : string) (w : World) :
  exists success events,
    try_except (invoke client q ;; ret true) is_Exception (log_and_fail context) w
    = (Normal success, extend w events)
    /\ Forall request_or_log events.
Proof.
  unfold try_except, bind. rewrite (invoke_run client).
  destruct (call client (requests (trace w)) q) as [e|] eqn:Hcall.
  - rewrite (remote_raises_exceptions _ _ _ Hcall).
    destruct (log_and_fail_log context e (extend w [Invoke q]))
      as (msg & exc & ->).
    exists false, [Invoke q; Log "ERROR" msg exc]. rewrite extend_extend.
    split; [reflexivity|]. repeat constructor.
  - exists true, [Invoke q]. split; [reflexivity|]. repeat constructor.
Qed.

(** [delete_item] returns, and all it records are requests and records of
    the logger. *)
Lemma delete_item_events (r : ref) (w : World) :
  exists success events,
    delete_item client r w = (Normal success, extend w events)
    /\ Forall request_or_log events.
Proof.
  unfold delete_item, bind, deref. simpl.
  destruct (String.eqb (type (heap w !!! r)) "Private Chat").
  { unfold delete_private_chat, bind, deref. simpl.
    apply guarded_request_events. }
  destruct (Py.contains "Group" _ || Py.contains "Channel" _).
  { unfold leave_group_or_channel, bind, deref. simpl.
    destruct (is_Channel (entity (heap w !!! r))); apply guarded_request_events. }
  eexists false, [Log "WARNING" _ None]. split; [reflexivity|].
  repeat constructor.
Qed.

Lemma delete_loop_turns (d : float) (n : nat) (items : list ref) :
  is_finite d = true ->
  forall (i count : nat) (w : World),
    i + length items = S n ->
    exists c turns,
      delete_loop client d n (enumerate i items) count w
      = (Normal c, extend w (join (Sleep d) turns))
      /\ Forall2 (is_turn (heap w) n) (enumerate i items) turns.
Proof.
  intros Hfinite.
  induction items as [|r rest IH]; intros i count w Hn.
  - exists count, []. simpl. rewrite extend_nil.
    split; [reflexivity|constructor].
  - cbn [enumerate delete_loop].
    erewrite bind_normal by reflexivity.
    erewrite bind_normal by apply emit_run.
    fold (announcement i n (heap w !!! r)).
    set (announce := announcement i n (heap w !!! r)).
    destruct (delete_item_events r (extend w [announce]))
      as (v & attempt & Hrun & Hattempt).
    erewrite bind_normal by exact Hrun. rewrite extend_extend.
    set (turn := announce :: attempt ++ [verdict v]).
    set (pause := if (i <? n)%nat then [Sleep d] else []).
    assert (Hturn :
      (success_count' <-
         (if v then print " Done" ;; ret (S count)
          else print " Failed" ;; ret count) ;;
       (if (i <? n)%nat then sleep d else ret tt) ;;
       delete_loop client d n (enumerate (S i) rest) success_count')
        (extend w ([announce] ++ attempt))
      = delete_loop client d n (enumerate (S i) rest)
          (if v then S count else count) (extend w (turn ++ pause))).
    { replace (extend w (turn ++ pause))
        with (extend (extend (extend w ([announce] ++ attempt)) [verdict v]) pause)
        by (rewrite !extend_extend; unfold turn; simpl;
            rewrite <- !app_assoc; reflexivity).
      unfold pause, verdict.
      destruct v, (i <? n)%nat;
        (erewrite bind_normal by reflexivity);
        (erewrite bind_normal
           by first [apply sleep_run; exact Hfinite|reflexivity]);
        rewrite ?extend_nil; reflexivity. }
    rewrite Hturn.
    simpl in Hn.
    destruct (IH (S i) (if v then S count else count) (extend w (turn ++ pause))
                ltac:(simpl; lia))
      as (c & turns & Hloop & Hturns).
    change (heap (extend w (turn ++ pause))) with (heap w) in Hturns.
    exists c, (turn :: turns). rewrite Hloop, extend_extend. split.
    + f_equal. f_equal. unfold pause.
      destruct rest as [|r' rest'].
      * inversion Hturns; subst.
        replace (i <? n)%nat with false
          by (symmetry; apply Nat.ltb_ge; simpl in Hn; lia).
        simpl. rewrite !app_nil_r. reflexivity.
      * inversion Hturns as [|? turn' ? turns' _ _]; subst.
        replace (i <? n)%nat with true
          by (symmetry; apply Nat.ltb_lt; simpl in Hn; lia).
        change (join (Sleep d) (turn :: turn' :: turns'))
          with (turn ++ Sleep d :: join (Sleep d) (turn' :: turns')).
        rewrite <- app_assoc. reflexivity.
    + constructor; [|exact Hturns].
      exists attempt, v. split; [reflexivity|exact Hattempt].
Qed.

(** Property X24.  The loop of lines 447-459, when the remote call raises
    nothing but [Exception]s and the delay [args.delay] is finite: it
    returns, and what it records is one turn per item, in the order of the
    list, with one pause of [args.delay] between two consecutive turns and
    nowhere else: none before the first turn, none after the last, and
    none inside a turn, which is the announcement of the item, the
    requests and log records of [delete_item], and the verdict.  So there
    is one pause less than there are items. *)
Theorem pauses_between_items_only (d : float) (items_to_delete : list ref)
    (w : World) :
  is_finite d = true ->
  exists success_count turns,
    delete_loop client d (length items_to_delete)
      (enumerate 1 items_to_delete) 0 w
    = (Normal success_count, extend w (join (Sleep d) turns))
    /\ Forall2 (is_turn (heap w) (length items_to_delete))
         (enumerate 1 items_to_delete) turns
    /\ pauses (join (Sleep d) turns) = repeat d (length items_to_delete - 1).
Proof.
  intros Hfinite.
  destruct (delete_loop_turns d (length items_to_delete) items_to_delete
              Hfinite 1 0 w eq_refl)
    as (c & turns & Hrun & Hturns).
  exists c, turns. split; [exact Hrun|]. split; [exact Hturns|].
  rewrite pauses_join.
  - apply Forall2_length in Hturns. rewrite <- Hturns. f_equal. f_equal.
    clear. generalize 1. induction items_to_delete as [|r rest IH]; intros k;
      [reflexivity|]. simpl. rewrite (IH (S k)). reflexivity.
  - clear Hrun. induction Hturns as [|numbered turn ? ? Hturn _ IH];
      constructor; [eapply pauses_turn; exact Hturn|exact IH].
Qed.

(** Property X30.  The loop of lines 447-459 with [--delay inf], which
    [argparse] accepts, on two items or more, when the remote call raises
    nothing but [Exception]s: after the turn of the first item the call
    [asyncio.sleep(inf)] never returns, so the loop records that one turn
    and the pause and nothing else, and no later item is attempted. *)
Theorem infinite_delay_stops_after_first_item (r1 r2 : ref) (rest : list ref)
    (w : World) :
  exists turn,
    delete_loop client infinity (length (r1 :: r2 :: rest))
      (enumerate 1 (r1 :: r2 :: rest)) 0 w
    = (Raise NeverReturns, extend w (turn ++ [Sleep infinity]))
    /\ is_turn (heap w) (length (r1 :: r2 :: rest)) (1, r1) turn
    /\ requests (turn ++ [Sleep infinity])
       = option_list (request_for (heap w !!! r1)).
Proof.
  cbn [enumerate delete_loop].
  erewrite bind_normal by reflexivity.
  erewrite bind_normal by apply emit_run.
  fold (announcement 1 (length (r1 :: r2 :: rest)) (heap w !!! r1)).
  set (announce := announcement 1 (length (r1 :: r2 :: rest)) (heap w !!! r1)).
  destruct (delete_item_events r1 (extend w [announce]))
    as (v & attempt & Hrun & Hattempt).
  destruct (delete_item_run client remote_raises_exceptions r1
              (extend w [announce]))
    as (attempt' & Hrun' & Hreq & _).
  assert (Hsame : attempt' = attempt).
  { rewrite Hrun in Hrun'. injection Hrun' as _ Htrace.
    apply (app_inv_head (trace (extend w [announce]))). symmetry. exact Htrace. }
  subst attempt'.
  change (heap (extend w [announce]) !!! r1) with (heap w !!! r1) in Hreq.
  erewrite bind_normal by exact Hrun. rewrite extend_extend.
  exists (announce :: attempt ++ [verdict v]). split; [|split].
  - change (1 <? length (r1 :: r2 :: rest))%nat with true. cbv iota.
    destruct v;
      (erewrite bind_normal by reflexivity);
      (erewrite bind_raise by reflexivity);
      (f_equal; unfold extend; simpl; rewrite <- !app_assoc; reflexivity).
  - exists attempt, v. split; [reflexivity|exact Hattempt].
  - change (announce :: attempt ++ [verdict v])
      with ([announce] ++ attempt ++ [verdict v]).
    rewrite !requests_app, Hreq. simpl. rewrite !app_nil_r. reflexivity.
Qed.

End Pauses.

Section PausesScenario.
Import Delete More.
Local Open Scope list_scope.

Lemma pauses_between_items_only_witness :
  exists success_count turns,
    delete_loop (Sample.session Sample.five_dialogs Sample.third_is_rate_limited)
      2%float 5 (enumerate 1 [0; 1; 2; 3; 4]) 0 (Sample.five_items [])
    = (Normal success_count,
       extend (Sample.five_items []) (join (Sleep 2%float) turns))
    /\ length turns = 5
    /\ pauses (join (Sleep 2%float) turns) = [2%float; 2%float; 2%float; 2%float].
Proof.
  destruct (pauses_between_items_only
              (Sample.session Sample.five_dialogs Sample.third_is_rate_limited)
              ltac:(intros history q e; simpl;
                    unfold Sample.third_is_rate_limited;
                    destruct (length history =? 2)%nat;
                    [intros [= <-]; reflexivity|discriminate])
              2%float [0; 1; 2; 3; 4] (Sample.five_items []) eq_refl)
    as (c & turns & Hrun & Hturns & Hpauses).
  exists c, turns. split; [exact Hrun|]. split; [|exact Hpauses].
  apply Forall2_length in Hturns. symmetry. exact Hturns.
Defined.

Lemma infinite_delay_stops_after_first_item_witness :
  exists turn,
    delete_loop (Sample.session Sample.five_dialogs (fun _ => None))
      infinity 5 (enumerate 1 [0; 1; 2; 3; 4]) 0 (Sample.five_items [])
    = (Raise NeverReturns,
       extend (Sample.five_items []) (turn ++ [Sleep infinity]))
    /\ requests (turn ++ [Sleep infinity])
       = [DeleteHistoryRequest (User Sample.ann) 0 false true].
Proof.
  destruct (infinite_delay_stops_after_first_item
              (Sample.session Sample.five_dialogs (fun _ => None))
              ltac:(intros history q e H; discriminate H)
              0 1 [2; 3; 4] (Sample.five_items []))
    as (turn & Hrun & _ & Hreq).
  exists turn. split; [exact Hrun|exact Hreq].
Defined.

End PausesScenario.

(** ** imghdr.py: the header of a file *)

Section Headers.
Import Imghdr.
Local Open Scope list_scope.



End Headers.

(** ** delete.py: from the login to the selection *)

Section Counts.
Import Delete More.
Local Open Scope py_scope.
Local Open Scope list_scope.

Lemma unauthorized_run (client : TelegramClient) (args : Namespace)
    (phone : string) (lines rest : list string) :
  start client phone lines = Normal rest ->
  is_user_authorized client = Normal false ->
  run client args (phone :: lines)
  = (Normal tt,
     {| stdin := rest;
        trace := opening phone
                 ++ [Stdout ("Authentication failed. Please try again." ++ nl)%string;
                     Disconnect];
        heap := [] |}).
Proof.
  intros Hstart Hauth. unfold run, asyncio_run, main.
  erewrite bind_normal by apply print_run.
  erewrite bind_normal by apply print_run.
  erewrite bind_normal by (apply input_run; reflexivity).
  erewrite bind_normal by reflexivity.
  unfold try_finally, try_except, main_body.
  erewrite bind_normal by (apply client_start_run; exact Hstart).
  erewrite bind_normal by (apply lift_run; exact Hauth).
  reflexivity.
Qed.

(** Property X26.  A login after which the user is not authorized: the
    run says that the authentication failed, releases the session and
    returns; the script does not ask who the user is, lists nothing, asks
    nothing and makes no request. *)
Theorem unauthorized_login_ends_the_run (client : TelegramClient)
    (args : Namespace) (phone : string) (lines rest : list string) :
  start client phone lines = Normal rest ->
  is_user_authorized client = Normal false ->
  fst (run client args (phone :: lines)) = Normal tt
  /\ trace (snd (run client args (phone :: lines)))
     = opening phone
       ++ [Stdout ("Authentication failed. Please try again." ++ nl)%string;
           Disconnect].
Proof.
  intros Hstart Hauth.
  rewrite (unauthorized_run client args phone lines rest Hstart Hauth).
  split; reflexivity.
Qed.

Lemma unauthorized_login_ends_the_run_witness :
  fst (run {| start := fun _ lines => Normal lines;
              is_user_authorized := Normal false;
              get_me := Raise AttributeError;
              iter_dialogs := (Sample.three_dialogs, None);
              call := fun _ _ => None |}
         (Sample.flags true false false false false)
         ["+15550100"%string; "yes"%string])
  = Normal tt
  /\ trace (snd (run {| start := fun _ lines => Normal lines;
                        is_user_authorized := Normal false;
                        get_me := Raise AttributeError;
                        iter_dialogs := (Sample.three_dialogs, None);
                        call := fun _ _ => None |}
                   (Sample.flags true false false false false)
                   ["+15550100"%string; "yes"%string]))
     = opening "+15550100"
       ++ [Stdout ("Authentication failed. Please try again." ++ nl)%string;
           Disconnect].
Proof.
  apply (unauthorized_login_ends_the_run _ _ _ _ ["yes"%string]); reflexivity.
Defined.

Lemma filed_under_length (k : key) (base : nat) (dialogs : list Dialog) :
  length (filed_under k base dialogs) = count_key k dialogs.
Proof.
  unfold count_key.
  revert base; induction dialogs as [|d ds IH]; intros base; [reflexivity|].
  cbn [filed_under List.filter].
  destruct (decide (fst (classify d) = k)) as [Hd|Hd].
  - rewrite (bool_decide_eq_true_2 _ Hd). simpl. f_equal. apply IH.
  - rewrite (bool_decide_eq_false_2 _ Hd). apply IH.
Qed.

Lemma count_key_total (dialogs : list Dialog) :
  count_key private_chats_key dialogs + count_key groups_key dialogs
  + count_key channels_key dialogs + count_key other_key dialogs
  = length dialogs.
Proof.
  rewrite <- !(filed_under_length _ 0).
  pose proof (filed_under_partition 0 dialogs) as Hperm.
  apply Permutation_length in Hperm.
  rewrite !length_app, length_seq in Hperm. lia.
Qed.

(** The body of [main] from the login to the selection, on an account
    with conversations. *)
Lemma main_body_until_selection (client : TelegramClient) (args : Namespace)
    (phone : string) (rest : list string) (me : UserT)
    (dialogs : list Dialog) (w : World) :
  start client phone (stdin w) = Normal rest ->
  is_user_authorized client = Normal true ->
  get_me client = Normal me ->
  iter_dialogs client = (dialogs, None) ->
  dialogs <> [] ->
  heap w = [] ->
  exists all_items,
    main_body client args phone w
    = (selection <- select_items args all_items ;;
       match selection with
       | None => ret tt
       | Some items_to_delete => confirm_and_delete client args items_to_delete
       end)
        {| stdin := rest;
           trace := trace w ++ [Started phone] ++ greeting me ++ found_lines dialogs;
           heap := map (fun d => snd (classify d)) dialogs |}
    /\ forall k, bucket k all_items = filed_under k 0 dialogs.
Proof.
  intros Hstart Hauth Hme Hdialogs Hne Hheap.
  unfold main_body.
  erewrite bind_normal by (apply client_start_run; exact Hstart).
  erewrite bind_normal by (apply lift_run; exact Hauth).
  change (negb true) with false. cbv iota.
  erewrite bind_normal by (apply lift_run; exact Hme).
  erewrite bind_normal by apply print_run.
  erewrite bind_normal by apply print_run.
  rewrite !extend_extend.
  set (w1 := extend (set_stdin _ _) _).
  destruct (get_all_items_run client dialogs w1 Hdialogs)
    as (all_items & Hrun & Hbuckets).
  change (heap w1) with (heap w) in Hrun, Hbuckets.
  rewrite Hheap in Hrun, Hbuckets. simpl in Hrun, Hbuckets.
  erewrite bind_normal by exact Hrun.
  exists all_items. split; [|exact Hbuckets].
  assert (Hlen : forall k, length (bucket k all_items) = count_key k dialogs)
    by (intros k; rewrite Hbuckets; apply filed_under_length).
  pose proof (Hlen private_chats_key) as Hp. pose proof (Hlen groups_key) as Hg.
  pose proof (Hlen channels_key) as Hc. pose proof (Hlen other_key) as Ho.
  simpl in Hp, Hg, Hc, Ho.
  pose proof (count_key_total dialogs) as Htotal.
  assert (Hsum : list_sum (map snd (map (fun entry : string * list ref =>
                                            (fst entry, length (snd entry)))
                                      (dict_items all_items)))
                 = length dialogs).
  { unfold dict_items. simpl. rewrite Hp, Hg, Hc, Ho. lia. }
  cbv zeta. rewrite Hsum.
  replace (length dialogs =? 0)%nat with false
    by (symmetry; apply Nat.eqb_neq; destruct dialogs; [contradiction|discriminate]).
  do 5 (erewrite bind_normal by apply print_run).
  rewrite !extend_extend, Hp, Hg, Hc, Ho.
  f_equal. unfold w1, set_heap, set_stdin, extend. simpl.
  rewrite <- ?app_assoc. reflexivity.
Qed.

(** Property X27.  After a successful login to an account with
    conversations, and before anything is selected, every run reports the
    listing: the total it prints is the number of dialogs listed, the four
    counts are those of the dialogs filed under each key, and they add up
    to the total. *)
Theorem counts_report_the_listing (client : TelegramClient) (args : Namespace)
    (phone : string) (lines rest : list string) (me : UserT)
    (dialogs : list Dialog) :
  start client phone lines = Normal rest ->
  is_user_authorized client = Normal true ->
  get_me client = Normal me ->
  iter_dialogs client = (dialogs, None) ->
  dialogs <> [] ->
  (exists events,
     trace (snd (run client args (phone :: lines)))
     = opening phone ++ greeting me ++ found_lines dialogs ++ events)
  /\ count_key private_chats_key dialogs + count_key groups_key dialogs
     + count_key channels_key dialogs + count_key other_key dialogs
     = length dialogs.
Proof.
  intros Hstart Hauth Hme Hdialogs Hne.
  split; [|apply count_key_total].
  unfold run, asyncio_run, main.
  erewrite bind_normal by apply print_run.
  erewrite bind_normal by apply print_run.
  erewrite bind_normal by (apply input_run; reflexivity).
  erewrite bind_normal by reflexivity.
  set (w0 := set_stdin _ lines).
  destruct (main_body_until_selection client args phone rest me dialogs w0
              Hstart Hauth Hme Hdialogs Hne eq_refl)
    as (all_items & Hbody & _).
  unfold try_finally, try_except. rewrite Hbody.
  set (wp := {| stdin := rest; trace := _; heap := _ |}).
  assert (Hrest : emits true [choice_prompt; command_prompt; confirm_prompt]
            (selection <- select_items args all_items ;;
             match selection with
             | None => ret tt
             | Some items_to_delete =>
                 confirm_and_delete client args items_to_delete
             end)).
  { apply emits_bind; [solve_emits|intros [items|]; solve_emits]. }
  destruct (Hrest wp) as (events & Htrace & _).
  destruct ((selection <- select_items args all_items ;; _) wp)
    as [[[]|e] w1]; simpl in Htrace.
  - exists (events ++ [Disconnect]). simpl. rewrite Htrace.
    unfold wp. simpl. rewrite <- ?app_assoc. reflexivity.
  - destruct (is_Exception e).
    + assert (Hh : exists record, main_handler e w1 = (Normal tt, extend w1 [record]))
        by (destruct e; eexists; reflexivity).
      destruct Hh as (record & ->).
      exists (events ++ [record; Disconnect]). simpl. rewrite Htrace.
      unfold wp. simpl. rewrite <- ?app_assoc. reflexivity.
    + destruct e;
        first [exists (events ++ [Disconnect]); simpl; rewrite Htrace;
               unfold wp; simpl; rewrite <- ?app_assoc; reflexivity
              |exists events; simpl; rewrite Htrace;
               unfold wp; simpl; rewrite <- ?app_assoc; reflexivity].
Qed.

Lemma counts_report_the_listing_witness :
  (exists events,
     trace (snd (Sample.interactive_run ["+15550100"%string; "quit"%string]))
     = opening "+15550100" ++ greeting Sample.ann
       ++ [Stdout "
Found 3 total conversations:
"%string; Stdout "- Private Chats: 2
"%string; Stdout "- Groups: 1
"%string; Stdout "- Channels: 0
"%string; Stdout "- Other: 0
"%string] ++ events)
  /\ 2 + 1 + 0 + 0 = 3.
Proof.
  exact (counts_report_the_listing
           (Sample.session Sample.three_dialogs (fun _ => None))
           (Sample.flags false false false false true)
           "+15550100" ["quit"%string] ["quit"%string] Sample.ann
           Sample.three_dialogs eq_refl eq_refl eq_refl eq_refl
           ltac:(discriminate)).
Defined.

(** Property X28.  [--chats] on an account that has conversations but no
    private chat: after the counts the run says that no items were
    selected, releases the session and returns; it does not ask for a
    confirmation and makes no request. *)
Theorem empty_selection_ends_the_run (client : TelegramClient) (d : float)
    (phone : string) (lines rest : list string) (me : UserT)
    (dialogs : list Dialog) :
  start client phone lines = Normal rest ->
  is_user_authorized client = Normal true ->
  get_me client = Normal me ->
  iter_dialogs client = (dialogs, None) ->
  dialogs <> [] ->
  private_dialogs dialogs = [] ->
  fst (run client (chats_only d) (phone :: lines)) = Normal tt
  /\ trace (snd (run client (chats_only d) (phone :: lines)))
     = opening phone ++ greeting me ++ found_lines dialogs
       ++ [Stdout ("No items selected for deletion. Exiting." ++ nl)%string;
           Disconnect].
Proof.
  intros Hstart Hauth Hme Hdialogs Hne Hprivate.
  unfold run, asyncio_run, main.
  erewrite bind_normal by apply print_run.
  erewrite bind_normal by apply print_run.
  erewrite bind_normal by (apply input_run; reflexivity).
  erewrite bind_normal by reflexivity.
  set (w0 := set_stdin _ lines).
  destruct (main_body_until_selection client (chats_only d) phone rest me
              dialogs w0 Hstart Hauth Hme Hdialogs Hne eq_refl)
    as (all_items & Hbody & Hbuckets).
  unfold try_finally, try_except. rewrite Hbody.
  erewrite bind_normal by apply select_items_chats.
  assert (Hnone : private_chats all_items = []).
  { apply length_zero_iff_nil.
    change (private_chats all_items) with (bucket private_chats_key all_items).
    rewrite Hbuckets, filed_under_private_length, Hprivate. reflexivity. }
  rewrite Hnone. simpl. split; [reflexivity|].
  rewrite <- ?app_assoc. reflexivity.
Qed.

Lemma empty_selection_ends_the_run_witness :
  fst (run (Sample.session [Sample.dialog_of "Family" (Chat 41)] (fun _ => None))
         (chats_only 2%float) ["+15550100"%string; "yes"%string])
  = Normal tt
  /\ trace (snd (run (Sample.session [Sample.dialog_of "Family" (Chat 41)]
                        (fun _ => None))
                   (chats_only 2%float) ["+15550100"%string; "yes"%string]))
     = opening "+15550100" ++ greeting Sample.ann
       ++ found_lines [Sample.dialog_of "Family" (Chat 41)]
       ++ [Stdout ("No items selected for deletion. Exiting." ++ nl)%string;
           Disconnect].
Proof.
  apply (empty_selection_ends_the_run _ 2%float _ _ ["yes"%string] Sample.ann
           [Sample.dialog_of "Family" (Chat 41)]);
    [reflexivity|reflexivity|reflexivity|reflexivity|discriminate|reflexivity].
Defined.

End Counts.
